(** * Mikrotik traffic analyzer: log parsing and traffic aggregation

    A shallow embedding of [src/modules/data_processor.py]
    ([parse_mikrotik_logs], [process_traffic_data]) and of the resampling
    steps of [src/modules/visualizer.py] ([create_bandwidth_chart],
    [create_connection_chart]).

    Conventions of the embedding.
    - Python [str] is [string]; the model covers ASCII text (the character
      classes [\d], [\w], [\s] and [str.lower] are given on code points
      below 128; other code points are ordinary symbols).
    - A [dict] that becomes a [DataFrame] row is an association list in
      insertion order, since pandas derives the column order from it.
    - A [DataFrame] is a row count and a list of named columns.  A
      function that assigns to a column of the frame it was given returns
      the frame as the call leaves it, next to its result.
    - The libraries the source calls are not part of the repository.
      [re] and [datetime.strptime] are modelled by a small backtracking
      matcher.  The pandas readers and coercions are the fields of the
      class [Pandas] and the sort of a series is the class [SortValues],
      so that general statements hold for every behaviour of the library;
      the instances [pandas_model] and [insertion_sort_values] fix one
      behaviour to run examples.  Grouping and resampling follow the
      documented defaults of pandas (sorted group keys, missing keys and
      missing time stamps dropped, empty buckets kept).
    - Numbers are integers ([Z]); a float quotient is kept as the pair of
      its operands and float arithmetic is not modelled. *)

From Stdlib Require Import Bool Arith ZArith Lia List Ascii String.
From Stdlib Require Import Permutation Sorted.
Import ListNotations.
Open Scope string_scope.
Open Scope list_scope.

(* ===================================================================== *)
(** ** Python strings *)
(* ===================================================================== *)

Module PyStr.

Definition code (c : ascii) : nat := nat_of_ascii c.

Definition in_range (lo hi : nat) (c : ascii) : bool :=
  ((lo <=? code c)%nat && (code c <=? hi)%nat)%bool.

Definition is_digit (c : ascii) : bool := in_range 48 57 c.
Definition is_upper (c : ascii) : bool := in_range 65 90 c.
Definition is_lower (c : ascii) : bool := in_range 97 122 c.
Definition is_alpha (c : ascii) : bool := is_upper c || is_lower c.

(** [str.isspace] and the class [\s] on ASCII: TAB, LF, VT, FF, CR, the
    separators 0x1c-0x1f and the space. *)
Definition is_space (c : ascii) : bool := in_range 9 13 c || in_range 28 32 c.

(** The class [\w] on ASCII. *)
Definition is_word (c : ascii) : bool :=
  is_digit c || is_alpha c || (c =? "_")%char.

Definition lower_char (c : ascii) : ascii :=
  if is_upper c then ascii_of_nat (code c + 32) else c.

Fixpoint map_chars (f : ascii -> ascii) (s : string) : string :=
  match s with
  | EmptyString => EmptyString
  | String c s' => String (f c) (map_chars f s')
  end.

(** [s.lower()] *)
Definition lower (s : string) : string := map_chars lower_char s.

(** [s.replace(a, b)] for single characters. *)
Definition replace (a b : ascii) (s : string) : string :=
  map_chars (fun c => if (c =? a)%char then b else c) s.

Fixpoint lstrip_by (p : ascii -> bool) (s : string) : string :=
  match s with
  | EmptyString => EmptyString
  | String c s' => if p c then lstrip_by p s' else s
  end.

Fixpoint rstrip_by (p : ascii -> bool) (s : string) : string :=
  match s with
  | EmptyString => EmptyString
  | String c s' =>
      match rstrip_by p s' with
      | EmptyString => if p c then EmptyString else String c EmptyString
      | r => String c r
      end
  end.

(** [s.strip()] *)
Definition strip (s : string) : string := rstrip_by is_space (lstrip_by is_space s).

(** [s.strip(':')] *)
Definition strip_char (a : ascii) (s : string) : string :=
  rstrip_by (Ascii.eqb a) (lstrip_by (Ascii.eqb a) s).

(** [s.split(sep)] for a single-character separator. *)
Fixpoint split (sep : ascii) (s : string) : list string :=
  match s with
  | EmptyString => [EmptyString]
  | String c s' =>
      if (c =? sep)%char then EmptyString :: split sep s'
      else match split sep s' with
           | h :: t => String c h :: t
           | [] => [String c EmptyString]
           end
  end.

Definition startswith (a : ascii) (s : string) : bool :=
  match s with
  | String c _ => (c =? a)%char
  | EmptyString => false
  end.

Fixpoint endswith (a : ascii) (s : string) : bool :=
  match s with
  | EmptyString => false
  | String c EmptyString => (c =? a)%char
  | String _ s' => endswith a s'
  end.

Fixpoint drop_last (s : string) : string :=
  match s with
  | EmptyString => EmptyString
  | String _ EmptyString => EmptyString
  | String c s' => String c (drop_last s')
  end.

(** [s[1:-1]] *)
Definition slice_1_m1 (s : string) : string :=
  match s with
  | EmptyString => EmptyString
  | String _ s' => drop_last s'
  end.

(** [sep.join(parts)] *)
Fixpoint join (sep : string) (parts : list string) : string :=
  match parts with
  | [] => EmptyString
  | [p] => p
  | p :: ps => p ++ sep ++ join sep ps
  end.

(** [re.split(r'\s+', s)] on a string without leading or trailing
    whitespace (the source always strips first): the maximal runs of
    non-space characters; the empty string splits into one empty part. *)
Fixpoint split_ws_aux (cur : string) (s : string) : list string :=
  match s with
  | EmptyString => [cur]
  | String c s' =>
      if is_space c then
        match s' with
        | String c' _ => if is_space c' then split_ws_aux cur s'
                         else cur :: split_ws_aux EmptyString s'
        | EmptyString => [cur; EmptyString]
        end
      else split_ws_aux (cur ++ String c EmptyString) s'
  end.

Definition split_ws (s : string) : list string := split_ws_aux EmptyString s.

(** Python's ordering of [str]: lexicographic on code points. *)
Fixpoint ltb (a b : string) : bool :=
  match a, b with
  | EmptyString, EmptyString => false
  | EmptyString, String _ _ => true
  | String _ _, EmptyString => false
  | String x a', String y b' =>
      if (code x <? code y)%nat then true
      else if (code y <? code x)%nat then false
      else ltb a' b'
  end.

End PyStr.

(* ===================================================================== *)
(** ** A backtracking matcher for the regular expressions of the source *)
(* ===================================================================== *)

(** The patterns of the source use literals, bounded and unbounded greedy
    repetition of a character class, concatenation, ordered alternation
    and capturing groups.  [rmatch] lists the ways an expression matches a
    prefix of the subject in the order in which Python's backtracking
    matcher tries them, so that its head is the match [re] reports. *)

Module Re.

Inductive regex : Type :=
| Lit (c : ascii)
| Rep (cls : ascii -> bool) (lo : nat) (hi : option nat)
| Cat (r1 r2 : regex)
| Alt (r1 r2 : regex)
| Grp (r : regex).

(** One way of matching: the text matched, the groups captured (in the
    order of their opening parentheses) and the rest of the subject. *)
Record mres : Type := MRes { matched : string; groups : list string; rest : string }.

(** The splits of [s] into a prefix of at most [n] characters of class
    [cls] and the rest, longest prefix first. *)
Fixpoint rep_splits (cls : ascii -> bool) (n : nat) (s : string) : list (string * string) :=
  match n, s with
  | S n', String c s' =>
      if cls c
      then map (fun ps => (String c (fst ps), snd ps)) (rep_splits cls n' s') ++ [(EmptyString, s)]
      else [(EmptyString, s)]
  | _, _ => [(EmptyString, s)]
  end.

Fixpoint rmatch (r : regex) (s : string) : list mres :=
  match r with
  | Lit c =>
      match s with
      | String c' s' => if (c =? c')%char then [MRes (String c EmptyString) [] s'] else []
      | EmptyString => []
      end
  | Rep cls lo hi =>
      let n := match hi with Some h => h | None => String.length s end in
      map (fun ps => MRes (fst ps) [] (snd ps))
          (filter (fun ps => (lo <=? String.length (fst ps))%nat) (rep_splits cls n s))
  | Cat r1 r2 =>
      flat_map (fun m1 =>
                  map (fun m2 => MRes (matched m1 ++ matched m2)
                                      (groups m1 ++ groups m2) (rest m2))
                      (rmatch r2 (rest m1)))
               (rmatch r1 s)
  | Alt r1 r2 => rmatch r1 s ++ rmatch r2 s
  | Grp r1 => map (fun m => MRes (matched m) (matched m :: groups m) (rest m)) (rmatch r1 s)
  end.

(** [re.match(r, s)]: the first way of matching at the start of [s]. *)
Definition match_ (r : regex) (s : string) : option mres := hd_error (rmatch r s).

(** [re.search(r, s)]: the first way of matching at the leftmost position
    that has one. *)
Fixpoint search (r : regex) (s : string) : option mres :=
  match match_ r s with
  | Some m => Some m
  | None =>
      match s with
      | EmptyString => None
      | String _ s' => search r s'
      end
  end.

(** [re.findall(r, s)]: the groups of the successive non-overlapping
    matches, scanning left to right.  [skip] counts the characters of the
    previous match still to be passed over.  (An empty match, which the
    patterns of the source cannot produce, advances by one character.) *)
Fixpoint findall_aux (r : regex) (skip : nat) (s : string) : list (list string) :=
  match skip with
  | S k =>
      match s with
      | EmptyString => []
      | String _ s' => findall_aux r k s'
      end
  | O =>
      match s with
      | EmptyString => match match_ r s with Some m => [groups m] | None => [] end
      | String _ s' =>
          match match_ r s with
          | Some m => groups m :: findall_aux r (Nat.pred (String.length (matched m))) s'
          | None => findall_aux r 0 s'
          end
      end
  end.

Definition findall (r : regex) (s : string) : list (list string) := findall_aux r 0 s.

(** Shorthands for the syntax of the patterns. *)
Definition digit_n (n : nat) : regex := Rep PyStr.is_digit n (Some n).    (* \d{n} *)
Definition digit_1 : regex := digit_n 1.                                  (* \d *)
Definition spaces : regex := Rep PyStr.is_space 1 None.                   (* \s+ *)
Definition one_of (cls : ascii -> bool) : regex := Rep cls 1 (Some 1).    (* [...] *)
Definition chr_range (a b : ascii) : regex :=
  one_of (PyStr.in_range (PyStr.code a) (PyStr.code b)).                  (* [a-b] *)

Fixpoint cat_all (rs : list regex) : regex :=
  match rs with
  | [] => Rep (fun _ => false) 0 (Some 0)
  | [r] => r
  | r :: rs' => Cat r (cat_all rs')
  end.

Fixpoint alt_all (rs : list regex) : regex :=
  match rs with
  | [] => Rep (fun _ => false) 1 (Some 1)
  | [r] => r
  | r :: rs' => Alt r (alt_all rs')
  end.

(** A literal word, matched ignoring case when [ci] is set. *)
Fixpoint word (ci : bool) (w : string) : regex :=
  match w with
  | EmptyString => Rep (fun _ => false) 0 (Some 0)
  | String c EmptyString =>
      if ci then one_of (fun x => (PyStr.lower_char x =? PyStr.lower_char c)%char) else Lit c
  | String c w' =>
      Cat (if ci then one_of (fun x => (PyStr.lower_char x =? PyStr.lower_char c)%char) else Lit c)
          (word ci w')
  end.

(** [heads r s m]: [m] is the first way [r] matches at the start of [s]. *)
Definition heads (r : regex) (s : string) (m : mres) : Prop :=
  exists tl, rmatch r s = m :: tl.

(** The rest of the subject does not begin with a character of the class. *)
Definition stops (cls : ascii -> bool) (r : string) : Prop :=
  match r with
  | EmptyString => True
  | String c _ => cls c = false
  end.

End Re.

(* ===================================================================== *)
(** ** Dates and [datetime.strptime] *)
(* ===================================================================== *)

Module PyTime.

Record datetime : Type := DateTime {
  year : Z; month : Z; day : Z; hour : Z; minute : Z; second : Z
}.

Definition datetime_eqb (a b : datetime) : bool :=
  (year a =? year b)%Z && (month a =? month b)%Z && (day a =? day b)%Z &&
  (hour a =? hour b)%Z && (minute a =? minute b)%Z && (second a =? second b)%Z.

Definition is_leap (y : Z) : bool :=
  ((y mod 4 =? 0) && (negb (y mod 100 =? 0) || (y mod 400 =? 0)))%Z.

Definition days_in_month (y m : Z) : Z :=
  if (m =? 2)%Z then (if is_leap y then 29 else 28)%Z
  else if ((m =? 4) || (m =? 6) || (m =? 9) || (m =? 11))%Z then 30%Z
  else 31%Z.

(** The range checks of the [datetime] constructor. *)
Definition valid (t : datetime) : bool :=
  ((1 <=? year t) && (year t <=? 9999) && (1 <=? month t) && (month t <=? 12) &&
   (1 <=? day t) && (day t <=? days_in_month (year t) (month t)) &&
   (0 <=? hour t) && (hour t <=? 23) && (0 <=? minute t) && (minute t <=? 59) &&
   (0 <=? second t) && (second t <=? 59))%Z.

(** Days since 1970-01-01 in the proleptic Gregorian calendar. *)
Definition days_from_civil (y m d : Z) : Z :=
  let y' := if (m <=? 2)%Z then (y - 1)%Z else y in
  let era := (y' / 400)%Z in
  let yoe := (y' - era * 400)%Z in
  let mp := ((m + 9) mod 12)%Z in
  let doy := ((153 * mp + 2) / 5 + d - 1)%Z in
  let doe := (yoe * 365 + yoe / 4 - yoe / 100 + doy)%Z in
  (era * 146097 + doe - 719468)%Z.

(** Seconds since 1970-01-01 00:00:00 (timestamps are naive). *)
Definition epoch_seconds (t : datetime) : Z :=
  (days_from_civil (year t) (month t) (day t) * 86400
   + hour t * 3600 + minute t * 60 + second t)%Z.

(** [dt.dayofweek]: Monday is 0, Sunday is 6. *)
Definition dayofweek (t : datetime) : Z :=
  ((days_from_civil (year t) (month t) (day t) + 3) mod 7)%Z.

Definition day_names : list string :=
  ["Monday"; "Tuesday"; "Wednesday"; "Thursday"; "Friday"; "Saturday"; "Sunday"].

(** [dt.day_name()] *)
Definition day_name (t : datetime) : string :=
  nth (Z.to_nat (dayofweek t)) day_names "".

(** *** [strptime] *)

Inductive directive : Type :=
| DY | Dm | Dd | DH | DM | DS | Db
| DText (s : string)
| DSpace.

Definition month_abbr : list string :=
  ["jan"; "feb"; "mar"; "apr"; "may"; "jun"; "jul"; "aug"; "sep"; "oct"; "nov"; "dec"].

Import Re.

Definition d_range (a b : ascii) : regex := chr_range a b.

(** The expression [_strptime.TimeRE] gives each directive; white space in
    a format stands for [\s+]. *)
Definition directive_regex (d : directive) : regex :=
  match d with
  | DY => Grp (digit_n 4)
  | Dm => Grp (alt_all [Cat (Lit "1") (d_range "0" "2"); Cat (Lit "0") (d_range "1" "9");
                        d_range "1" "9"])
  | Dd => Grp (alt_all [Cat (Lit "3") (d_range "0" "1"); Cat (d_range "1" "2") digit_1;
                        Cat (Lit "0") (d_range "1" "9"); d_range "1" "9";
                        Cat (Lit " ") (d_range "1" "9")])
  | DH => Grp (alt_all [Cat (Lit "2") (d_range "0" "3"); Cat (d_range "0" "1") digit_1; digit_1])
  | DM => Grp (alt_all [Cat (d_range "0" "5") digit_1; digit_1])
  | DS => Grp (alt_all [Cat (Lit "6") (d_range "0" "1"); Cat (d_range "0" "5") digit_1; digit_1])
  | Db => Grp (alt_all (map (word true) month_abbr))
  | DText s => word true s
  | DSpace => spaces
  end.

Definition format_regex (fmt : list directive) : regex :=
  cat_all (map directive_regex fmt).

(** [int(s)] on the text of a numeric group (a leading space is allowed
    by the day directive and ignored by [int]). *)
Fixpoint int_of_digits (acc : Z) (s : string) : Z :=
  match s with
  | EmptyString => acc
  | String c s' =>
      if PyStr.is_digit c
      then int_of_digits (acc * 10 + Z.of_nat (PyStr.code c - 48))%Z s'
      else int_of_digits acc s'
  end.

Definition int_ (s : string) : Z := int_of_digits 0 s.

Fixpoint index_of (w : string) (l : list string) (i : Z) : Z :=
  match l with
  | [] => 0%Z
  | x :: l' => if String.eqb x w then i else index_of w l' (i + 1)%Z
  end.

(** The fields found, over the defaults 1900-01-01 00:00:00. *)
Fixpoint fill (fmt : list directive) (gs : list string) (t : datetime) : datetime :=
  match fmt with
  | [] => t
  | DText _ :: fmt' | DSpace :: fmt' => fill fmt' gs t
  | d :: fmt' =>
      match gs with
      | [] => t
      | g :: gs' =>
          let t' :=
            match d with
            | DY => DateTime (int_ g) (month t) (day t) (hour t) (minute t) (second t)
            | Dm => DateTime (year t) (int_ g) (day t) (hour t) (minute t) (second t)
            | Dd => DateTime (year t) (month t) (int_ g) (hour t) (minute t) (second t)
            | DH => DateTime (year t) (month t) (day t) (int_ g) (minute t) (second t)
            | DM => DateTime (year t) (month t) (day t) (hour t) (int_ g) (second t)
            | DS => DateTime (year t) (month t) (day t) (hour t) (minute t) (int_ g)
            | Db => DateTime (year t) (index_of (PyStr.lower g) month_abbr 1)
                             (day t) (hour t) (minute t) (second t)
            | _ => t
            end in
          fill fmt' gs' t'
      end
  end.

(** [datetime.strptime(s, fmt)]; [None] stands for [ValueError]: the
    format does not match at the start of [s], unconverted data remains
    after the match, or the fields are out of range. *)
Definition strptime (s : string) (fmt : list directive) : option datetime :=
  match match_ (format_regex fmt) s with
  | None => None
  | Some m =>
      match rest m with
      | String _ _ => None
      | EmptyString =>
          let t := fill fmt (groups m) (DateTime 1900 1 1 0 0 0) in
          if valid t then Some t else None
      end
  end.

Definition pad2 (n : Z) : string :=
  String (ascii_of_nat (48 + Z.to_nat ((n / 10) mod 10)))
    (String (ascii_of_nat (48 + Z.to_nat (n mod 10))) EmptyString).

Definition pad4 (n : Z) : string :=
  (pad2 (n / 100) ++ pad2 (n mod 100))%string.


End PyTime.

(* ===================================================================== *)
(** ** Values, rows and data frames *)
(* ===================================================================== *)

(** A cell: a Python [str], a number, a date-time, or the missing value
    (pandas' [NaN] / [NaT] / [None]). *)
Inductive value : Type :=
| VStr (s : string)
| VNum (z : Z)
| VTime (t : PyTime.datetime)
| VNaN.

(** A Python [dict] with [str] keys, in insertion order. *)
Definition dict : Type := list (string * value).

(** [d[k] = v]: an existing key keeps its position. *)
Fixpoint dict_set (k : string) (v : value) (d : dict) : dict :=
  match d with
  | [] => [(k, v)]
  | (k', v') :: d' =>
      if String.eqb k' k then (k, v) :: d' else (k', v') :: dict_set k v d'
  end.

Fixpoint dict_get (k : string) (d : dict) : option value :=
  match d with
  | [] => None
  | (k', v') :: d' => if String.eqb k' k then Some v' else dict_get k d'
  end.

Record DataFrame : Type := mkDataFrame {
  nrows : nat;                                (* len(df) *)
  columns : list (string * list value)        (* df.columns with their cells *)
}.

Definition colnames (df : DataFrame) : list string := map fst (columns df).

(** [c in df.columns] *)
Definition has_column (c : string) (df : DataFrame) : bool :=
  existsb (String.eqb c) (colnames df).

(** [df[c]] *)
Fixpoint assoc_get {A : Type} (c : string) (l : list (string * A)) : option A :=
  match l with
  | [] => None
  | (k, v) :: l' => if String.eqb k c then Some v else assoc_get c l'
  end.

Definition column (c : string) (df : DataFrame) : option (list value) :=
  assoc_get c (columns df).

Fixpoint assoc_set {A : Type} (c : string) (v : A) (l : list (string * A)) : list (string * A) :=
  match l with
  | [] => [(c, v)]
  | (k, w) :: l' => if String.eqb k c then (c, v) :: l' else (k, w) :: assoc_set c v l'
  end.

(** [df[c] = cells]: an existing column is replaced in place, a new one
    is appended. *)
Definition set_column (c : string) (cells : list value) (df : DataFrame) : DataFrame :=
  mkDataFrame (nrows df) (assoc_set c cells (columns df)).

(** [df.drop(columns=[c])] *)
Definition drop_column (c : string) (df : DataFrame) : DataFrame :=
  mkDataFrame (nrows df) (filter (fun kc => negb (String.eqb (fst kc) c)) (columns df)).

Fixpoint add_new (k : string) (ks : list string) : list string :=
  match ks with
  | [] => [k]
  | k' :: ks' => if String.eqb k' k then ks else k' :: add_new k ks'
  end.

(** The keys of a list of dicts in order of first appearance. *)
Definition keys_union (data : list dict) : list string :=
  fold_left (fun ks d => fold_left (fun ks' kv => add_new (fst kv) ks') d ks) data [].

(** [pd.DataFrame(data)] for a list of dicts: one row per dict, a column
    per key, the missing value where a dict lacks the key. *)
Definition DataFrame_of_dicts (data : list dict) : DataFrame :=
  mkDataFrame (List.length data)
    (map (fun k => (k, map (fun d => match dict_get k d with
                                     | Some v => v
                                     | None => VNaN
                                     end) data))
         (keys_union data)).

(* ===================================================================== *)
(** ** The pandas entry points the parser calls *)
(* ===================================================================== *)

(** What the source relies on from pandas, left open: [None] stands for a
    raised exception. *)
Class Pandas : Type := {
  (** [pd.read_csv(io.StringIO(text))] *)
  read_csv : string -> option DataFrame;
  (** [pd.to_datetime(column, errors='coerce')] *)
  to_datetime : list value -> option (list value);
  (** [pd.to_datetime(text, errors='raise')] on one string *)
  to_datetime_str : string -> option value;
  (** [pd.to_numeric(column, errors='coerce')] *)
  to_numeric : list value -> option (list value)
}.

(* ===================================================================== *)
(** ** [parse_mikrotik_logs] *)
(* ===================================================================== *)

(** The records written through [logging]; the text of a caught exception
    is not modelled. *)
Inductive log_event : Type :=
| ErrNoValidData                     (* error: No valid data found in the log file *)
| InfoParsedCsv                      (* info: Successfully parsed as CSV format *)
| DebugNotCsv                        (* debug: Not a CSV format: ... *)
| InfoParsedKeyValue (n : nat)       (* info: Successfully parsed key-value format, found n records *)
| ErrKeyValueFailed                  (* error: Failed to parse key-value format *)
| ErrKeyValueRaised                  (* error: Error parsing key-value format: ... *)
| InfoParsedSpaceDelimited (n : nat) (* info: Successfully parsed space-delimited format, found n records *)
| ErrSpaceDelimitedRaised            (* error: Error parsing space-delimited format: ... *)
| ErrUnknownFormat.                  (* error: Could not determine the log format *)

Import Re.

Definition LF : ascii := "010"%char.
(** The double quote character. *)
Definition quote : ascii := "034"%char.

(** Lines 21-24: the non-blank, non-comment lines. *)
Definition filter_lines (log_content : string) : list string :=
  filter (fun line =>
            let s := PyStr.strip line in
            negb (String.eqb s "") && negb (PyStr.startswith "#" s))
         (PyStr.split LF (PyStr.strip log_content)).

Definition time_of_day : list regex :=
  [digit_n 2; Lit ":"; digit_n 2; Lit ":"; digit_n 2].

(** Lines 51-55. *)
Definition timestamp_patterns : list regex :=
  [ (* (\d{4}-\d{2}-\d{2}\s+\d{2}:\d{2}:\d{2}) *)
    Grp (cat_all ([digit_n 4; Lit "-"; digit_n 2; Lit "-"; digit_n 2; spaces] ++ time_of_day));
    (* (\w{3}\s+\d{1,2}\s+\d{2}:\d{2}:\d{2}) *)
    Grp (cat_all ([Rep PyStr.is_word 3 (Some 3); spaces; Rep PyStr.is_digit 1 (Some 2); spaces]
                  ++ time_of_day));
    (* (\d{1,2}/\d{1,2}/\d{4}\s+\d{2}:\d{2}:\d{2}) *)
    Grp (cat_all ([Rep PyStr.is_digit 1 (Some 2); Lit "/"; Rep PyStr.is_digit 1 (Some 2); Lit "/";
                   digit_n 4; spaces] ++ time_of_day)) ].

Import PyTime.

(** Lines 71-75. *)
Definition timestamp_formats : list (list directive) :=
  [ (* %Y-%m-%d %H:%M:%S *)
    [DY; DText "-"; Dm; DText "-"; Dd; DSpace; DH; DText ":"; DM; DText ":"; DS];
    (* %b %d %H:%M:%S *)
    [Db; DSpace; Dd; DSpace; DH; DText ":"; DM; DText ":"; DS];
    (* %m/%d/%Y %H:%M:%S *)
    [Dm; DText "/"; Dd; DText "/"; DY; DSpace; DH; DText ":"; DM; DText ":"; DS] ].

Definition is_key_char (c : ascii) : bool :=
  PyStr.is_alpha c || PyStr.is_digit c || (c =? "_")%char || (c =? "-")%char.
Definition is_value_char (c : ascii) : bool :=
  negb (c =? quote)%char && negb (PyStr.is_space c).
Definition not_quote (c : ascii) : bool := negb (c =? quote)%char.

(** Line 58: a key of letters, digits, underscore and hyphen, the sign
    [=], and a value that is either a run of characters other than the
    quote and white space, or a quoted run of characters other than the
    quote; tried in that order. *)
Definition kv_pattern : regex :=
  Cat (Grp (Rep is_key_char 1 None))
      (Cat (Lit "=")
           (Grp (Alt (Rep is_value_char 1 None)
                     (Cat (Lit quote) (Cat (Rep not_quote 0 None) (Lit quote)))))).

(** Lines 71-80: the first format that parses. *)
Fixpoint try_formats (timestamp_str : string) (fmts : list (list directive)) : option datetime :=
  match fmts with
  | [] => None
  | fmt :: fmts' =>
      match strptime timestamp_str fmt with
      | Some t => Some t
      | None => try_formats timestamp_str fmts'
      end
  end.

(** Lines 64-83: the first pattern found in the line decides; its text is
    then tried against the formats, and no later pattern is consulted. *)
Fixpoint extract_timestamp (patterns : list regex) (line : string) : option datetime :=
  match patterns with
  | [] => None
  | pattern :: patterns' =>
      match search pattern line with
      | Some m =>
          match groups m with
          | timestamp_str :: _ => try_formats timestamp_str timestamp_formats
          | [] => None
          end
      | None => extract_timestamp patterns' line
      end
  end.

(** Lines 91-92. *)
Definition unquote (value : string) : string :=
  if PyStr.startswith quote value && PyStr.endswith quote value
  then PyStr.slice_1_m1 value else value.

(** Line 93: [key.lower().replace('-', '_')]. *)
Definition normalize_key (key : string) : string :=
  PyStr.replace "-" "_" (PyStr.lower key).

(** Lines 89-93. *)
Fixpoint store_pairs (pairs : list (list string)) (line_data : dict) : dict :=
  match pairs with
  | [] => line_data
  | [key; value] :: pairs' =>
      store_pairs pairs' (dict_set (normalize_key key) (VStr (unquote value)) line_data)
  | _ :: pairs' => store_pairs pairs' line_data
  end.

(** Lines 61-93: the dict built for one line. *)
Definition kv_line_data (line : string) : dict :=
  let line_data :=
    match extract_timestamp timestamp_patterns line with
    | Some timestamp => dict_set "timestamp" (VTime timestamp) []
    | None => []
    end in
  store_pairs (findall kv_pattern line) line_data.

(** Lines 60-97. *)
Definition kv_data (lines : list string) : list dict :=
  filter (fun line_data => match line_data with [] => false | _ => true end)
         (map kv_line_data lines).

(** The outcome of one detector. *)
Inductive attempt : Type :=
| Won (df : DataFrame)      (* the detector returns this frame *)
| NoRecords                 (* the detector found nothing and gives way *)
| Raised.                   (* an exception was caught and the detector gives way *)

Section Parser.

Context {P : Pandas}.

(** [if c in df.columns: df[c] = f(df[c])], where [f] may raise. *)
Definition coerce_column (f : list value -> option (list value)) (c : string)
    (df : DataFrame) : option DataFrame :=
  match column c df with
  | None => Some df
  | Some cells =>
      match f cells with
      | Some cells' => Some (set_column c cells' df)
      | None => None
      end
  end.

Fixpoint coerce_columns (f : list value -> option (list value)) (cs : list string)
    (df : DataFrame) : option DataFrame :=
  match cs with
  | [] => Some df
  | c :: cs' =>
      match coerce_column f c df with
      | Some df' => coerce_columns f cs' df'
      | None => None
      end
  end.

(** Lines 36-40: the conversion of the time column; [None] when
    [to_datetime] raises. *)
Definition convert_time_column (df : DataFrame) : option DataFrame :=
  if has_column "timestamp" df then
    match column "timestamp" df with
    | Some cells =>
        match to_datetime cells with
        | Some cells' => Some (set_column "timestamp" cells' df)
        | None => None
        end
    | None => Some df
    end
  else if has_column "time" df then
    match column "time" df with
    | Some cells =>
        match to_datetime cells with
        | Some cells' => Some (drop_column "time" (set_column "timestamp" cells' df))
        | None => None
        end
    | None => Some df
    end
  else Some df.

(** Lines 31-44: the delimited table.  Whatever [read_csv] returns without
    raising is returned, after the conversion of the time column. *)
Definition csv_detector (log_content : string) : attempt * list log_event :=
  match read_csv log_content with
  | None => (Raised, [DebugNotCsv])
  | Some df =>
      match convert_time_column df with
      | Some df' => (Won df', [InfoParsedCsv])
      | None => (Raised, [InfoParsedCsv; DebugNotCsv])
      end
  end.

(** Lines 113-118. *)
Definition col_mapping : list (string * string) :=
  [("source_ip", "src_ip"); ("destination_ip", "dst_ip");
   ("source_port", "src_port"); ("destination_port", "dst_port")].

(** Lines 121-123, for one pair. *)
Definition rename_synonym (old_col new_col : string) (df : DataFrame) : DataFrame :=
  if has_column old_col df && negb (has_column new_col df) then
    match column old_col df with
    | Some cells => drop_column old_col (set_column new_col cells df)
    | None => df
    end
  else df.

(** Lines 120-123. *)
Definition standardize_columns (df : DataFrame) : DataFrame :=
  fold_left (fun df' on => rename_synonym (fst on) (snd on) df') col_mapping df.

(** Lines 99-125, once [data] is not empty. *)
Definition kv_frame (data : list dict) : option DataFrame :=
  match coerce_column to_numeric "bytes" (DataFrame_of_dicts data) with
  | None => None
  | Some df =>
      match coerce_columns to_numeric
              ["src_port"; "dst_port"; "source_port"; "destination_port"] df with
      | None => None
      | Some df' => Some (standardize_columns df')
      end
  end.

(** Lines 47-129: the key-value detector. *)
Definition kv_detector (lines : list string) : attempt * list log_event :=
  match kv_data lines with
  | [] => (NoRecords, [ErrKeyValueFailed])
  | data =>
      match kv_frame data with
      | Some df => (Won df, [InfoParsedKeyValue (List.length data)])
      | None => (Raised, [InfoParsedKeyValue (List.length data); ErrKeyValueRaised])
      end
  end.

(** Line 140: a letter followed by key characters up to the end of the
    part (the parts hold no line break, so the end anchor is the end of
    the text). *)
Definition is_bare_identifier (part : string) : bool :=
  existsb (fun m => match rest m with EmptyString => true | _ => false end)
          (rmatch (Cat (one_of PyStr.is_alpha) (Rep is_key_char 0 None)) part).

(** Lines 134-141: the set of candidate header names, as the list of its
    elements. *)
Definition potential_headers (lines : list string) : list string :=
  fold_left (fun hs line =>
               fold_left (fun hs' part =>
                            if is_bare_identifier part then add_new (PyStr.lower part) hs'
                            else hs')
                         (PyStr.split_ws (PyStr.strip line)) hs)
            (firstn 10 lines) [].

(** Lines 162-166: consecutive (key, value) pairs; an odd last part is
    left over. *)
Fixpoint store_columns (parts : list string) (line_data : dict) : dict :=
  match parts with
  | key :: value :: parts' =>
      store_columns parts'
        (dict_set (PyStr.strip_char ":" (normalize_key key)) (VStr value) line_data)
  | _ => line_data
  end.

(** Lines 148-166. *)
Definition ws_line_data (line : string) : dict :=
  let parts := PyStr.split_ws (PyStr.strip line) in
  let timestamp_str := PyStr.join " " (firstn 2 parts) in
  match to_datetime_str timestamp_str with
  | Some timestamp =>
      store_columns (skipn 2 parts) (dict_set "timestamp" timestamp [])
  | None => store_columns parts []
  end.

Definition ws_data (lines : list string) : list dict :=
  filter (fun line_data => match line_data with [] => false | _ => true end)
         (map ws_line_data lines).

(** Lines 176-178: the numeric columns, in the order of [df.columns]. *)
Definition ws_frame (data : list dict) : option DataFrame :=
  let df := DataFrame_of_dicts data in
  coerce_columns to_numeric
    (filter (fun col => existsb (String.eqb col) ["bytes"; "src_port"; "dst_port"]) (colnames df))
    df.

(** Lines 132-182: the whitespace-columnar detector. *)
Definition ws_detector (lines : list string) : attempt * list log_event :=
  match potential_headers lines with
  | [] => (NoRecords, [])
  | _ =>
      match ws_data lines with
      | [] => (NoRecords, [])
      | data =>
          match ws_frame data with
          | Some df => (Won df, [InfoParsedSpaceDelimited (List.length data)])
          | None => (Raised, [InfoParsedSpaceDelimited (List.length data);
                              ErrSpaceDelimitedRaised])
          end
      end
  end.

(** [parse_mikrotik_logs]: the value returned ([None] is Python's [None])
    and the records logged on the way. *)
Definition parse_mikrotik_logs (log_content : string) : option DataFrame * list log_event :=
  let lines := filter_lines log_content in
  match lines with
  | [] => (None, [ErrNoValidData])
  | _ =>
      let (csv, log1) := csv_detector log_content in
      match csv with
      | Won df => (Some df, log1)
      | _ =>
          let (kv, log2) := kv_detector lines in
          match kv with
          | Won df => (Some df, log1 ++ log2)
          | _ =>
              let (ws, log3) := ws_detector lines in
              match ws with
              | Won df => (Some df, log1 ++ log2 ++ log3)
              | _ => (None, log1 ++ log2 ++ log3 ++ [ErrUnknownFormat])
              end
          end
      end
  end.

End Parser.

(* ===================================================================== *)
(** ** A concrete pandas for running examples *)
(* ===================================================================== *)

(** The instance below fixes one behaviour of the library entry points so
    that the parser can be evaluated on concrete text.  It follows the
    default dialect of [read_csv] (comma separator, first row is the
    header, blank lines skipped) on text without quote characters and
    carriage returns, with integer and string cells; other text is
    outside what the instance describes. *)

Module PandasModel.

(** A line of blanks and tabs only is skipped by the tokenizer. *)
Fixpoint is_blank_line (s : string) : bool :=
  match s with
  | EmptyString => true
  | String c s' => ((c =? " ")%char || (c =? "009")%char) && is_blank_line s'
  end.

(** The rows of fields of the text. *)
Definition tokenize (text : string) : list (list string) :=
  map (PyStr.split ",")
      (filter (fun l => negb (is_blank_line l))
              (match rev (PyStr.split LF text) with
               | EmptyString :: ls => rev ls       (* a final line break ends the last row *)
               | ls => rev ls
               end)).

(** The C tokenizer's check on the number of fields: the header and the
    first data row are accepted as they come; every later row may have at
    most as many fields as the row before it, which was itself padded to
    the width in force. *)
Fixpoint rows_ok (width : nat) (rows : list (list string)) : bool :=
  match rows with
  | [] => true
  | r :: rows' => (List.length r <=? width)%nat && rows_ok width rows'
  end.

Definition pad_row (width : nat) (r : list string) : list string :=
  r ++ repeat EmptyString (width - List.length r).

Definition na_values : list string :=
  [""; "#N/A"; "#N/A N/A"; "#NA"; "-1.#IND"; "-1.#QNAN"; "-NaN"; "-nan"; "1.#IND";
   "1.#QNAN"; "<NA>"; "N/A"; "NA"; "NULL"; "NaN"; "None"; "n/a"; "nan"; "null"].

Definition is_na (s : string) : bool := existsb (String.eqb s) na_values.

Fixpoint all_digits (s : string) : bool :=
  match s with
  | EmptyString => true
  | String c s' => PyStr.is_digit c && all_digits s'
  end.

(** An integer literal: an optional sign and at least one digit. *)
Definition parse_int (s : string) : option Z :=
  match s with
  | String "-" (String c s') =>
      if all_digits (String c s') then Some (- PyTime.int_ (String c s'))%Z else None
  | String "+" (String c s') =>
      if all_digits (String c s') then Some (PyTime.int_ (String c s')) else None
  | String _ _ => if all_digits s then Some (PyTime.int_ s) else None
  | EmptyString => None
  end.

(** Column type inference: a column of integer literals and missing
    values is numeric, any other column keeps its text. *)
Definition infer_column (cells : list string) : list value :=
  if forallb (fun s => is_na s || match parse_int s with Some _ => true | None => false end) cells
  then map (fun s => match parse_int s with Some z => VNum z | None => VNaN end) cells
  else map (fun s => if is_na s then VNaN else VStr s) cells.

Definition model_read_csv (text : string) : option DataFrame :=
  match tokenize text with
  | [] => None                                   (* EmptyDataError *)
  | header :: rows =>
      let h := List.length header in
      let width := match rows with
                   | [] => h
                   | r :: _ => Nat.max h (List.length r)
                   end in
      if rows_ok width rows then
        let lead := (width - h)%nat in            (* implicit index columns *)
        let body := map (fun r => skipn lead (pad_row width r)) rows in
        Some (mkDataFrame (List.length rows)
                (map (fun ic => (snd ic, infer_column (map (fun r => nth (fst ic) r "") body)))
                     (combine (seq 0 h) header)))
      else None                                  (* ParserError: Expected n fields, saw m *)
  end.

Definition iso_like : list PyTime.directive :=
  [PyTime.DY; PyTime.DText "-"; PyTime.Dm; PyTime.DText "-"; PyTime.Dd; PyTime.DSpace;
   PyTime.DH; PyTime.DText ":"; PyTime.DM; PyTime.DText ":"; PyTime.DS].

(** Text of the form YYYY-MM-DD HH:MM:SS is a date-time; anything else is
    not. *)
Definition model_to_datetime_cell (v : value) : value :=
  match v with
  | VStr s => match PyTime.strptime s iso_like with Some t => VTime t | None => VNaN end
  | VTime t => VTime t
  | _ => VNaN
  end.

Definition model_to_numeric_cell (v : value) : value :=
  match v with
  | VStr s => match parse_int s with Some z => VNum z | None => VNaN end
  | VNum z => VNum z
  | _ => VNaN
  end.

End PandasModel.

#[export] Instance pandas_model : Pandas := {|
  read_csv := PandasModel.model_read_csv;
  to_datetime := fun cells => Some (map PandasModel.model_to_datetime_cell cells);
  to_datetime_str := fun s =>
    match PyTime.strptime s PandasModel.iso_like with
    | Some t => Some (VTime t)
    | None => None
    end;
  to_numeric := fun cells => Some (map PandasModel.model_to_numeric_cell cells)
|}.

(* ===================================================================== *)
(** ** Series: ordering of keys, grouping, sorting *)
(* ===================================================================== *)

Fixpoint lex_ltb (a b : list Z) : bool :=
  match a, b with
  | [], [] => false
  | [], _ :: _ => true
  | _ :: _, [] => false
  | x :: a', y :: b' =>
      if (x <? y)%Z then true else if (y <? x)%Z then false else lex_ltb a' b'
  end.

Definition datetime_fields (t : PyTime.datetime) : list Z :=
  [PyTime.year t; PyTime.month t; PyTime.day t;
   PyTime.hour t; PyTime.minute t; PyTime.second t].

(** Chronological order. *)
Definition datetime_ltb (a b : PyTime.datetime) : bool :=
  lex_ltb (datetime_fields a) (datetime_fields b).

Definition kind (v : value) : nat :=
  match v with VNum _ => 0 | VStr _ => 1 | VTime _ => 2 | VNaN => 3 end.

(** The order of group keys: numbers by value, strings by code points,
    date-times chronologically.  (Keys of different kinds are ordered by
    kind only to make the order total; grouping below is restricted to
    columns of one kind.) *)
Definition value_ltb (a b : value) : bool :=
  match a, b with
  | VNum x, VNum y => (x <? y)%Z
  | VStr x, VStr y => PyStr.ltb x y
  | VTime x, VTime y => datetime_ltb x y
  | _, _ => (kind a <? kind b)%nat
  end.

Definition value_eqb (a b : value) : bool :=
  match a, b with
  | VNum x, VNum y => (x =? y)%Z
  | VStr x, VStr y => String.eqb x y
  | VTime x, VTime y => PyTime.datetime_eqb x y
  | VNaN, VNaN => true
  | _, _ => false
  end.

(** A key column: missing cells are [None]; the column must hold keys of
    one kind. *)
Definition key_cells (cells : list value) : option (list (option value)) :=
  let present := filter (fun v => negb (value_eqb v VNaN)) cells in
  match present with
  | [] => Some (map (fun _ => None) cells)
  | v0 :: _ =>
      if forallb (fun v => (kind v =? kind v0)%nat) present
      then Some (map (fun v => match v with VNaN => None | _ => Some v end) cells)
      else None
  end.

(** A numeric column: numbers and missing cells only. *)
Fixpoint num_cells (cells : list value) : option (list (option Z)) :=
  match cells with
  | [] => Some []
  | v :: cells' =>
      match num_cells cells' with
      | None => None
      | Some r =>
          match v with
          | VNum z => Some (Some z :: r)
          | VNaN => Some (None :: r)
          | _ => None
          end
      end
  end.

(** A date-time column: date-times and missing cells only. *)
Fixpoint time_cells (cells : list value) : option (list (option PyTime.datetime)) :=
  match cells with
  | [] => Some []
  | v :: cells' =>
      match time_cells cells' with
      | None => None
      | Some r =>
          match v with
          | VTime t => Some (Some t :: r)
          | VNaN => Some (None :: r)
          | _ => None
          end
      end
  end.

Fixpoint insert_key (k : value) (ks : list value) : list value :=
  match ks with
  | [] => [k]
  | k' :: ks' =>
      if value_ltb k k' then k :: ks
      else if value_eqb k k' then ks
      else k' :: insert_key k ks'
  end.

(** The group keys of [groupby] (default [sort=True], [dropna=True]): the
    distinct non-missing keys in ascending order. *)
Definition group_keys (keys : list (option value)) : list value :=
  fold_right (fun ok acc => match ok with Some k => insert_key k acc | None => acc end) [] keys.

Definition key_is (k : value) (ok : option value) : bool :=
  match ok with Some k' => value_eqb k' k | None => false end.

(** [.sum()] skips missing values. *)
Definition sum_present (vals : list (option Z)) : Z :=
  fold_right (fun ov acc => match ov with Some z => (z + acc)%Z | None => acc end) 0%Z vals.

(** [groupby(key).size()] *)
Definition groupby_size (keys : list (option value)) : list (value * Z) :=
  map (fun k => (k, Z.of_nat (List.length (filter (key_is k) keys)))) (group_keys keys).

(** [groupby(key)[col].sum()] *)
Definition groupby_sum (keys : list (option value)) (vals : list (option Z)) : list (value * Z) :=
  map (fun k => (k, sum_present (map snd (filter (fun kv => key_is k (fst kv)) (combine keys vals)))))
      (group_keys keys).

(** [Series.sort_values(ascending=False)] with the default sort kind,
    which is not guaranteed stable: the result is a rearrangement of the
    series in descending order of the values; the order of equal values
    is left to the library. *)
Class SortValues : Type := {
  sort_values_desc : list (value * Z) -> list (value * Z);
  sort_values_perm : forall s, Permutation s (sort_values_desc s);
  sort_values_sorted :
    forall s, StronglySorted (fun a b => (snd b <= snd a)%Z) (sort_values_desc s)
}.

(** The order numpy gives when it sorts by insertion (arrays of at most
    16 elements): descending, equal values in the order of the series. *)
Fixpoint insert_desc (x : value * Z) (s : list (value * Z)) : list (value * Z) :=
  match s with
  | [] => [x]
  | y :: s' => if (snd y <=? snd x)%Z then x :: s else y :: insert_desc x s'
  end.

Definition stable_sort_desc (s : list (value * Z)) : list (value * Z) :=
  fold_right insert_desc [] s.

(** Strictly ascending keys, and descending values. *)
Definition key_lt (a b : value) : Prop := value_ltb a b = true.
Definition desc (a b : value * Z) : Prop := (snd b <= snd a)%Z.

(** Sorting by insertion is one such sort. *)
#[export, refine] Instance insertion_sort_values : SortValues := {|
  sort_values_desc := stable_sort_desc
|}.
Proof.
  - assert (Hins : forall x s, Permutation (x :: s) (insert_desc x s)).
    { intros x s. induction s as [|y s IH]; simpl; [apply Permutation_refl|].
      destruct (snd y <=? snd x)%Z; [apply Permutation_refl|].
      eapply Permutation_trans; [apply perm_swap|]. constructor. exact IH. }
    intros s. induction s as [|x s IH]; simpl; [constructor|].
    eapply Permutation_trans; [|apply Hins]. constructor. exact IH.
  - assert (Hins : forall x s, Permutation (x :: s) (insert_desc x s)).
    { intros x s. induction s as [|y s IH]; simpl; [apply Permutation_refl|].
      destruct (snd y <=? snd x)%Z; [apply Permutation_refl|].
      eapply Permutation_trans; [apply perm_swap|]. constructor. exact IH. }
    assert (Hsorted : forall x s, StronglySorted desc s -> StronglySorted desc (insert_desc x s)).
    { intros x s. induction s as [|y s IH]; simpl; intros Hs.
      - constructor; constructor.
      - inversion Hs as [|? ? Hs' Hall]; subst.
        destruct (snd y <=? snd x)%Z eqn:E.
        + apply Z.leb_le in E. constructor; [exact Hs|]. constructor; [exact E|].
          eapply Forall_impl; [|exact Hall]. unfold desc. intros a Ha. lia.
        + apply Z.leb_gt in E. constructor; [apply IH; exact Hs'|].
          apply Forall_forall. intros a Ha.
          apply (Permutation_in _ (Permutation_sym (Hins x s))) in Ha.
          destruct Ha as [Ha|Ha]; [subst; unfold desc; lia|].
          rewrite Forall_forall in Hall. apply Hall. exact Ha. }
    intros s. induction s as [|x s IH]; simpl; [constructor|]. apply Hsorted. exact IH.
Defined.

(** [.head(n)] *)
Definition head {A : Type} (n : nat) (s : list A) : list A := firstn n s.

(** [Series.nunique()] *)
Definition nunique (keys : list (option value)) : Z :=
  Z.of_nat (List.length (group_keys keys)).

Fixpoint first_seen (keys : list (option value)) (seen : list value) : list value :=
  match keys with
  | [] => []
  | None :: keys' => first_seen keys' seen
  | Some k :: keys' =>
      if existsb (value_eqb k) seen then first_seen keys' seen
      else k :: first_seen keys' (k :: seen)
  end.

Definition option_bind {A B : Type} (o : option A) (f : A -> option B) : option B :=
  match o with Some a => f a | None => None end.

Notation "x <- o ;; k" := (option_bind o (fun x => k))
  (at level 61, o at next level, right associativity).

(* ===================================================================== *)
(** ** [process_traffic_data] *)
(* ===================================================================== *)

(** An entry of the [stats] dict. *)
Inductive stat : Type :=
| SInt (n : Z)                                  (* an integer *)
| SQuot (n d : Z)                               (* the float quotient n / d *)
| SSeries (s : list (value * Z))                (* an indexed series of integers *)
| STimespan (start_ end_ : option PyTime.datetime) (seconds : option Z).
                                                (* start, end, and the duration as seconds / 3600 *)

Definition stats_dict : Type := list (string * stat).

Section Aggregation.

Context {S : SortValues}.

(** [df.groupby(key).size().sort_values(ascending=False).head(10)] *)
Definition top_by_size (keys : list (option value)) : list (value * Z) :=
  head 10 (sort_values_desc (groupby_size keys)).

(** [df.groupby(key)['bytes'].sum().sort_values(ascending=False).head(10)] *)
Definition top_by_sum (keys : list (option value)) (vals : list (option Z)) : list (value * Z) :=
  head 10 (sort_values_desc (groupby_sum keys vals)).

(** [Series.value_counts()]: the counts of the distinct keys, in
    descending order. *)
Definition value_counts (keys : list (option value)) : list (value * Z) :=
  sort_values_desc
    (map (fun k => (k, Z.of_nat (List.length (filter (key_is k) keys))))
         (first_seen keys [])).

(** The optional [bytes] column as numbers; the outer [None] stands for a
    column the arithmetic of the source fails on. *)
Definition bytes_column (df : DataFrame) : option (option (list (option Z))) :=
  match column "bytes" df with
  | None => Some None
  | Some cells => match num_cells cells with Some b => Some (Some b) | None => None end
  end.

(** Lines 204-211. *)
Definition basic_stats (bytes : option (list (option Z))) : stats_dict :=
  match bytes with
  | None => []
  | Some b =>
      let total_bytes := sum_present b in
      [("total_bytes", SInt total_bytes);
       ("total_mb", SQuot total_bytes (1024 ^ 2));
       ("total_gb", SQuot total_bytes (1024 ^ 3));
       ("avg_bytes_per_record",
        SQuot total_bytes
              (Z.of_nat (List.length (filter (fun o => match o with Some _ => true | None => false end) b))))]
  end.

(** Lines 214-226: the statistics of one address column. *)
Definition ip_stats (col unique top top_traffic : string) (df : DataFrame)
    (bytes : option (list (option Z))) : option stats_dict :=
  match column col df with
  | None => Some []
  | Some cells =>
      keys <- key_cells cells ;;
      Some ([(unique, SInt (nunique keys)); (top, SSeries (top_by_size keys))]
            ++ match bytes with
               | Some b => [(top_traffic, SSeries (top_by_sum keys b))]
               | None => []
               end)
  end.

(** Lines 229-230. *)
Definition protocol_stats (df : DataFrame) : option stats_dict :=
  match column "protocol" df with
  | None => Some []
  | Some cells =>
      keys <- key_cells cells ;;
      Some [("protocol_distribution", SSeries (value_counts keys))]
  end.

Definition min_time (ts : list (option PyTime.datetime)) : option PyTime.datetime :=
  fold_right (fun ot acc =>
                match ot, acc with
                | Some t, Some m => Some (if datetime_ltb t m then t else m)
                | Some t, None => Some t
                | None, _ => acc
                end) None ts.

Definition max_time (ts : list (option PyTime.datetime)) : option PyTime.datetime :=
  fold_right (fun ot acc =>
                match ot, acc with
                | Some t, Some m => Some (if datetime_ltb m t then t else m)
                | Some t, None => Some t
                | None, _ => acc
                end) None ts.

(** Line 241: [df['timestamp'].dt.hour]. *)
Definition hour_cell (ot : option PyTime.datetime) : value :=
  match ot with Some t => VNum (PyTime.hour t) | None => VNaN end.

(** Line 249: [df['timestamp'].dt.day_name()]. *)
Definition day_cell (ot : option PyTime.datetime) : value :=
  match ot with Some t => VStr (PyTime.day_name t) | None => VNaN end.

Definition opt_key (v : value) : option value :=
  match v with VNaN => None | _ => Some v end.

(** Lines 233-254.  The two assignments [df['hour'] = ...] and
    [df['day_of_week'] = ...] act on the frame the caller passed in; the
    frame after them is returned with the statistics. *)
Definition time_stats (df : DataFrame) (bytes : option (list (option Z)))
    : option (stats_dict * DataFrame) :=
  match column "timestamp" df with
  | None => Some ([], df)
  | Some cells =>
      ts <- time_cells cells ;;
      let start_ := min_time ts in
      let end_ := max_time ts in
      let seconds := match start_, end_ with
                     | Some a, Some b => Some (PyTime.epoch_seconds b - PyTime.epoch_seconds a)%Z
                     | _, _ => None
                     end in
      let hours := map hour_cell ts in
      let df1 := set_column "hour" hours df in
      let hour_keys := map opt_key hours in
      let days := map day_cell ts in
      let df2 := set_column "day_of_week" days df1 in
      let day_keys := map opt_key days in
      Some ([("timespan", STimespan start_ end_ seconds)]
            ++ match bytes with
               | Some b => [("traffic_by_hour", SSeries (groupby_sum hour_keys b))]
               | None => []
               end
            ++ [("connections_by_hour", SSeries (groupby_size hour_keys))]
            ++ match bytes with
               | Some b => [("traffic_by_day", SSeries (groupby_sum day_keys b))]
               | None => []
               end
            ++ [("connections_by_day", SSeries (groupby_size day_keys))],
            df2)
  end.

(** Lines 257-261. *)
Definition port_stats (df : DataFrame) (bytes : option (list (option Z))) : option stats_dict :=
  match column "dst_port" df with
  | None => Some []
  | Some cells =>
      keys <- key_cells cells ;;
      Some ([("top_destination_ports", SSeries (top_by_size keys))]
            ++ match bytes with
               | Some b => [("top_ports_by_traffic", SSeries (top_by_sum keys b))]
               | None => []
               end)
  end.

(** [process_traffic_data]: the [stats] dict returned, and the frame [df]
    as the call leaves it.  [None] stands for a frame outside the model:
    a [bytes] or [timestamp] column with cells of another type, or a key
    column of mixed types. *)
Definition process_traffic_data (df : DataFrame) : option (stats_dict * DataFrame) :=
  bytes <- bytes_column df ;;
  src <- ip_stats "src_ip" "unique_sources" "top_sources" "top_sources_by_traffic" df bytes ;;
  dst <- ip_stats "dst_ip" "unique_destinations" "top_destinations"
                  "top_destinations_by_traffic" df bytes ;;
  proto <- protocol_stats df ;;
  timed <- time_stats df bytes ;;
  ports <- port_stats (snd timed) bytes ;;
  Some ([("total_records", SInt (Z.of_nat (nrows df)))]
        ++ basic_stats bytes ++ src ++ dst ++ proto ++ fst timed ++ ports,
        snd timed).

End Aggregation.

(* ===================================================================== *)
(** ** Resampling in [visualizer.py] *)
(* ===================================================================== *)












(* ===================================================================== *)
(** ** Inputs used in the examples *)
(* ===================================================================== *)

(** Lines joined by line breaks. *)
Definition unlines (ls : list string) : string := PyStr.join (String LF EmptyString) ls.

(** The line of the sample log format shown by [app.py] (line 514). *)
Definition sample_line : string :=
  "2023-10-05 08:23:45 src-ip=192.168.1.10 dst-ip=203.0.113.5 protocol=TCP src-port=54321 dst-port=443 bytes=1240".

(** The record that line stands for. *)
Definition sample_record : DataFrame :=
  mkDataFrame 1
    [("timestamp", [VTime (PyTime.DateTime 2023 10 5 8 23 45)]);
     ("src_ip", [VStr "192.168.1.10"]);
     ("dst_ip", [VStr "203.0.113.5"]);
     ("protocol", [VStr "TCP"]);
     ("src_port", [VNum 54321]);
     ("dst_port", [VNum 443]);
     ("bytes", [VNum 1240])].

(** A detector has won when it returns a frame. *)
Definition won (a : attempt * list log_event) : bool :=
  match fst a with Won _ => true | _ => false end.

(** A key-value token whose key is [timestamp] once normalized. *)
Definition is_timestamp_token (g : list string) : bool :=
  match g with
  | [key; _] => String.eqb (normalize_key key) "timestamp"
  | _ => false
  end.

(** The [timestamp] tokens of a line, in the order [findall] finds them. *)
Definition timestamp_tokens (line : string) : list (list string) :=
  filter is_timestamp_token (Re.findall kv_pattern line).

(** The value of the last [timestamp] token among [pairs]. *)
Fixpoint last_timestamp_value (pairs : list (list string)) : option string :=
  match pairs with
  | [] => None
  | g :: pairs' =>
      match last_timestamp_value pairs' with
      | Some v => Some v
      | None =>
          match g with
          | [_; value] => if is_timestamp_token g then Some value else None
          | _ => None
          end
      end
  end.

(* ===================================================================== *)
(** ** Re-serialization of a record *)
(* ===================================================================== *)

Fixpoint all_chars (p : ascii -> bool) (s : string) : bool :=
  match s with
  | EmptyString => true
  | String c s' => p c && all_chars p s'
  end.

(** A text that can stand as an unquoted value. *)
Definition is_plain (s : string) : bool :=
  match s with
  | EmptyString => false
  | _ => all_chars is_value_char s
  end.







(** Text with no line and text that defeats the three detectors. *)
Definition no_data_text : string := unlines [""; "# comment"; ""].
Definition garbage_text : string := unlines ["1"; "2"; "3,4"].


Definition kv_single_line : string := "src-ip=10.0.0.1 bytes=5".







(* ===================================================================== *)
(** ** Vocabulary of the statements on the statistics *)
(* ===================================================================== *)

(** The top-N entries of the [stats] dict. *)
Definition top_n_names : list string :=
  ["top_sources"; "top_sources_by_traffic"; "top_destinations";
   "top_destinations_by_traffic"; "top_destination_ports"; "top_ports_by_traffic"].


Fixpoint first_index (k : value) (keys : list (option value)) : nat :=
  match keys with
  | [] => 0
  | ok :: keys' => if key_is k ok then 0 else Datatypes.S (first_index k keys')
  end.

(** Among neighbours of equal value, the key met first in [keys] comes
    first. *)
Fixpoint ties_in_encounter_order (keys : list (option value)) (s : list (value * Z)) : bool :=
  match s with
  | a :: (b :: _) as s' =>
      (negb (snd a =? snd b)%Z || (first_index (fst a) keys <? first_index (fst b) keys)%nat)
      && ties_in_encounter_order keys s'
  | _ => true
  end.




(** The total of a series. *)
Definition series_total (ys : list Z) : Z := fold_right Z.add 0%Z ys.

(** A missing value counts for nothing in a sum. *)
Definition val (ov : option Z) : Z := match ov with Some z => z | None => 0%Z end.

(** The values of the rows that have a time stamp. *)
Definition stamped_values (ts : list (option PyTime.datetime)) (vals : list (option Z))
    : list (option Z) :=
  map snd (filter (fun tv => match fst tv with Some _ => true | None => false end)
                  (combine ts vals)).

(** A series computed as one of the two top-N expressions of the source. *)
Definition is_top_n {S : SortValues} (s : list (value * Z)) : Prop :=
  (exists keys, s = top_by_size keys) \/ (exists keys vals, s = top_by_sum keys vals).

(** The day and hour keys of the rows. *)
Definition day_keys (ts : list (option PyTime.datetime)) : list (option value) :=
  map opt_key (map day_cell ts).

Definition hour_keys (ts : list (option PyTime.datetime)) : list (option value) :=
  map opt_key (map hour_cell ts).


(** Two sources seen once each, the greater address first. *)
Definition row_order_frame : DataFrame :=
  mkDataFrame 2 [("src_ip", [VStr "10.0.0.2"; VStr "10.0.0.1"])].

(** A Monday and the Friday after it. *)
Definition week_frame : DataFrame :=
  mkDataFrame 2 [("timestamp", [VTime (PyTime.DateTime 2023 10 2 9 0 0);
                                VTime (PyTime.DateTime 2023 10 6 9 0 0)])].

(** A table with a header and two rows. *)
Definition csv_sample_text : string :=
  unlines ["timestamp,src_ip,bytes";
           "2023-10-05 08:23:45,10.0.0.1,1000";
           "2023-10-05 09:23:45,10.0.0.2,2048"].


(* ===================================================================== *)
(** ** The other charts of [visualizer.py] *)
(* ===================================================================== *)

(** A chart over labelled values: the message of an empty figure, or the
    labels with their values, each the float quotient of an integer by
    [div]. *)
Inductive labelled_chart : Type :=
| NoChart
| Labelled (labels : list value) (values : list Z) (div : Z).

(** A heat map: rows [z] of optional cells (a missing cell is [None]),
    the tick values [x], the row labels [y] and the divisor of the
    cells. *)
Inductive heatmap : Type :=
| NoHeatmap
| Heatmap (z : list (list (option Z))) (x : list Z) (y : list string) (div : Z).

(** The number of cells that hold a value. *)
Definition count_present {A : Type} (l : list (option A)) : nat :=
  List.length (filter (fun o => match o with Some _ => true | None => false end) l).


Section Charts.

Context {S : SortValues}.

(** [create_top_ips_chart]: lines 211-218 and the bars built from
    [ip_traffic]. *)
Definition create_top_ips_chart (df : DataFrame) (ip_column : string) (top_n : nat)
    : option labelled_chart :=
  if negb (has_column ip_column df) || negb (has_column "bytes" df) then Some NoChart
  else
    cells <- column ip_column df ;;
    bcells <- column "bytes" df ;;
    keys <- key_cells cells ;;
    b <- num_cells bcells ;;
    let ip_traffic := head top_n (sort_values_desc (groupby_sum keys b)) in
    Some (Labelled (map fst ip_traffic) (map snd ip_traffic) (1024 ^ 2)).



End Charts.

(** Lines 153-154: the hour and the day number (Monday is 0) of a row. *)
Definition in_cell (i h : Z) (ot : option PyTime.datetime) : bool :=
  match ot with
  | Some t => (PyTime.dayofweek t =? i)%Z && (PyTime.hour t =? h)%Z
  | None => false
  end.

(** The hours that occur, ascending: the columns of the pivot table. *)
Definition pivot_hours (ts : list (option PyTime.datetime)) : list Z :=
  flat_map (fun k => match k with VNum h => [h] | _ => [] end) (group_keys (hour_keys ts)).

(** Lines 160-173: the cell of the pivot table for a day and an hour: the
    sum of the bytes of the rows of the group, or their number without a
    [bytes] column; a day and hour without rows is a missing cell. *)
Definition pivot_cell (ts : list (option PyTime.datetime)) (bytes : option (list (option Z)))
    (i h : Z) : option Z :=
  match bytes with
  | Some b =>
      match filter (fun tv => in_cell i h (fst tv)) (combine ts b) with
      | [] => None
      | rows => Some (sum_present (map snd rows))
      end
  | None =>
      match filter (in_cell i h) ts with
      | [] => None
      | rows => Some (Z.of_nat (List.length rows))
      end
  end.

(** [create_hourly_heatmap]: lines 146-185.  The rows are re-indexed to
    the days 0 to 6; the tick values are the hours 0 to 23 whatever the
    columns of the table. *)
Definition create_hourly_heatmap (df : DataFrame) : option heatmap :=
  if negb (has_column "timestamp" df) then Some NoHeatmap
  else
    tcells <- column "timestamp" df ;;
    ts <- time_cells tcells ;;
    bytes <- bytes_column df ;;
    let pivot_data :=
      map (fun i => map (fun h => pivot_cell ts bytes i h) (pivot_hours ts))
          (map Z.of_nat (seq 0 7)) in
    Some (Heatmap pivot_data (map Z.of_nat (seq 0 24)) PyTime.day_names
                  (match bytes with Some _ => 1024 ^ 2 | None => 1 end)%Z).

(* ===================================================================== *)
(** ** Vocabulary of the further statements *)
(* ===================================================================== *)

(** The top-N entries by number of records and by traffic, with the
    column each one groups by. *)
Definition count_stat_columns : list (string * string) :=
  [("top_sources", "src_ip"); ("top_destinations", "dst_ip");
   ("top_destination_ports", "dst_port")].

Definition traffic_stat_columns : list (string * string) :=
  [("top_sources_by_traffic", "src_ip"); ("top_destinations_by_traffic", "dst_ip");
   ("top_ports_by_traffic", "dst_port")].

(** The unique-count entry next to each top-N entry by number of records. *)
Definition unique_stat_names : list (string * string) :=
  [("unique_sources", "top_sources"); ("unique_destinations", "top_destinations")].

(** [s] lists the largest entries of the table [g]: every entry of [s] is
    one of [g], and an entry of [g] left out of [s] is no greater than
    any entry of [s]. *)
Definition lists_largest (s g : list (value * Z)) : Prop :=
  (forall e, In e s -> In e g) /\
  (forall e, In e g -> In e s \/ forall e', In e' s -> (snd e <= snd e')%Z).

(** The number of rows with key [k]. *)
Definition group_count (k : value) (keys : list (option value)) : Z :=
  Z.of_nat (List.length (filter (key_is k) keys)).

(** The sum over the rows with key [k]. *)
Definition group_total (k : value) (keys : list (option value)) (vals : list (option Z)) : Z :=
  sum_present (map snd (filter (fun kv => key_is k (fst kv)) (combine keys vals))).

(** A row that has a key. *)
Definition has_key {A : Type} (kv : option value * A) : bool :=
  match fst kv with Some _ => true | None => false end.

(** Three records of two sources with time stamps, protocols and byte
    counts. *)
Definition traffic_frame : DataFrame :=
  mkDataFrame 3 [("timestamp", [VTime (PyTime.DateTime 2023 10 2 9 0 0);
                                VTime (PyTime.DateTime 2023 10 2 9 30 0);
                                VTime (PyTime.DateTime 2023 10 6 17 0 0)]);
                 ("src_ip", [VStr "10.0.0.1"; VStr "10.0.0.2"; VStr "10.0.0.1"]);
                 ("protocol", [VStr "tcp"; VStr "udp"; VStr "tcp"]);
                 ("bytes", [VNum 100; VNum 500; VNum 300])].

(** The sum of the cells of a heat map, a missing cell counting for
    nothing. *)
Definition heatmap_total (z : list (list (option Z))) : Z :=
  series_total (map (fun row => series_total (map val row)) z).

(** The cell of a heat map in row [i] and column [j]. *)
Definition heatmap_cell (z : list (list (option Z))) (i j : nat) : option (option Z) :=
  match nth_error z i with
  | Some row => nth_error row j
  | None => None
  end.

(** The weight of the rows of a day and hour. *)
Definition cell_weight {R : Type} (stamp : R -> option PyTime.datetime) (weight : R -> Z)
    (rows : list R) (i h : Z) : Z :=
  series_total (map weight (filter (fun r => in_cell i h (stamp r)) rows)).

(** A character that [key.lower().replace('-', '_')] leaves alone: not an
    upper-case letter and not a hyphen. *)
Definition is_normal_char (c : ascii) : bool :=
  negb (PyStr.is_upper c) && negb (c =? "-")%char.

(** A name without upper-case letters and hyphens. *)
Definition normalized (s : string) : bool := all_chars is_normal_char s.

(** Three lines, of which the table reader rejects the third; the second
    holds no token. *)
Definition kv_text : string :=
  unlines ["2023-10-05 08:23:45 Src-IP=10.0.0.1 bytes=5";
           "no token here";
           "SRC-IP=10.0.0.2, bytes=7, proto=tcp"].

Definition normal_names (ks : list string) : Prop := Forall (fun k => normalized k = true) ks.

(** A table whose time column is named [time]. *)
Definition csv_time_text : string :=
  unlines ["time,bytes"; "2023-10-05 08:23:45,1000"].

(** A date-time written as in the comment of line 52: four digits of the
    year, two each of month, day, hour, minute and second. *)
Definition stamp_text (t : PyTime.datetime) : string :=
  (PyTime.pad4 (PyTime.year t) ++ "-" ++ PyTime.pad2 (PyTime.month t) ++ "-" ++
   PyTime.pad2 (PyTime.day t) ++ " " ++
   PyTime.pad2 (PyTime.hour t) ++ ":" ++ PyTime.pad2 (PyTime.minute t) ++ ":" ++
   PyTime.pad2 (PyTime.second t))%string.

(* ===================================================================== *)
(** ** Lines made of key=value tokens *)
(* ===================================================================== *)

(** A key=value token as it stands in a line: the key, whether the value
    stands between quotes, and the text of the value. *)
Definition token : Type := (string * bool * string)%type.

Definition token_key (tok : token) : string := fst (fst tok).
Definition token_quoted (tok : token) : bool := snd (fst tok).
Definition token_value (tok : token) : string := snd tok.

(** The value as written. *)
Definition raw_value (tok : token) : string :=
  if token_quoted tok
  then String quote (token_value tok ++ String quote EmptyString)
  else token_value tok.

Definition token_text (tok : token) : string :=
  (token_key tok ++ String "=" (raw_value tok))%string.

(** Tokens separated by one blank. *)
Definition token_line (toks : list token) : string :=
  PyStr.join " " (map token_text toks).

(** What [findall] reports for a token: the key and the value as
    written. *)
Definition token_groups (tok : token) : list string := [token_key tok; raw_value tok].

(** A token the pattern of line 58 reads whole: a non-empty key of
    letters, digits, underscores and hyphens; a value that is either
    bare, not empty and free of quotes and white space, or quoted and
    free of quotes. *)
Definition wf_token (tok : token) : bool :=
  negb (String.eqb (token_key tok) "") && all_chars is_key_char (token_key tok) &&
  (if token_quoted tok then all_chars not_quote (token_value tok)
   else is_plain (token_value tok)).

(** The value of the last token whose key is [k] once lowered and with
    its hyphens replaced. *)
Fixpoint last_value (k : string) (toks : list token) : option string :=
  match toks with
  | [] => None
  | tok :: toks' =>
      match last_value k toks' with
      | Some v => Some v
      | None => if String.eqb (normalize_key (token_key tok)) k
                then Some (token_value tok) else None
      end
  end.

Definition no_equals_sign (c : ascii) : bool := negb (c =? "=")%char.

(** What may stand before the tokens of a line: nothing, or a text
    without equals sign that ends with a blank. *)
Definition lead_ok (lead : string) : bool :=
  all_chars no_equals_sign lead &&
  match lead with
  | EmptyString => true
  | _ => PyStr.endswith " " lead
  end.

(** The run of key characters at the start of [s] is not followed by an
    equals sign. *)
Fixpoint key_run_unassigned (s : string) : bool :=
  match s with
  | EmptyString => true
  | String c s' => if is_key_char c then key_run_unassigned s' else negb (c =? "=")%char
  end.

Definition starts_with_equals (s : string) : bool :=
  match s with
  | String c _ => ("=" =? c)%char
  | EmptyString => false
  end.

(** The tokens of the sample line of [app.py]. *)
Definition sample_tokens : list token :=
  [("src-ip", false, "192.168.1.10"); ("dst-ip", false, "203.0.113.5");
   ("protocol", false, "TCP"); ("src-port", false, "54321"); ("dst-port", false, "443");
   ("bytes", false, "1240")].

(** [df.empty]: an axis of the frame has length 0. *)
Definition df_empty (df : DataFrame) : bool :=
  (nrows df =? 0)%nat || match colnames df with [] => true | _ => false end.

(** Line 60 of [app.py]: [df is not None and not df.empty], the test
    under which an uploaded file is taken. *)
Definition upload_accepted (df : option DataFrame) : bool :=
  match df with
  | Some df' => negb (df_empty df')
  | None => false
  end.



(* ===================================================================== *)
(** ** The filters of [app.py] *)
(* ===================================================================== *)

(** [cells[mask]]: the cells at the positions where the mask holds. *)
Definition select {A : Type} (mask : list bool) (cells : list A) : list A :=
  map snd (filter fst (combine mask cells)).

(** [df[mask]]: the records where the mask holds, in every column. *)
Definition select_rows (mask : list bool) (df : DataFrame) : DataFrame :=
  mkDataFrame (List.length (filter (fun b : bool => b) mask))
              (map (fun kc => (fst kc, select mask (snd kc))) (columns df)).

(** A calendar date: year, month, day. *)
Definition date : Type := (Z * Z * Z)%type.

(** [t.date()] *)
Definition date_of (t : PyTime.datetime) : date :=
  (PyTime.year t, PyTime.month t, PyTime.day t).

(** [datetime.combine(d, time.min)] *)
Definition combine_min (d : date) : PyTime.datetime :=
  PyTime.DateTime (fst (fst d)) (snd (fst d)) (snd d) 0 0 0.

(** [datetime.combine(d, time.max)], to the second: the date-times of the
    model carry no fraction of a second, so being at most 23:59:59.999999
    is being at most 23:59:59. *)
Definition combine_max (d : date) : PyTime.datetime :=
  PyTime.DateTime (fst (fst d)) (snd (fst d)) (snd d) 23 59 59.

(** Lines 118-119 of [app.py] for one cell; a comparison with a missing
    time stamp is false. *)
Definition in_date_range (start_date end_date : date) (ot : option PyTime.datetime) : bool :=
  match ot with
  | Some t => negb (datetime_ltb t (combine_min start_date)) &&
              negb (datetime_ltb (combine_max end_date) t)
  | None => false
  end.

(** Line 133 for one cell: [==] with a string. *)
Definition protocol_is (protocol_filter : string) (v : value) : bool :=
  match v with
  | VStr s => String.eqb s protocol_filter
  | _ => false
  end.

(** [mask |= other] *)
Definition or_mask (mask other : list bool) : list bool :=
  map (fun ab => orb (fst ab) (snd ab)) (combine mask other).

Definition is_stamped (ot : option PyTime.datetime) : bool :=
  match ot with Some _ => true | None => false end.

(** Every column has as many cells as the frame has records. *)
Definition wf_frame (df : DataFrame) : bool :=
  forallb (fun kc => (List.length (snd kc) =? nrows df)%nat) (columns df).

Section Filters.

(** [Series.str.contains(ip_filter, na=False)] (lines 126 and 128), left
    open: the search of a regular expression in every cell; [None]
    stands for an exception. *)
Variable str_contains : string -> list value -> option (list bool).

(** Lines 124-128. *)
Definition ip_mask (ip_filter : string) (df : DataFrame) : option (list bool) :=
  let mask0 := repeat false (nrows df) in
  mask1 <- match column "src_ip" df with
           | Some cells => option_map (or_mask mask0) (str_contains ip_filter cells)
           | None => Some mask0
           end ;;
  match column "dst_ip" df with
  | Some cells => option_map (or_mask mask1) (str_contains ip_filter cells)
  | None => Some mask1
  end.

(** Lines 111-133, run when the button [Apply Filters] is pressed: the
    records of [data] within the date range, then those whose source or
    destination address contains the address filter, then those of the
    chosen protocol.  [None] stands for an exception. *)
Definition apply_filters (data : DataFrame) (start_date end_date : date)
    (ip_filter protocol_filter : string) : option DataFrame :=
  filtered1 <- (if has_column "timestamp" data then
                  tcells <- column "timestamp" data ;;
                  ts <- time_cells tcells ;;
                  Some (select_rows (map (in_date_range start_date end_date) ts) data)
                else Some data) ;;
  filtered2 <- (if negb (String.eqb ip_filter "") &&
                   (has_column "src_ip" filtered1 || has_column "dst_ip" filtered1) then
                  mask <- ip_mask ip_filter filtered1 ;;
                  Some (select_rows mask filtered1)
                else Some filtered1) ;;
  if negb (String.eqb protocol_filter "All") && has_column "protocol" filtered2 then
    cells <- column "protocol" filtered2 ;;
    Some (select_rows (map (protocol_is protocol_filter) cells) filtered2)
  else Some filtered2.

End Filters.

(** A frame of which the second record has no time stamp. *)
Definition gap_frame : DataFrame :=
  mkDataFrame 3 [("timestamp", [VTime (PyTime.DateTime 2023 10 2 9 0 0); VNaN;
                                VTime (PyTime.DateTime 2023 10 6 17 0 0)]);
                 ("protocol", [VStr "tcp"; VStr "udp"; VStr "tcp"])].

(** A search that finds nothing. *)
Definition never_contains (pat : string) (cells : list value) : option (list bool) :=
  Some (map (fun _ => false) cells).

(** A column of which every cell satisfies [P], if the frame has it. *)
Definition cells_satisfy (c : string) (P : value -> Prop) (df : DataFrame) : Prop :=
  forall cells, column c df = Some cells -> Forall P cells.

(* ===================================================================== *)
(** ** Logs in the sample format *)
(* ===================================================================== *)

(** A record of a log in the format [app.py] shows (lines 512-517): a
    date and time, then key=value tokens. *)
Definition log_record : Type := (PyTime.datetime * list token)%type.

(** The line of a record: the time stamp, a blank, the tokens. *)
Definition record_line (r : log_record) : string :=
  ((stamp_text (fst r) ++ " ") ++ token_line (snd r))%string.

(** The cell a record gives to the column [k]: the value of its last
    token of that key, or the missing value. *)
Definition field_cell (k : string) (r : log_record) : value :=
  match last_value k (snd r) with
  | Some v => VStr v
  | None => VNaN
  end.

(** The record has a token of key [k]. *)
Definition has_field (k : string) (r : log_record) : bool :=
  match last_value k (snd r) with Some _ => true | None => false end.

(** Lines 104-110: the columns made numeric. *)
Definition numeric_columns : list string :=
  ["bytes"; "src_port"; "dst_port"; "source_port"; "destination_port"].

(** Two records in the sample format. *)
Definition sample_records : list log_record :=
  [(PyTime.DateTime 2023 10 5 8 23 45,
    [("src-ip", false, "192.168.1.10"); ("proto", false, "tcp"); ("bytes", false, "1240")]);
   (PyTime.DateTime 2023 10 5 8 24 12,
    [("src-ip", false, "192.168.1.15"); ("comment", true, "web, allowed")])].

(* ===================================================================== *)
(** * Properties *)
(* ===================================================================== *)

(** ** Evaluation of the library models *)

Example strptime_iso_like :
  PyTime.strptime "2023-10-05 08:23:45" PandasModel.iso_like
  = Some (PyTime.DateTime 2023 10 5 8 23 45).
Proof. vm_compute. reflexivity. Qed.

Example strptime_month_name_defaults_to_1900 :
  try_formats "Oct  5 08:23:45" timestamp_formats = Some (PyTime.DateTime 1900 10 5 8 23 45).
Proof. vm_compute. reflexivity. Qed.

Example strptime_rejects_feb_29_of_1900 :
  try_formats "Feb 29 08:23:45" timestamp_formats = None.
Proof. vm_compute. reflexivity. Qed.

Example day_name_2023_10_05 :
  PyTime.day_name (PyTime.DateTime 2023 10 5 8 23 45) = "Thursday".
Proof. vm_compute. reflexivity. Qed.

Example read_csv_ragged_row_raises :
  read_csv (unlines ["a"; "1"; "2,3"]) = None.
Proof. vm_compute. reflexivity. Qed.

Example read_csv_header_only :
  read_csv "a,b" = Some (mkDataFrame 0 [("a", []); ("b", [])]).
Proof. vm_compute. reflexivity. Qed.

Example findall_value_runs_to_white_space :
  Re.findall kv_pattern "a=b=c k = v k2= x=1" = [["a"; "b=c"]; ["x"; "1"]].
Proof. vm_compute. reflexivity. Qed.

Example first_pattern_decides_the_timestamp :
  kv_line_data "2023-13-45 08:23:45 Oct 5 08:23:45 a=1" = [("a", VStr "1")].
Proof. vm_compute. reflexivity. Qed.

Example month_name_line :
  kv_line_data "Oct  5 08:23:45 router firewall: src-ip=1.2.3.4"
  = [("timestamp", VTime (PyTime.DateTime 1900 10 5 8 23 45)); ("src_ip", VStr "1.2.3.4")].
Proof. vm_compute. reflexivity. Qed.

(** ** The cascade of detectors *)

Section Cascade.

Context {P : Pandas}.

Lemma parse_no_lines (log_content : string) :
  filter_lines log_content = [] ->
  parse_mikrotik_logs log_content = (None, [ErrNoValidData]).
Proof. intros H. unfold parse_mikrotik_logs. rewrite H. reflexivity. Qed.

Lemma parse_csv_first (log_content : string) (df : DataFrame) (log : list log_event) :
  filter_lines log_content <> [] ->
  csv_detector log_content = (Won df, log) ->
  parse_mikrotik_logs log_content = (Some df, log).
Proof.
  intros Hl Hc. unfold parse_mikrotik_logs.
  destruct (filter_lines log_content); [contradiction|].
  rewrite Hc. reflexivity.
Qed.

Lemma parse_kv_second (log_content : string) (df : DataFrame) (log : list log_event) :
  filter_lines log_content <> [] ->
  won (csv_detector log_content) = false ->
  kv_detector (filter_lines log_content) = (Won df, log) ->
  fst (parse_mikrotik_logs log_content) = Some df.
Proof.
  intros Hl Hc Hk. unfold parse_mikrotik_logs.
  destruct (filter_lines log_content) eqn:E; [contradiction|].
  destruct (csv_detector log_content) as [a l1]. unfold won in Hc. simpl in Hc.
  destruct a; try discriminate; rewrite Hk; reflexivity.
Qed.

Lemma parse_ws_third (log_content : string) (df : DataFrame) (log : list log_event) :
  filter_lines log_content <> [] ->
  won (csv_detector log_content) = false ->
  won (kv_detector (filter_lines log_content)) = false ->
  ws_detector (filter_lines log_content) = (Won df, log) ->
  fst (parse_mikrotik_logs log_content) = Some df.
Proof.
  intros Hl Hc Hk Hw. unfold parse_mikrotik_logs.
  destruct (filter_lines log_content) eqn:E; [contradiction|].
  destruct (csv_detector log_content) as [a l1]. unfold won in Hc, Hk. simpl in Hc.
  destruct (kv_detector (s :: l)) as [b l2]. simpl in Hk.
  destruct a; try discriminate; destruct b; try discriminate; rewrite Hw; reflexivity.
Qed.

(** C2 (amended): [parse_mikrotik_logs] returns [None] exactly when the
    input has no non-blank, non-comment line or when none of the three
    detectors wins, and it is the same [None] in both cases; the two
    outcomes differ only in what is logged: "No valid data found" is
    logged exactly when there is no line, "Could not determine the log
    format" exactly when there are lines and no detector wins. *)
Theorem parse_failures_return_none_and_differ_in_log (log_content : string) :
  let lines := filter_lines log_content in
  let r := parse_mikrotik_logs log_content in
  (fst r = None <->
   lines = [] \/
   (won (csv_detector log_content) = false /\ won (kv_detector lines) = false /\
    won (ws_detector lines) = false)) /\
  (snd r = [ErrNoValidData] <-> lines = []) /\
  (In ErrUnknownFormat (snd r) <->
   lines <> [] /\ won (csv_detector log_content) = false /\
   won (kv_detector lines) = false /\ won (ws_detector lines) = false).
Proof.
  cbv zeta. unfold parse_mikrotik_logs.
  destruct (filter_lines log_content) as [|l0 ls] eqn:E.
  - simpl. intuition congruence.
  - unfold won, csv_detector, kv_detector, ws_detector.
    destruct (read_csv log_content) as [df|];
      [destruct (convert_time_column df)|];
      (destruct (kv_data (l0 :: ls)); [|destruct (kv_frame _)]);
      (destruct (potential_headers (l0 :: ls));
       [|destruct (ws_data (l0 :: ls)); [|destruct (ws_frame _)]]);
      simpl; intuition (try discriminate; try congruence).
Qed.

End Cascade.

(** ** The parser on concrete text *)

(** C2 (counterexample): comment-only text has no line, the text 1 / 2 /
    3,4 has lines and defeats the three detectors (the table reader
    rejects its ragged last row, it has no key=value token and no bare
    identifier), and the caller receives [None] for both, so the claim
    that the two failures can be told apart at the interface fails. *)
Lemma no_data_and_parse_failure_both_none :
  filter_lines no_data_text = [] /\
  filter_lines garbage_text <> [] /\
  won (csv_detector garbage_text) = false /\
  won (kv_detector (filter_lines garbage_text)) = false /\
  won (ws_detector (filter_lines garbage_text)) = false /\
  fst (parse_mikrotik_logs no_data_text) = fst (parse_mikrotik_logs garbage_text).
Proof. vm_compute. repeat split; try reflexivity. discriminate. Qed.

(** C1 (the code at the failing input): on the one-line key=value text
    [src-ip=10.0.0.1 bytes=5] the table reader does not raise and yields
    a frame with the line as its only column name and no record; that
    frame is returned, although the key-value detector, which is never
    tried, yields one record on the same line. *)
Theorem csv_detector_wins_with_no_record :
  parse_mikrotik_logs kv_single_line
  = (Some (mkDataFrame 0 [(kv_single_line, [])]), [InfoParsedCsv]) /\
  fst (kv_detector (filter_lines kv_single_line))
  = Won (mkDataFrame 1 [("src_ip", [VStr "10.0.0.1"]); ("bytes", [VNum 5])]).
Proof. vm_compute. split; reflexivity. Qed.

(** C4 (the code at the failing input): the sample line is returned as a
    frame with no record, whose single column is named by the whole line;
    the key-value detector alone yields the record the claim describes. *)
Theorem sample_line_parses_to_no_record :
  parse_mikrotik_logs sample_line
  = (Some (mkDataFrame 0 [(sample_line, [])]), [InfoParsedCsv]) /\
  fst (kv_detector (filter_lines sample_line)) = Won sample_record.
Proof. vm_compute. split; reflexivity. Qed.

(** The three sample lines of [app.py]: the first is taken as the header
    and the other two as one-cell rows. *)
Example sample_log_of_app_is_read_as_a_table :
  exists cells,
    fst (parse_mikrotik_logs
           (unlines [sample_line;
                     "2023-10-05 08:23:47 src-ip=192.168.1.15 dst-ip=198.51.100.2 protocol=UDP src-port=45678 dst-port=53 bytes=64";
                     "2023-10-05 08:23:48 src-ip=203.0.113.5 dst-ip=192.168.1.10 protocol=TCP src-port=443 dst-port=54321 bytes=8540"]))
    = Some (mkDataFrame 2 [(sample_line, cells)]).
Proof. eexists. vm_compute. reflexivity. Qed.

(** ** Dicts and the key-value pairs of a line *)

Lemma dict_get_set_same (k : string) (v : value) (d : dict) :
  dict_get k (dict_set k v d) = Some v.
Proof.
  induction d as [|[k' v'] d IH]; simpl.
  - rewrite String.eqb_refl. reflexivity.
  - destruct (String.eqb k' k) eqn:E; simpl.
    + rewrite String.eqb_refl. reflexivity.
    + rewrite E. exact IH.
Qed.

Lemma dict_get_set_other (k k' : string) (v : value) (d : dict) :
  k <> k' -> dict_get k (dict_set k' v d) = dict_get k d.
Proof.
  intros Hne. induction d as [|[k0 v0] d IH]; simpl.
  - destruct (String.eqb k' k) eqn:E; [apply String.eqb_eq in E; congruence | reflexivity].
  - destruct (String.eqb k0 k') eqn:E; simpl.
    + apply String.eqb_eq in E. subst k0.
      destruct (String.eqb k' k) eqn:E'; [apply String.eqb_eq in E'; congruence | reflexivity].
    + destruct (String.eqb k0 k); [reflexivity | exact IH].
Qed.

(** After the pairs of a line are stored, the [timestamp] entry is the
    text of the last [timestamp] token, whatever the dict held before. *)
Lemma store_pairs_timestamp (pairs : list (list string)) (d : dict) :
  dict_get "timestamp" (store_pairs pairs d)
  = match last_timestamp_value pairs with
    | Some v => Some (VStr (unquote v))
    | None => dict_get "timestamp" d
    end.
Proof.
  revert d. induction pairs as [|g pairs IH]; intros d; [reflexivity|].
  destruct g as [|key [|value [|x g]]]; simpl; try (rewrite IH; destruct (last_timestamp_value pairs); reflexivity).
  rewrite IH. destruct (last_timestamp_value pairs); [reflexivity|].
  destruct (String.eqb (normalize_key key) "timestamp") eqn:E.
  - apply String.eqb_eq in E. rewrite E. apply dict_get_set_same.
  - apply dict_get_set_other. intros Heq. rewrite <- Heq, String.eqb_refl in E. discriminate.
Qed.

Lemma last_timestamp_value_none (pairs : list (list string)) :
  filter is_timestamp_token pairs = [] -> last_timestamp_value pairs = None.
Proof.
  induction pairs as [|g pairs IH]; simpl; [reflexivity|].
  destruct (is_timestamp_token g) eqn:E; [discriminate|].
  intros H. rewrite (IH H). destruct g as [|key [|value [|x g]]]; reflexivity.
Qed.




(** ** Column names through the operations on frames *)

Lemma existsb_assoc_set {A : Type} (x c : string) (v : A) (l : list (string * A)) :
  existsb (String.eqb x) (map fst (assoc_set c v l))
  = existsb (String.eqb x) (map fst l) || String.eqb x c.
Proof.
  induction l as [|[k w] l IH]; simpl.
  - rewrite orb_false_r. reflexivity.
  - destruct (String.eqb k c) eqn:E; simpl.
    + apply String.eqb_eq in E. subst k.
      destruct (String.eqb x c); simpl; [reflexivity|].
      rewrite orb_false_r. reflexivity.
    + rewrite IH. rewrite orb_assoc. reflexivity.
Qed.

Lemma has_column_set_column (x c : string) (cells : list value) (df : DataFrame) :
  has_column x (set_column c cells df) = has_column x df || String.eqb x c.
Proof. unfold has_column, colnames, set_column. simpl. apply existsb_assoc_set. Qed.

Lemma has_column_drop_column (x c : string) (df : DataFrame) :
  has_column x (drop_column c df) = has_column x df && negb (String.eqb x c).
Proof.
  unfold has_column, colnames, drop_column. simpl.
  induction (columns df) as [|[k w] l IH]; simpl; [reflexivity|].
  destruct (String.eqb k c) eqn:E; simpl.
  - apply String.eqb_eq in E. subst k. rewrite IH.
    destruct (String.eqb x c); simpl; [rewrite andb_false_r|]; reflexivity.
  - rewrite IH. destruct (String.eqb x k) eqn:E'; simpl; [|reflexivity].
    apply String.eqb_eq in E'. subst k. rewrite E. reflexivity.
Qed.

Lemma column_some_has_column (c : string) (df : DataFrame) (cells : list value) :
  column c df = Some cells -> has_column c df = true.
Proof.
  unfold column, has_column, colnames.
  induction (columns df) as [|[k w] l IH]; simpl; [discriminate|].
  rewrite (String.eqb_sym c k). destruct (String.eqb k c); simpl; auto.
Qed.

Lemma has_column_column_some (c : string) (df : DataFrame) :
  has_column c df = true -> exists cells, column c df = Some cells.
Proof.
  unfold column, has_column, colnames.
  induction (columns df) as [|[k w] l IH]; simpl; [discriminate|].
  rewrite (String.eqb_sym c k). destruct (String.eqb k c); simpl; eauto.
Qed.

Section ColumnNames.

Context {P : Pandas}.






End ColumnNames.



(** ** The matcher on text of a known shape *)

Module ReFacts.
Import Re.

Lemma rep_splits_head (cls : ascii -> bool) (p r : string) (n : nat) :
  all_chars cls p = true -> stops cls r -> (String.length p <= n)%nat ->
  exists tl, rep_splits cls n (p ++ r) = (p, r) :: tl.
Proof.
  revert n. induction p as [|c p IH]; intros n Hp Hr Hn.
  - simpl. destruct n; [eexists; reflexivity|].
    destruct r as [|c r]; [eexists; reflexivity|].
    simpl in Hr. simpl. rewrite Hr. eexists; reflexivity.
  - simpl in Hp. apply andb_true_iff in Hp. destruct Hp as [Hc Hp].
    destruct n as [|n]; [simpl in Hn; lia|].
    simpl. rewrite Hc.
    destruct (IH n Hp Hr) as [tl Htl]; [simpl in Hn; lia|].
    rewrite Htl. simpl. eexists; reflexivity.
Qed.

Lemma length_append (a b : string) :
  String.length (a ++ b) = (String.length a + String.length b)%nat.
Proof. induction a; simpl; auto. Qed.

Lemma heads_rep_unbounded (cls : ascii -> bool) (lo : nat) (p r : string) :
  all_chars cls p = true -> stops cls r -> (lo <= String.length p)%nat ->
  heads (Rep cls lo None) (p ++ r) (MRes p [] r).
Proof.
  intros Hp Hr Hlo. unfold heads. simpl.
  destruct (rep_splits_head cls p r (String.length (p ++ r)) Hp Hr) as [tl Htl].
  { rewrite length_append. lia. }
  rewrite Htl. simpl.
  apply Nat.leb_le in Hlo. rewrite Hlo. simpl. eexists; reflexivity.
Qed.

Lemma rep_none (cls : ascii -> bool) (hi : option nat) (s : string) :
  stops cls s -> rmatch (Rep cls 1 hi) s = [].
Proof.
  intros Hs. simpl.
  destruct s as [|c s]; simpl.
  - destruct hi as [[|h]|]; reflexivity.
  - simpl in Hs. destruct hi as [[|h]|]; simpl; try rewrite Hs; reflexivity.
Qed.

Lemma heads_lit (c : ascii) (s : string) :
  heads (Lit c) (String c s) (MRes (String c EmptyString) [] s).
Proof. unfold heads. simpl. rewrite Ascii.eqb_refl. eexists; reflexivity. Qed.

Lemma heads_cat (r1 r2 : regex) (s : string) (m1 m2 : mres) :
  heads r1 s m1 -> heads r2 (rest m1) m2 ->
  heads (Cat r1 r2) s
        (MRes (matched m1 ++ matched m2) (groups m1 ++ groups m2) (rest m2)).
Proof.
  intros [tl1 H1] [tl2 H2]. unfold heads. simpl. rewrite H1. simpl. rewrite H2. simpl.
  eexists; reflexivity.
Qed.

Lemma heads_grp (r : regex) (s : string) (m : mres) :
  heads r s m -> heads (Grp r) s (MRes (matched m) (matched m :: groups m) (rest m)).
Proof. intros [tl H]. unfold heads. simpl. rewrite H. simpl. eexists; reflexivity. Qed.

Lemma heads_alt_l (r1 r2 : regex) (s : string) (m : mres) :
  heads r1 s m -> heads (Alt r1 r2) s m.
Proof. intros [tl H]. unfold heads. simpl. rewrite H. simpl. eexists; reflexivity. Qed.

Lemma heads_alt_r (r1 r2 : regex) (s : string) (m : mres) :
  rmatch r1 s = [] -> heads r2 s m -> heads (Alt r1 r2) s m.
Proof. intros H1 [tl H]. unfold heads. simpl. rewrite H1, H. simpl. eexists; reflexivity. Qed.

Lemma heads_match (r : regex) (s : string) (m : mres) :
  heads r s m -> match_ r s = Some m.
Proof. intros [tl H]. unfold match_. rewrite H. reflexivity. Qed.

Lemma findall_skip (r : regex) (p s : string) :
  findall_aux r (String.length p) (p ++ s) = findall_aux r 0 s.
Proof. induction p as [|c p IH]; simpl; [destruct s; reflexivity | exact IH]. Qed.

(** A match at the start of the subject is reported and the scan resumes
    after it. *)
Lemma findall_at_match (r : regex) (c : ascii) (p s : string) (gs : list string) :
  match_ r (String c p ++ s) = Some (MRes (String c p) gs s) ->
  findall r (String c p ++ s) = gs :: findall r s.
Proof.
  intros H. unfold findall. simpl. simpl in H. rewrite H. simpl.
  rewrite findall_skip. reflexivity.
Qed.

Lemma findall_no_match (r : regex) (c : ascii) (s : string) :
  match_ r (String c s) = None -> findall r (String c s) = findall r s.
Proof. intros H. unfold findall. simpl. rewrite H. reflexivity. Qed.

End ReFacts.

(** ** The key-value pattern on re-serialized records *)

Module KvFacts.
Import Re ReFacts.

Lemma append_assoc (a b c : string) : ((a ++ b) ++ c = a ++ (b ++ c))%string.
Proof. induction a; simpl; congruence. Qed.

Lemma append_empty_r (a : string) : (a ++ "" = a)%string.
Proof. induction a; simpl; congruence. Qed.

Lemma length_pos (k : string) : k <> EmptyString -> (1 <= String.length k)%nat.
Proof. destruct k; [congruence | simpl; lia]. Qed.

Lemma is_plain_all (s : string) : is_plain s = true -> all_chars is_value_char s = true.
Proof. destruct s; [discriminate | auto]. Qed.

Lemma is_plain_nonempty (s : string) : is_plain s = true -> s <> EmptyString.
Proof. destruct s; [discriminate | congruence]. Qed.

Lemma heads_key (k r : string) :
  k <> EmptyString -> all_chars is_key_char k = true ->
  heads (Grp (Rep is_key_char 1 None)) (k ++ String "=" r) (MRes k [k] (String "=" r)).
Proof.
  intros Hk Hc.
  apply (heads_grp _ _ (MRes k [] (String "=" r))).
  apply heads_rep_unbounded; [exact Hc | reflexivity | apply length_pos; exact Hk].
Qed.

(** The pattern on [key=text] followed by the end of the line or by white
    space, for an unquoted text. *)
Lemma kv_pattern_plain (k text r : string) :
  k <> EmptyString -> all_chars is_key_char k = true ->
  is_plain text = true -> stops is_value_char r ->
  match_ kv_pattern ((k ++ String "=" text) ++ r)
  = Some (MRes (k ++ String "=" text) [k; text] r).
Proof.
  intros Hk Hc Ht Hr. apply heads_match.
  rewrite append_assoc. simpl append.
  unfold kv_pattern.
  apply (heads_cat _ _ _ (MRes k [k] (String "=" (text ++ r)))
                   (MRes (String "=" text) [text] r)).
  - apply heads_key; assumption.
  - simpl rest.
    apply (heads_cat _ _ _ (MRes (String "=" EmptyString) [] (text ++ r)) (MRes text [text] r)).
    + apply heads_lit.
    + simpl rest. apply (heads_grp _ _ (MRes text [] r)). apply heads_alt_l.
      apply heads_rep_unbounded;
        [apply is_plain_all; exact Ht | exact Hr
        | apply length_pos, is_plain_nonempty; exact Ht].
Qed.

(** The same for a quoted text without quote characters inside. *)
Lemma kv_pattern_quoted (k s r : string) :
  k <> EmptyString -> all_chars is_key_char k = true ->
  all_chars not_quote s = true ->
  let text := (String quote s ++ String quote EmptyString)%string in
  match_ kv_pattern ((k ++ String "=" text) ++ r)
  = Some (MRes (k ++ String "=" text) [k; text] r).
Proof.
  intros Hk Hc Hs text. apply heads_match.
  rewrite append_assoc. simpl append. unfold text. simpl append.
  rewrite append_assoc. simpl append.
  unfold kv_pattern.
  apply (heads_cat _ _ _ (MRes k [k] (String "=" (String quote (s ++ String quote r))))
                   (MRes (String "=" (String quote (s ++ String quote EmptyString)))
                         [String quote (s ++ String quote EmptyString)] r)).
  - apply heads_key; assumption.
  - simpl rest.
    apply (heads_cat _ _ _ (MRes (String "=" EmptyString) [] (String quote (s ++ String quote r)))
                     (MRes (String quote (s ++ String quote EmptyString))
                           [String quote (s ++ String quote EmptyString)] r)).
    + apply heads_lit.
    + simpl rest.
      apply (heads_grp _ _ (MRes (String quote (s ++ String quote EmptyString)) [] r)).
      apply heads_alt_r; [apply rep_none; reflexivity|].
      apply (heads_cat _ _ _ (MRes (String quote EmptyString) [] (s ++ String quote r))
                       (MRes (s ++ String quote EmptyString) [] r)).
      * apply heads_lit.
      * simpl rest.
        apply (heads_cat _ _ _ (MRes s [] (String quote r))
                         (MRes (String quote EmptyString) [] r)).
        -- apply heads_rep_unbounded; [exact Hs | reflexivity | lia].
        -- apply heads_lit.
Qed.

Lemma findall_at_match_nonempty (r : regex) (p s : string) (gs : list string) :
  p <> EmptyString ->
  match_ r (p ++ s) = Some (MRes p gs s) ->
  findall r (p ++ s) = gs :: findall r s.
Proof. destruct p as [|c p]; [congruence|]. intros _. apply findall_at_match. Qed.

Lemma kv_pattern_not_at_blank (s : string) :
  findall kv_pattern (String " " s) = findall kv_pattern s.
Proof. apply findall_no_match. reflexivity. Qed.

Lemma all_chars_append (p : ascii -> bool) (a b : string) :
  all_chars p (a ++ b) = all_chars p a && all_chars p b.
Proof. induction a; simpl; [reflexivity|]. rewrite IHa, andb_assoc. reflexivity. Qed.




Lemma plain_unquote (s : string) : is_plain s = true -> unquote s = s.
Proof.
  destruct s as [|c s]; [discriminate|]. simpl. intros H.
  apply andb_true_iff in H. destruct H as [H _]. unfold is_value_char in H.
  apply andb_true_iff in H. destruct H as [H _].
  unfold unquote. simpl.
  destruct (Ascii.eqb c quote); [discriminate | reflexivity].
Qed.


End KvFacts.







(** ** The order of group keys *)

Module KeyOrder.

Lemma code_inj (x y : ascii) : PyStr.code x = PyStr.code y -> x = y.
Proof.
  unfold PyStr.code. intros H.
  rewrite <- (ascii_nat_embedding x), <- (ascii_nat_embedding y), H. reflexivity.
Qed.

Lemma str_ltb_irrefl (a : string) : PyStr.ltb a a = false.
Proof. induction a as [|c a IH]; simpl; [reflexivity|]. rewrite Nat.ltb_irrefl. exact IH. Qed.

Lemma str_ltb_trans (a b c : string) :
  PyStr.ltb a b = true -> PyStr.ltb b c = true -> PyStr.ltb a c = true.
Proof.
  revert b c. induction a as [|x a IH]; intros [|y b] [|z c]; simpl; try congruence.
  destruct (PyStr.code x <? PyStr.code y)%nat eqn:Exy;
    destruct (PyStr.code y <? PyStr.code x)%nat eqn:Eyx;
    destruct (PyStr.code y <? PyStr.code z)%nat eqn:Eyz;
    destruct (PyStr.code z <? PyStr.code y)%nat eqn:Ezy;
    destruct (PyStr.code x <? PyStr.code z)%nat eqn:Exz;
    destruct (PyStr.code z <? PyStr.code x)%nat eqn:Ezx;
    try congruence;
    repeat match goal with
           | H : (_ <? _)%nat = true |- _ => apply Nat.ltb_lt in H
           | H : (_ <? _)%nat = false |- _ => apply Nat.ltb_ge in H
           end; try lia.
  apply IH.
Qed.

Lemma str_ltb_total (a b : string) :
  PyStr.ltb a b = false -> PyStr.ltb b a = false -> a = b.
Proof.
  revert b. induction a as [|x a IH]; intros [|y b]; simpl; try congruence.
  destruct (PyStr.code x <? PyStr.code y)%nat eqn:Exy; [congruence|].
  destruct (PyStr.code y <? PyStr.code x)%nat eqn:Eyx; [congruence|].
  intros H1 H2. apply Nat.ltb_ge in Exy, Eyx.
  rewrite (code_inj x y) by lia. f_equal. apply IH; assumption.
Qed.

Lemma lex_ltb_irrefl (a : list Z) : lex_ltb a a = false.
Proof. induction a as [|x a IH]; simpl; [reflexivity|]. rewrite Z.ltb_irrefl. exact IH. Qed.

Lemma lex_ltb_trans (a b c : list Z) :
  lex_ltb a b = true -> lex_ltb b c = true -> lex_ltb a c = true.
Proof.
  revert b c. induction a as [|x a IH]; intros [|y b] [|z c]; simpl; try congruence.
  destruct (x <? y)%Z eqn:Exy; destruct (y <? x)%Z eqn:Eyx;
    destruct (y <? z)%Z eqn:Eyz; destruct (z <? y)%Z eqn:Ezy;
    destruct (x <? z)%Z eqn:Exz; destruct (z <? x)%Z eqn:Ezx;
    try congruence;
    repeat match goal with
           | H : (_ <? _)%Z = true |- _ => apply Z.ltb_lt in H
           | H : (_ <? _)%Z = false |- _ => apply Z.ltb_ge in H
           end; try lia.
  apply IH.
Qed.

Lemma lex_ltb_total (a b : list Z) :
  lex_ltb a b = false -> lex_ltb b a = false -> a = b.
Proof.
  revert b. induction a as [|x a IH]; intros [|y b]; simpl; try congruence.
  destruct (x <? y)%Z eqn:Exy; [congruence|].
  destruct (y <? x)%Z eqn:Eyx; [congruence|].
  intros H1 H2. apply Z.ltb_ge in Exy, Eyx.
  assert (x = y) by lia. subst. f_equal. apply IH; assumption.
Qed.

Lemma datetime_fields_inj (a b : PyTime.datetime) :
  datetime_fields a = datetime_fields b -> a = b.
Proof. destruct a, b. unfold datetime_fields. simpl. intros H. inversion H. reflexivity. Qed.

Lemma value_ltb_irrefl (a : value) : value_ltb a a = false.
Proof.
  destruct a; simpl.
  - apply str_ltb_irrefl.
  - apply Z.ltb_irrefl.
  - apply lex_ltb_irrefl.
  - reflexivity.
Qed.

Lemma value_ltb_trans (a b c : value) :
  value_ltb a b = true -> value_ltb b c = true -> value_ltb a c = true.
Proof.
  destruct a, b, c; cbv [value_ltb kind Nat.ltb Nat.leb]; try discriminate;
    try (intros; reflexivity).
  - apply str_ltb_trans.
  - intros H1 H2. apply Z.ltb_lt in H1, H2. apply Z.ltb_lt. lia.
  - apply lex_ltb_trans.
Qed.

Lemma value_ltb_total (a b : value) :
  value_ltb a b = false -> value_ltb b a = false -> a = b.
Proof.
  destruct a, b; cbv [value_ltb kind Nat.ltb Nat.leb]; try discriminate; try reflexivity.
  - intros H1 H2. f_equal. apply str_ltb_total; assumption.
  - intros H1 H2. apply Z.ltb_ge in H1, H2. f_equal. lia.
  - unfold datetime_ltb. intros H1 H2. f_equal. apply datetime_fields_inj.
    apply lex_ltb_total; assumption.
Qed.

Lemma datetime_eqb_eq (a b : PyTime.datetime) : PyTime.datetime_eqb a b = true <-> a = b.
Proof.
  destruct a, b. unfold PyTime.datetime_eqb. simpl.
  rewrite !andb_true_iff, !Z.eqb_eq. split.
  - intros [[[[[? ?] ?] ?] ?] ?]. subst. reflexivity.
  - intros H. inversion H. tauto.
Qed.

Lemma value_eqb_eq (a b : value) : value_eqb a b = true <-> a = b.
Proof.
  destruct a, b; simpl; try (split; congruence).
  - rewrite String.eqb_eq. split; congruence.
  - rewrite Z.eqb_eq. split; congruence.
  - rewrite datetime_eqb_eq. split; congruence.
Qed.

Lemma value_eqb_refl (a : value) : value_eqb a a = true.
Proof. apply value_eqb_eq. reflexivity. Qed.

End KeyOrder.

(** ** Grouping *)

Module GroupFacts.
Import KeyOrder.

Lemma insert_key_in (x k : value) (ks : list value) :
  In x (insert_key k ks) <-> x = k \/ In x ks.
Proof.
  induction ks as [|k' ks IH]; simpl.
  - intuition.
  - destruct (value_ltb k k') eqn:Elt; simpl; [intuition|].
    destruct (value_eqb k k') eqn:Eeq; simpl.
    + apply value_eqb_eq in Eeq. subst k'. intuition.
    + rewrite IH. intuition.
Qed.

Lemma insert_key_sorted (k : value) (ks : list value) :
  StronglySorted key_lt ks -> StronglySorted key_lt (insert_key k ks).
Proof.
  induction ks as [|k' ks IH]; simpl; intros Hs.
  - constructor; constructor.
  - inversion Hs as [|? ? Hs' Hall]; subst.
    destruct (value_ltb k k') eqn:Elt.
    + constructor; [exact Hs|]. constructor; [exact Elt|].
      eapply Forall_impl; [|exact Hall]. intros a Ha. eapply value_ltb_trans; eauto.
    + destruct (value_eqb k k') eqn:Eeq; [exact Hs|].
      assert (Hgt : value_ltb k' k = true).
      { destruct (value_ltb k' k) eqn:E; [reflexivity|].
        rewrite (value_ltb_total _ _ Elt E), value_eqb_refl in Eeq. discriminate. }
      constructor; [apply IH; exact Hs'|].
      apply Forall_forall. intros x Hx. apply insert_key_in in Hx.
      destruct Hx as [Hx|Hx]; [subst; exact Hgt|].
      rewrite Forall_forall in Hall. apply Hall. exact Hx.
Qed.

Lemma group_keys_sorted (keys : list (option value)) :
  StronglySorted key_lt (group_keys keys).
Proof.
  induction keys as [|[k|] keys IH]; simpl.
  - constructor.
  - apply insert_key_sorted. exact IH.
  - exact IH.
Qed.

Lemma group_keys_in (k : value) (keys : list (option value)) :
  In k (group_keys keys) <-> In (Some k) keys.
Proof.
  induction keys as [|[k'|] keys IH]; simpl.
  - tauto.
  - rewrite insert_key_in, IH. split; intros [H|H]; auto; left; congruence.
  - rewrite IH. split; [auto|]. intros [H|H]; [discriminate | exact H].
Qed.

(** Two strictly ascending lists with the same elements are equal. *)
Lemma sorted_unique (l1 l2 : list value) :
  StronglySorted key_lt l1 -> StronglySorted key_lt l2 ->
  (forall x, In x l1 <-> In x l2) -> l1 = l2.
Proof.
  revert l2. induction l1 as [|a l1 IH]; intros [|b l2] H1 H2 Hin.
  - reflexivity.
  - destruct (proj2 (Hin b) (or_introl eq_refl)).
  - destruct (proj1 (Hin a) (or_introl eq_refl)).
  - inversion H1 as [|? ? H1' Ha]; inversion H2 as [|? ? H2' Hb]; subst.
    rewrite Forall_forall in Ha, Hb.
    assert (Hab : a = b).
    { destruct (proj1 (Hin a) (or_introl eq_refl)) as [E|E]; [congruence|].
      destruct (proj2 (Hin b) (or_introl eq_refl)) as [E'|E']; [congruence|].
      pose proof (value_ltb_trans _ _ _ (Ha _ E') (Hb _ E)) as C.
      rewrite value_ltb_irrefl in C. discriminate. }
    subst b. f_equal. apply IH; auto.
    intros x. split; intros Hx.
    + destruct (proj1 (Hin x) (or_intror Hx)) as [E|E]; [|exact E].
      subst x. pose proof (Ha _ Hx) as C. unfold key_lt in C.
      rewrite value_ltb_irrefl in C. discriminate.
    + destruct (proj2 (Hin x) (or_intror Hx)) as [E|E]; [|exact E].
      subst x. pose proof (Hb _ Hx) as C. unfold key_lt in C.
      rewrite value_ltb_irrefl in C. discriminate.
Qed.

Lemma group_keys_perm (keys keys' : list (option value)) :
  Permutation keys keys' -> group_keys keys = group_keys keys'.
Proof.
  intros Hp. apply sorted_unique; try apply group_keys_sorted.
  intros x. rewrite !group_keys_in. split; apply Permutation_in; [|symmetry]; exact Hp.
Qed.

Lemma filter_length_perm {A : Type} (f : A -> bool) (l l' : list A) :
  Permutation l l' -> List.length (filter f l) = List.length (filter f l').
Proof.
  intros Hp. apply Permutation_length.
  induction Hp; simpl.
  - constructor.
  - destruct (f x); [constructor|]; assumption.
  - destruct (f x), (f y); try constructor; apply Permutation_refl.
  - eapply Permutation_trans; eauto.
Qed.






(** [groupby(key).size()] does not depend on the order of the rows. *)
Lemma groupby_size_perm (keys keys' : list (option value)) :
  Permutation keys keys' -> groupby_size keys = groupby_size keys'.
Proof.
  intros Hp. unfold groupby_size. rewrite (group_keys_perm _ _ Hp).
  apply map_ext. intros k. rewrite (filter_length_perm _ _ _ Hp). reflexivity.
Qed.


End GroupFacts.

(** ** Sorting a series *)

Module SortFacts.

Lemma in_firstn {A : Type} (x : A) (n : nat) (l : list A) :
  In x (firstn n l) -> In x l.
Proof.
  revert l. induction n as [|n IH]; intros [|a l]; simpl; try tauto.
  intros [H|H]; auto.
Qed.

Lemma sorted_firstn {A : Type} (R : A -> A -> Prop) (n : nat) (l : list A) :
  StronglySorted R l -> StronglySorted R (firstn n l).
Proof.
  revert l. induction n as [|n IH]; intros l Hs; simpl; [constructor|].
  destruct l as [|a l]; [constructor|].
  inversion Hs as [|? ? Hs' Hall]; subst. constructor; [apply IH; exact Hs'|].
  apply Forall_forall. intros x Hx. rewrite Forall_forall in Hall.
  apply Hall. eapply in_firstn; eauto.
Qed.

End SortFacts.


(** ** The entries of the [stats] dict *)

Section StatsEntries.

Context {S : SortValues}.

Lemma process_traffic_data_inv (df df' : DataFrame) (stats : stats_dict) :
  process_traffic_data df = Some (stats, df') ->
  exists bytes src dst proto timed ports,
    bytes_column df = Some bytes /\
    ip_stats "src_ip" "unique_sources" "top_sources" "top_sources_by_traffic" df bytes = Some src /\
    ip_stats "dst_ip" "unique_destinations" "top_destinations" "top_destinations_by_traffic"
             df bytes = Some dst /\
    protocol_stats df = Some proto /\
    time_stats df bytes = Some (timed, df') /\
    port_stats df' bytes = Some ports /\
    stats = [("total_records", SInt (Z.of_nat (nrows df)))]
              ++ basic_stats bytes ++ src ++ dst ++ proto ++ timed ++ ports.
Proof.
  unfold process_traffic_data, option_bind.
  destruct (bytes_column df) as [bytes|] eqn:E1; [|discriminate].
  destruct (ip_stats "src_ip" _ _ _ df bytes) as [src|] eqn:E2; [|discriminate].
  destruct (ip_stats "dst_ip" _ _ _ df bytes) as [dst|] eqn:E3; [|discriminate].
  destruct (protocol_stats df) as [proto|] eqn:E4; [|discriminate].
  destruct (time_stats df bytes) as [[timed df1]|] eqn:E5; [|discriminate].
  simpl snd. simpl fst.
  destruct (port_stats df1 bytes) as [ports|] eqn:E6; [|discriminate].
  intros H. inversion H; subst.
  exists bytes, src, dst, proto, timed, ports. repeat split; auto.
Qed.

Lemma basic_stats_no_series (bytes : option (list (option Z))) (name : string)
    (s : list (value * Z)) :
  ~ In (name, SSeries s) (basic_stats bytes).
Proof.
  destruct bytes; simpl; [|tauto].
  intros [H|[H|[H|[H|[]]]]]; discriminate.
Qed.

Lemma ip_stats_series (col unique top top_traffic : string) (df : DataFrame)
    (bytes : option (list (option Z))) (l : stats_dict) (name : string) (s : list (value * Z)) :
  ip_stats col unique top top_traffic df bytes = Some l ->
  In (name, SSeries s) l ->
  (name = top \/ name = top_traffic) /\ is_top_n s.
Proof.
  unfold ip_stats, option_bind.
  destruct (column col df); [|intros H; inversion H; subst; intros []].
  destruct (key_cells l0) as [keys|]; [|discriminate].
  intros H; inversion H; subst; clear H.
  destruct bytes; simpl; intros [H|[H|H]]; try discriminate; try (destruct H; fail).
  - inversion H; subst. split; [auto|]. left. eexists; reflexivity.
  - destruct H as [H|[]]. inversion H; subst. split; [auto|]. right. do 2 eexists; reflexivity.
  - inversion H; subst. split; [auto|]. left. eexists; reflexivity.
Qed.

Lemma protocol_stats_names (df : DataFrame) (l : stats_dict) (name : string) (st : stat) :
  protocol_stats df = Some l -> In (name, st) l -> name = "protocol_distribution".
Proof.
  unfold protocol_stats, option_bind.
  destruct (column "protocol" df); [|intros H; inversion H; subst; intros []].
  destruct (key_cells l0); [|discriminate].
  intros H; inversion H; subst. intros [E|[]]. inversion E. reflexivity.
Qed.

Lemma port_stats_series (df : DataFrame) (bytes : option (list (option Z)))
    (l : stats_dict) (name : string) (s : list (value * Z)) :
  port_stats df bytes = Some l ->
  In (name, SSeries s) l ->
  (name = "top_destination_ports" \/ name = "top_ports_by_traffic") /\ is_top_n s.
Proof.
  unfold port_stats, option_bind.
  destruct (column "dst_port" df); [|intros H; inversion H; subst; intros []].
  destruct (key_cells l0) as [keys|]; [|discriminate].
  intros H; inversion H; subst; clear H.
  destruct bytes; simpl; intros [H|H]; try (destruct H as [H|[]]); try (destruct H; fail).
  - inversion H; subst. split; [auto|]. left. eexists; reflexivity.
  - inversion H; subst. split; [auto|]. right. do 2 eexists; reflexivity.
  - inversion H; subst. split; [auto|]. left. eexists; reflexivity.
Qed.

Lemma time_stats_inv (df df' : DataFrame) (bytes : option (list (option Z)))
    (l : stats_dict) :
  time_stats df bytes = Some (l, df') ->
  (column "timestamp" df = None /\ l = [] /\ df' = df) \/
  (exists cells ts,
      column "timestamp" df = Some cells /\ time_cells cells = Some ts /\
      df' = set_column "day_of_week" (map day_cell ts)
              (set_column "hour" (map hour_cell ts) df) /\
      forall name s, In (name, SSeries s) l ->
        (name = "traffic_by_hour" /\ exists b, s = groupby_sum (hour_keys ts) b) \/
        (name = "connections_by_hour" /\ s = groupby_size (hour_keys ts)) \/
        (name = "traffic_by_day" /\ exists b, s = groupby_sum (day_keys ts) b) \/
        (name = "connections_by_day" /\ s = groupby_size (day_keys ts))).
Proof.
  unfold time_stats, option_bind.
  destruct (column "timestamp" df) as [cells|]; [|intros H; inversion H; auto].
  destruct (time_cells cells) as [ts|] eqn:Ets; [|discriminate].
  intros H; inversion H; subst; clear H. right.
  exists cells, ts. split; [reflexivity|]. split; [exact Ets|]. split; [reflexivity|].
  intros name s. fold (hour_keys ts). fold (day_keys ts).
  destruct bytes as [b|]; simpl; intros Hin.
  - destruct Hin as [E|[E|[E|[E|[E|[]]]]]]; inversion E; subst; eauto 10.
  - destruct Hin as [E|[E|[E|[]]]]; inversion E; subst; eauto 10.
Qed.


End StatsEntries.

(** ** Top-N statistics *)

Section TopN.

Context {S : SortValues}.


Lemma top_by_size_perm (keys keys' : list (option value)) :
  Permutation keys keys' -> top_by_size keys' = top_by_size keys.
Proof.
  intros Hp. unfold top_by_size. rewrite (GroupFacts.groupby_size_perm _ _ Hp). reflexivity.
Qed.



(** Whatever the sort does with equal values, the two orders of two
    sources seen once each give the same statistic, so one of them is not
    in the order of first encounter. *)
Lemma ties_cannot_follow_encounter_order :
  let a := Some (VStr "10.0.0.1") in
  let b := Some (VStr "10.0.0.2") in
  ~ (ties_in_encounter_order [a; b] (top_by_size [a; b]) = true /\
     ties_in_encounter_order [b; a] (top_by_size [b; a]) = true).
Proof.
  cbv zeta. intros [H1 H2].
  rewrite (top_by_size_perm [Some (VStr "10.0.0.1"); Some (VStr "10.0.0.2")]
                            [Some (VStr "10.0.0.2"); Some (VStr "10.0.0.1")]) in H2
    by apply perm_swap.
  unfold top_by_size in H1, H2.
  assert (Hg : groupby_size [Some (VStr "10.0.0.1"); Some (VStr "10.0.0.2")]
               = [(VStr "10.0.0.1", 1%Z); (VStr "10.0.0.2", 1%Z)]) by (vm_compute; reflexivity).
  rewrite Hg in H1, H2.
  pose proof (sort_values_perm [(VStr "10.0.0.1", 1%Z); (VStr "10.0.0.2", 1%Z)]) as Hperm.
  apply Permutation_length_2_inv in Hperm.
  destruct Hperm as [E|E]; rewrite E in H1, H2; vm_compute in H1, H2; discriminate.
Qed.

End TopN.



(** ** Day-of-week statistics *)

Section DayOfWeek.

Context {S : SortValues}.






End DayOfWeek.



(** ** The frame after [process_traffic_data] *)

Section FrameEffect.

Context {S : SortValues}.

(** With a [timestamp] column, the frame the caller passed in comes back
    with the columns [hour] and [day_of_week]. *)
Lemma process_traffic_data_sets_time_columns (df df' : DataFrame) (stats : stats_dict) :
  has_column "timestamp" df = true ->
  process_traffic_data df = Some (stats, df') ->
  has_column "hour" df' = true /\ has_column "day_of_week" df' = true.
Proof.
  intros Hts Hp.
  destruct (process_traffic_data_inv _ _ _ Hp)
    as (bytes & src & dst & proto & timed & ports & _ & _ & _ & _ & Ht & _ & _).
  destruct (time_stats_inv _ _ _ _ Ht) as [(Hc & _ & _)|(cells & ts & _ & _ & E & _)].
  - destruct (has_column_column_some _ _ Hts) as [cells Hc']. congruence.
  - subst df'. rewrite !has_column_set_column. simpl.
    rewrite !orb_true_r. split; reflexivity.
Qed.

(** Without one, the frame is left as it was. *)
Lemma process_traffic_data_without_timestamp (df df' : DataFrame) (stats : stats_dict) :
  has_column "timestamp" df = false ->
  process_traffic_data df = Some (stats, df') ->
  df' = df.
Proof.
  intros Hts Hp.
  destruct (process_traffic_data_inv _ _ _ Hp)
    as (bytes & src & dst & proto & timed & ports & _ & _ & _ & _ & Ht & _ & _).
  destruct (time_stats_inv _ _ _ _ Ht) as [(_ & _ & E)|(cells & ts & Hc & _)]; [exact E|].
  rewrite (column_some_has_column _ _ _ Hc) in Hts. discriminate.
Qed.

End FrameEffect.

(** C5 (the code at the failing input): for the frame read from a table
    with the columns timestamp, src_ip and bytes, computing the
    statistics leaves the caller's frame with two more columns, [hour]
    and [day_of_week]. *)
Theorem process_traffic_data_adds_columns_to_its_argument :
  exists df stats df',
    fst (parse_mikrotik_logs csv_sample_text) = Some df /\
    process_traffic_data df = Some (stats, df') /\
    colnames df = ["timestamp"; "src_ip"; "bytes"] /\
    colnames df' = ["timestamp"; "src_ip"; "bytes"; "hour"; "day_of_week"] /\
    column "hour" df' = Some [VNum 8; VNum 9] /\
    column "day_of_week" df' = Some [VStr "Thursday"; VStr "Thursday"].
Proof.
  eexists. eexists. eexists.
  split; [vm_compute; reflexivity|].
  split; [vm_compute; reflexivity|].
  vm_compute. repeat split; reflexivity.
Qed.

(** ** Resampling *)

Module ResampleFacts.

Open Scope Z_scope.









Lemma sum_add (A : Type) (g h : A -> Z) (l : list A) :
  series_total (map (fun c => g c + h c) l) = series_total (map g l) + series_total (map h l).
Proof. induction l as [|a l IH]; simpl; [reflexivity|]. unfold series_total in *. simpl. lia. Qed.

Lemma sum_zero (A : Type) (l : list A) : series_total (map (fun _ => 0) l) = 0.
Proof. induction l as [|a l IH]; simpl; [reflexivity|]. exact IH. Qed.

Lemma sum_indicator (a v : Z) (l : list Z) :
  NoDup l -> In a l ->
  series_total (map (fun c => if a =? c then v else 0) l) = v.
Proof.
  induction l as [|c l IH]; intros Hnd Hin; [destruct Hin|].
  inversion Hnd as [|? ? Hnot Hnd']; subst.
  unfold series_total in *. simpl.
  destruct Hin as [E|Hin].
  - subst c. rewrite Z.eqb_refl.
    assert (E : map (fun c => if a =? c then v else 0) l = map (fun _ => 0) l).
    { apply map_ext_in. intros x Hx. destruct (Z.eqb_spec a x); [subst; contradiction | reflexivity]. }
    rewrite E. pose proof (sum_zero Z l) as Z0. unfold series_total in Z0. rewrite Z0. lia.
  - destruct (Z.eqb_spec a c); [subst; contradiction|]. rewrite (IH Hnd' Hin). lia.
Qed.



Lemma filter_all_true {A : Type} (f : A -> bool) (l : list A) :
  Forall (fun x => f x = true) l -> filter f l = l.
Proof.
  induction l as [|a l IH]; intros H; [reflexivity|].
  inversion H; subst. simpl. rewrite H2, IH; auto.
Qed.


End ResampleFacts.

Section Resampling.

Import ResampleFacts.
Open Scope Z_scope.

(** The total [process_traffic_data] stores as [total_bytes]. *)
Lemma total_bytes_stat {S : SortValues} (df df' : DataFrame) (stats : stats_dict)
    (bcells : list value) (b : list (option Z)) :
  process_traffic_data df = Some (stats, df') ->
  column "bytes" df = Some bcells -> num_cells bcells = Some b ->
  In ("total_bytes", SInt (sum_present b)) stats.
Proof.
  intros Hp Hc Hn.
  destruct (process_traffic_data_inv _ _ _ Hp)
    as (bytes & src & dst & proto & timed & ports & Hb & _ & _ & _ & _ & _ & Hs).
  unfold bytes_column in Hb. rewrite Hc, Hn in Hb. inversion Hb; subst.
  simpl. auto.
Qed.



End Resampling.



(* ===================================================================== *)
(** * Further properties of the code *)
(* ===================================================================== *)

(** ** The parts of the [stats] dict *)

Section StatsParts.

Context {S : SortValues}.

Lemma ip_stats_inv (col unique top top_traffic : string) (df : DataFrame)
    (bytes : option (list (option Z))) (l : stats_dict) :
  ip_stats col unique top top_traffic df bytes = Some l ->
  (column col df = None /\ l = []) \/
  (exists cells keys,
      column col df = Some cells /\ key_cells cells = Some keys /\
      l = (unique, SInt (nunique keys)) :: (top, SSeries (top_by_size keys))
          :: match bytes with
             | Some b => [(top_traffic, SSeries (top_by_sum keys b))]
             | None => []
             end).
Proof.
  unfold ip_stats, option_bind.
  destruct (column col df) as [cells|]; [|intros H; inversion H; auto].
  destruct (key_cells cells) as [keys|] eqn:Ek; [|discriminate].
  intros H; inversion H; subst. right. exists cells, keys. auto.
Qed.

Lemma port_stats_inv (df : DataFrame) (bytes : option (list (option Z))) (l : stats_dict) :
  port_stats df bytes = Some l ->
  (column "dst_port" df = None /\ l = []) \/
  (exists cells keys,
      column "dst_port" df = Some cells /\ key_cells cells = Some keys /\
      l = ("top_destination_ports", SSeries (top_by_size keys))
          :: match bytes with
             | Some b => [("top_ports_by_traffic", SSeries (top_by_sum keys b))]
             | None => []
             end).
Proof.
  unfold port_stats, option_bind.
  destruct (column "dst_port" df) as [cells|]; [|intros H; inversion H; auto].
  destruct (key_cells cells) as [keys|] eqn:Ek; [|discriminate].
  intros H; inversion H; subst. right. exists cells, keys. auto.
Qed.

Lemma time_stats_named (df df' : DataFrame) (bytes : option (list (option Z)))
    (l : stats_dict) (name : string) (st : stat) :
  time_stats df bytes = Some (l, df') -> In (name, st) l ->
  In name ["timespan"; "traffic_by_hour"; "connections_by_hour";
           "traffic_by_day"; "connections_by_day"].
Proof.
  unfold time_stats, option_bind.
  destruct (column "timestamp" df) as [cells|]; [|intros H; inversion H; subst; intros []].
  destruct (time_cells cells) as [ts|]; [|discriminate].
  intros H; inversion H; subst; clear H.
  destruct bytes; simpl; intros Hin;
    repeat (destruct Hin as [Hin|Hin]; [inversion Hin; subst; auto 10|]); destruct Hin.
Qed.

Lemma basic_stats_named (bytes : option (list (option Z))) (name : string) (st : stat) :
  In (name, st) (basic_stats bytes) ->
  In name ["total_bytes"; "total_mb"; "total_gb"; "avg_bytes_per_record"].
Proof.
  destruct bytes; simpl; [|tauto].
  intros Hin; repeat (destruct Hin as [Hin|Hin]; [inversion Hin; subst; auto 10|]); destruct Hin.
Qed.

Lemma assoc_get_set_other {A : Type} (c c' : string) (v : A) (l : list (string * A)) :
  c <> c' -> assoc_get c (assoc_set c' v l) = assoc_get c l.
Proof.
  intros Hne. induction l as [|[k w] l IH]; simpl.
  - destruct (String.eqb_spec c' c); [congruence | reflexivity].
  - destruct (String.eqb_spec k c'); simpl.
    + subst k. destruct (String.eqb_spec c' c); [congruence | reflexivity].
    + destruct (String.eqb k c); [reflexivity | exact IH].
Qed.

Lemma assoc_get_set_same {A : Type} (c : string) (v : A) (l : list (string * A)) :
  assoc_get c (assoc_set c v l) = Some v.
Proof.
  induction l as [|[k w] l IH]; simpl.
  - rewrite String.eqb_refl. reflexivity.
  - destruct (String.eqb_spec k c); simpl.
    + rewrite String.eqb_refl. reflexivity.
    + destruct (String.eqb_spec k c); [contradiction | exact IH].
Qed.

Lemma assoc_set_known {A : Type} (c : string) (v : A) (l : list (string * A)) :
  assoc_get c l = Some v -> assoc_set c v l = l.
Proof.
  induction l as [|[k w] l IH]; simpl; [discriminate|].
  destruct (String.eqb_spec k c).
  - intros H; inversion H; subst. reflexivity.
  - intros H. rewrite (IH H). reflexivity.
Qed.

Lemma column_set_column_other (c c' : string) (cells : list value) (df : DataFrame) :
  c <> c' -> column c (set_column c' cells df) = column c df.
Proof. intros H. unfold column, set_column. simpl. apply assoc_get_set_other. exact H. Qed.

(** The frame [process_traffic_data] leaves behind. *)
Lemma process_traffic_data_frame (df df' : DataFrame) (stats : stats_dict) :
  process_traffic_data df = Some (stats, df') ->
  (column "timestamp" df = None /\ df' = df) \/
  (exists cells ts,
      column "timestamp" df = Some cells /\ time_cells cells = Some ts /\
      df' = set_column "day_of_week" (map day_cell ts)
              (set_column "hour" (map hour_cell ts) df)).
Proof.
  intros Hp.
  destruct (process_traffic_data_inv _ _ _ Hp)
    as (bytes & src & dst & proto & timed & ports & _ & _ & _ & _ & Ht & _ & _).
  destruct (time_stats_inv _ _ _ _ Ht) as [(Hc & _ & E)|(cells & ts & Hc & Hts & E & _)].
  - left. auto.
  - right. exists cells, ts. auto.
Qed.

Lemma process_traffic_data_keeps_column (df df' : DataFrame) (stats : stats_dict) (c : string) :
  process_traffic_data df = Some (stats, df') ->
  c <> "hour" -> c <> "day_of_week" ->
  column c df' = column c df.
Proof.
  intros Hp H1 H2.
  destruct (process_traffic_data_frame _ _ _ Hp) as [[_ E]|(cells & ts & _ & _ & E)]; subst df'.
  - reflexivity.
  - rewrite !column_set_column_other by assumption. reflexivity.
Qed.

(** Where a top-N entry of the [stats] dict comes from. *)
Lemma top_entry_origin (df df' : DataFrame) (stats : stats_dict) (name : string)
    (s : list (value * Z)) :
  process_traffic_data df = Some (stats, df') ->
  In name top_n_names ->
  In (name, SSeries s) stats ->
  exists col cells keys,
    column col df = Some cells /\ key_cells cells = Some keys /\
    ((In (name, col) count_stat_columns /\ s = top_by_size keys) \/
     (In (name, col) traffic_stat_columns /\
      exists bcells b, column "bytes" df = Some bcells /\ num_cells bcells = Some b /\
                       s = top_by_sum keys b)).
Proof.
  intros Hp Hname Hin.
  destruct (process_traffic_data_inv _ _ _ Hp)
    as (bytes & src & dst & proto & timed & ports & Hb & Hsrc & Hdst & Hproto & Ht & Hports & Hs).
  assert (Hbytes : forall b, bytes = Some b ->
            exists bcells, column "bytes" df = Some bcells /\ num_cells bcells = Some b).
  { intros b E. subst bytes. unfold bytes_column in Hb.
    destruct (column "bytes" df) as [bcells|]; [|discriminate].
    destruct (num_cells bcells) as [b'|] eqn:En; [|discriminate].
    inversion Hb; subst. eauto. }
  subst stats.
  apply in_app_or in Hin. destruct Hin as [Hin|Hin].
  { destruct Hin as [E|[]]. discriminate. }
  apply in_app_or in Hin. destruct Hin as [Hin|Hin].
  { exfalso. eapply basic_stats_no_series; eauto. }
  apply in_app_or in Hin. destruct Hin as [Hin|Hin].
  { destruct (ip_stats_inv _ _ _ _ _ _ _ Hsrc) as [[_ E]|(cells & keys & Hc & Hk & E)];
      subst src; [destruct Hin|].
    exists "src_ip", cells, keys. split; [exact Hc|]. split; [exact Hk|].
    destruct Hin as [E|[E|Hin]]; [discriminate | inversion E; subst; left; simpl; auto |].
    destruct bytes as [b|]; [|destruct Hin]. destruct Hin as [E|[]]. inversion E; subst.
    right. split; [simpl; auto|]. destruct (Hbytes b eq_refl) as [bcells [H1 H2]]. eauto. }
  apply in_app_or in Hin. destruct Hin as [Hin|Hin].
  { destruct (ip_stats_inv _ _ _ _ _ _ _ Hdst) as [[_ E]|(cells & keys & Hc & Hk & E)];
      subst dst; [destruct Hin|].
    exists "dst_ip", cells, keys. split; [exact Hc|]. split; [exact Hk|].
    destruct Hin as [E|[E|Hin]]; [discriminate | inversion E; subst; left; simpl; auto |].
    destruct bytes as [b|]; [|destruct Hin]. destruct Hin as [E|[]]. inversion E; subst.
    right. split; [simpl; auto|]. destruct (Hbytes b eq_refl) as [bcells [H1 H2]]. eauto. }
  apply in_app_or in Hin. destruct Hin as [Hin|Hin].
  { exfalso. rewrite (protocol_stats_names _ _ _ _ Hproto Hin) in Hname.
    simpl in Hname. intuition discriminate. }
  apply in_app_or in Hin. destruct Hin as [Hin|Hin].
  { exfalso. pose proof (time_stats_named _ _ _ _ _ _ Ht Hin) as Hn.
    simpl in Hn, Hname.
    destruct Hn as [E|[E|[E|[E|[E|[]]]]]]; subst name; intuition discriminate. }
  destruct (port_stats_inv _ _ _ Hports) as [[_ E]|(cells & keys & Hc & Hk & E)];
    subst ports; [destruct Hin|].
  rewrite (process_traffic_data_keeps_column _ _ _ "dst_port" Hp) in Hc by discriminate.
  exists "dst_port", cells, keys. split; [exact Hc|]. split; [exact Hk|].
  destruct Hin as [E|Hin]; [inversion E; subst; left; simpl; auto|].
  destruct bytes as [b|]; [|destruct Hin]. destruct Hin as [E|[]]. inversion E; subst.
  right. split; [simpl; auto|]. destruct (Hbytes b eq_refl) as [bcells [H1 H2]]. eauto.
Qed.

End StatsParts.

(** ** What a top-N list holds *)

Module TopFacts.

Lemma sorted_app_order {A : Type} (R : A -> A -> Prop) (l1 l2 : list A) :
  StronglySorted R (l1 ++ l2) -> forall x y, In x l1 -> In y l2 -> R x y.
Proof.
  induction l1 as [|a l1 IH]; simpl; intros Hs x y Hx Hy; [destruct Hx|].
  inversion Hs as [|? ? Hs' Hall]; subst.
  destruct Hx as [E|Hx]; [subst|eapply IH; eauto].
  rewrite Forall_forall in Hall. apply Hall. apply in_or_app. auto.
Qed.

Lemma groupby_size_in (k : value) (m : Z) (keys : list (option value)) :
  In (k, m) (groupby_size keys) <-> In (Some k) keys /\ m = group_count k keys.
Proof.
  unfold groupby_size, group_count. rewrite in_map_iff. split.
  - intros [k' [E Hin]]. inversion E; subst. split; [|reflexivity].
    apply GroupFacts.group_keys_in. exact Hin.
  - intros [Hin E]. exists k. subst m. split; [reflexivity|].
    apply GroupFacts.group_keys_in. exact Hin.
Qed.

Lemma groupby_sum_in (k : value) (m : Z) (keys : list (option value)) (vals : list (option Z)) :
  In (k, m) (groupby_sum keys vals) <-> In (Some k) keys /\ m = group_total k keys vals.
Proof.
  unfold groupby_sum, group_total. rewrite in_map_iff. split.
  - intros [k' [E Hin]]. inversion E; subst. split; [|reflexivity].
    apply GroupFacts.group_keys_in. exact Hin.
  - intros [Hin E]. exists k. subst m. split; [reflexivity|].
    apply GroupFacts.group_keys_in. exact Hin.
Qed.

Lemma sorted_nodup (l : list value) : StronglySorted key_lt l -> NoDup l.
Proof.
  induction l as [|a l IH]; intros Hs; [constructor|].
  inversion Hs as [|? ? Hs' Hall]; subst. constructor; [|apply IH; exact Hs'].
  intros Hin. rewrite Forall_forall in Hall. specialize (Hall _ Hin).
  unfold key_lt in Hall. rewrite KeyOrder.value_ltb_irrefl in Hall. discriminate.
Qed.

Lemma group_keys_nodup (keys : list (option value)) : NoDup (group_keys keys).
Proof. apply sorted_nodup, GroupFacts.group_keys_sorted. Qed.

End TopFacts.

Section TopContents.

Context {S : SortValues}.

(** The first [n] entries of a table sorted by descending value are its
    largest entries. *)
Lemma head_of_sorted_lists_largest (n : nat) (g : list (value * Z)) :
  lists_largest (head n (sort_values_desc g)) g.
Proof.
  unfold lists_largest, head.
  pose proof (sort_values_perm g) as Hperm.
  pose proof (sort_values_sorted g) as Hsorted.
  rewrite <- (firstn_skipn n (sort_values_desc g)) in Hsorted.
  split.
  - intros e He. apply (Permutation_in _ (Permutation_sym Hperm)).
    eapply SortFacts.in_firstn; eauto.
  - intros e He. apply (Permutation_in _ Hperm) in He.
    rewrite <- (firstn_skipn n (sort_values_desc g)) in He.
    apply in_app_or in He. destruct He as [He|He]; [left; exact He|].
    right. intros e' He'.
    apply (TopFacts.sorted_app_order _ _ _ Hsorted e' e He' He).
Qed.

Lemma head_of_sorted_length (n : nat) (g : list (value * Z)) :
  List.length (head n (sort_values_desc g)) = Nat.min n (List.length g).
Proof.
  unfold head. rewrite length_firstn.
  rewrite <- (Permutation_length (sort_values_perm g)). reflexivity.
Qed.

(** X1: Every top-N entry of [process_traffic_data] lists groups of its
    column with their true metric (the number of rows of the key, or the
    sum of their bytes), and a key of the column that is left out has a
    metric no greater than any listed one. *)
Theorem top_n_statistics_list_the_largest_groups
    (df df' : DataFrame) (stats : stats_dict) (name : string) (s : list (value * Z)) :
  process_traffic_data df = Some (stats, df') ->
  In name top_n_names ->
  In (name, SSeries s) stats ->
  exists col cells keys,
    column col df = Some cells /\ key_cells cells = Some keys /\
    ((In (name, col) count_stat_columns /\
      (forall k m, In (k, m) s -> In (Some k) keys /\ m = group_count k keys) /\
      (forall k, In (Some k) keys ->
                 In (k, group_count k keys) s \/
                 forall e, In e s -> (group_count k keys <= snd e)%Z)) \/
     (In (name, col) traffic_stat_columns /\
      exists bcells b,
        column "bytes" df = Some bcells /\ num_cells bcells = Some b /\
        (forall k m, In (k, m) s -> In (Some k) keys /\ m = group_total k keys b) /\
        (forall k, In (Some k) keys ->
                   In (k, group_total k keys b) s \/
                   forall e, In e s -> (group_total k keys b <= snd e)%Z))).
Proof.
  intros Hp Hname Hin.
  destruct (top_entry_origin _ _ _ _ _ Hp Hname Hin)
    as (col & cells & keys & Hc & Hk & [[Hcol E]|[Hcol (bcells & b & Hb & Hn & E)]]).
  - exists col, cells, keys. split; [exact Hc|]. split; [exact Hk|]. left.
    split; [exact Hcol|]. subst s.
    destruct (head_of_sorted_lists_largest 10 (groupby_size keys)) as [H1 H2].
    split.
    + intros k m Hkm. apply TopFacts.groupby_size_in. apply H1. exact Hkm.
    + intros k Hk'. specialize (H2 (k, group_count k keys)). simpl in H2.
      apply H2. apply TopFacts.groupby_size_in. auto.
  - exists col, cells, keys. split; [exact Hc|]. split; [exact Hk|]. right.
    split; [exact Hcol|]. exists bcells, b. split; [exact Hb|]. split; [exact Hn|]. subst s.
    destruct (head_of_sorted_lists_largest 10 (groupby_sum keys b)) as [H1 H2].
    split.
    + intros k m Hkm. apply TopFacts.groupby_sum_in. apply H1. exact Hkm.
    + intros k Hk'. specialize (H2 (k, group_total k keys b)). simpl in H2.
      apply H2. apply TopFacts.groupby_sum_in. auto.
Qed.

End TopContents.

Lemma top_n_statistics_list_the_largest_groups_witness :
  exists stats df' col cells keys,
    process_traffic_data row_order_frame = Some (stats, df') /\
    In "top_sources" top_n_names /\
    In ("top_sources", SSeries [(VStr "10.0.0.1", 1%Z); (VStr "10.0.0.2", 1%Z)]) stats /\
    column col row_order_frame = Some cells /\ key_cells cells = Some keys.
Proof.
  assert (Hp : process_traffic_data row_order_frame
               = Some ([("total_records", SInt 2); ("unique_sources", SInt 2);
                        ("top_sources", SSeries [(VStr "10.0.0.1", 1%Z); (VStr "10.0.0.2", 1%Z)])],
                       row_order_frame)) by (vm_compute; reflexivity).
  assert (Hn : In "top_sources" top_n_names) by (simpl; auto).
  assert (Hi : In ("top_sources", SSeries [(VStr "10.0.0.1", 1%Z); (VStr "10.0.0.2", 1%Z)])
                  [("total_records", SInt 2); ("unique_sources", SInt 2);
                   ("top_sources", SSeries [(VStr "10.0.0.1", 1%Z); (VStr "10.0.0.2", 1%Z)])])
    by (simpl; auto).
  destruct (top_n_statistics_list_the_largest_groups _ _ _ _ _ Hp Hn Hi)
    as (col & cells & keys & Hc & Hk & _).
  eexists. eexists. exists col, cells, keys.
  split; [exact Hp|]. split; [exact Hn|]. split; [exact Hi|]. split; [exact Hc | exact Hk].
Defined.

(** ** Unique counts and the length of a top-N list *)

Section UniqueCounts.

Context {S : SortValues}.

Lemma unique_entry_origin (df df' : DataFrame) (stats : stats_dict)
    (uname tname : string) (n : Z) :
  process_traffic_data df = Some (stats, df') ->
  In (uname, tname) unique_stat_names ->
  In (uname, SInt n) stats ->
  exists col cells keys,
    In (tname, col) count_stat_columns /\
    column col df = Some cells /\ key_cells cells = Some keys /\ n = nunique keys.
Proof.
  intros Hp Hname Hin.
  destruct (process_traffic_data_inv _ _ _ Hp)
    as (bytes & src & dst & proto & timed & ports & Hb & Hsrc & Hdst & Hproto & Ht & Hports & Hs).
  subst stats. simpl in Hname.
  apply in_app_or in Hin. destruct Hin as [Hin|Hin].
  { exfalso. destruct Hin as [E|[]]. inversion E; subst.
    destruct Hname as [E'|[E'|[]]]; discriminate. }
  apply in_app_or in Hin. destruct Hin as [Hin|Hin].
  { exfalso. pose proof (basic_stats_named _ _ _ Hin) as Hn. simpl in Hn.
    destruct Hname as [E'|[E'|[]]]; inversion E'; subst; intuition discriminate. }
  apply in_app_or in Hin. destruct Hin as [Hin|Hin].
  { destruct (ip_stats_inv _ _ _ _ _ _ _ Hsrc) as [[_ E]|(cells & keys & Hc & Hk & E)];
      subst src; [destruct Hin|].
    destruct Hin as [E|[E|Hin]]; [|discriminate|destruct bytes; [destruct Hin as [E|[]]; discriminate|destruct Hin]].
    inversion E; subst.
    destruct Hname as [E'|[E'|[]]]; inversion E'; subst.
    exists "src_ip", cells, keys. simpl. auto. }
  apply in_app_or in Hin. destruct Hin as [Hin|Hin].
  { destruct (ip_stats_inv _ _ _ _ _ _ _ Hdst) as [[_ E]|(cells & keys & Hc & Hk & E)];
      subst dst; [destruct Hin|].
    destruct Hin as [E|[E|Hin]]; [|discriminate|destruct bytes; [destruct Hin as [E|[]]; discriminate|destruct Hin]].
    inversion E; subst.
    destruct Hname as [E'|[E'|[]]]; inversion E'; subst.
    exists "dst_ip", cells, keys. simpl. auto 10. }
  apply in_app_or in Hin. destruct Hin as [Hin|Hin].
  { exfalso. pose proof (protocol_stats_names _ _ _ _ Hproto Hin) as Hn. subst uname.
    destruct Hname as [E'|[E'|[]]]; discriminate. }
  apply in_app_or in Hin. destruct Hin as [Hin|Hin].
  { exfalso. pose proof (time_stats_named _ _ _ _ _ _ Ht Hin) as Hn. simpl in Hn.
    destruct Hname as [E'|[E'|[]]]; inversion E'; subst; intuition discriminate. }
  exfalso.
  destruct (port_stats_inv _ _ _ Hports) as [[_ E]|(cells & keys & Hc & Hk & E)];
    subst ports; [destruct Hin|].
  destruct Hin as [E|Hin]; [discriminate|].
  destruct bytes; [destruct Hin as [E|[]]; discriminate | destruct Hin].
Qed.

(** X2: The top sources (destinations) list every distinct source when there
    are at most ten, and exactly ten otherwise: its length is the smaller
    of 10 and the unique count stored next to it. *)
Theorem top_list_length_is_min_of_ten_and_unique_count
    (df df' : DataFrame) (stats : stats_dict) (uname tname : string)
    (n : Z) (s : list (value * Z)) :
  process_traffic_data df = Some (stats, df') ->
  In (uname, tname) unique_stat_names ->
  In (uname, SInt n) stats ->
  In (tname, SSeries s) stats ->
  Z.of_nat (List.length s) = Z.min 10 n.
Proof.
  intros Hp Hname Hu Ht.
  destruct (unique_entry_origin _ _ _ _ _ _ Hp Hname Hu)
    as (col & cells & keys & Hcol & Hc & Hk & En).
  assert (Htop : In tname top_n_names).
  { simpl in Hname. destruct Hname as [E|[E|[]]]; inversion E; subst; simpl; auto. }
  destruct (top_entry_origin _ _ _ _ _ Hp Htop Ht)
    as (col' & cells' & keys' & Hc' & Hk' & [[Hcol' E]|[Hcol' _]]).
  - assert (col' = col).
    { simpl in Hname, Hcol, Hcol'.
      destruct Hname as [E1|[E1|[]]]; inversion E1; subst;
        destruct Hcol as [E2|[E2|[E2|[]]]]; inversion E2; subst;
        destruct Hcol' as [E3|[E3|[E3|[]]]]; inversion E3; subst; reflexivity. }
    subst col'. rewrite Hc in Hc'. inversion Hc'; subst cells'.
    rewrite Hk in Hk'. inversion Hk'; subst keys'.
    subst s n. unfold top_by_size. rewrite head_of_sorted_length.
    unfold groupby_size, nunique. rewrite length_map. lia.
  - exfalso. simpl in Hname, Hcol'.
    destruct Hname as [E1|[E1|[]]]; inversion E1; subst;
      destruct Hcol' as [E3|[E3|[E3|[]]]]; discriminate.
Qed.

End UniqueCounts.

Lemma top_list_length_is_min_of_ten_and_unique_count_witness :
  exists stats df',
    process_traffic_data row_order_frame = Some (stats, df') /\
    In ("unique_sources", "top_sources") unique_stat_names /\
    In ("unique_sources", SInt 2) stats /\
    In ("top_sources", SSeries [(VStr "10.0.0.1", 1%Z); (VStr "10.0.0.2", 1%Z)]) stats /\
    Z.of_nat (List.length [(VStr "10.0.0.1", 1%Z); (VStr "10.0.0.2", 1%Z)]) = Z.min 10 2.
Proof.
  assert (Hp : process_traffic_data row_order_frame
               = Some ([("total_records", SInt 2); ("unique_sources", SInt 2);
                        ("top_sources", SSeries [(VStr "10.0.0.1", 1%Z); (VStr "10.0.0.2", 1%Z)])],
                       row_order_frame)) by (vm_compute; reflexivity).
  assert (Hn : In ("unique_sources", "top_sources") unique_stat_names) by (simpl; auto).
  assert (Hu : In ("unique_sources", SInt 2)
                  [("total_records", SInt 2); ("unique_sources", SInt 2);
                   ("top_sources", SSeries [(VStr "10.0.0.1", 1%Z); (VStr "10.0.0.2", 1%Z)])])
    by (simpl; auto).
  assert (Hi : In ("top_sources", SSeries [(VStr "10.0.0.1", 1%Z); (VStr "10.0.0.2", 1%Z)])
                  [("total_records", SInt 2); ("unique_sources", SInt 2);
                   ("top_sources", SSeries [(VStr "10.0.0.1", 1%Z); (VStr "10.0.0.2", 1%Z)])])
    by (simpl; auto).
  eexists. eexists.
  split; [exact Hp|]. split; [exact Hn|]. split; [exact Hu|]. split; [exact Hi|].
  exact (top_list_length_is_min_of_ten_and_unique_count _ _ _ _ _ _ _ Hp Hn Hu Hi).
Defined.

(** ** Groups partition the rows *)

Module PartitionFacts.
Import ResampleFacts.
Open Scope Z_scope.

Lemma sum_indicator_key (a : value) (v : Z) (l : list value) :
  NoDup l -> In a l ->
  series_total (map (fun k => if value_eqb a k then v else 0) l) = v.
Proof.
  induction l as [|c l IH]; intros Hnd Hin; [destruct Hin|].
  inversion Hnd as [|? ? Hnot Hnd']; subst.
  unfold series_total in *. simpl.
  destruct Hin as [E|Hin].
  - subst c. rewrite KeyOrder.value_eqb_refl.
    assert (E : map (fun k => if value_eqb a k then v else 0) l = map (fun _ => 0) l).
    { apply map_ext_in. intros x Hx. destruct (value_eqb a x) eqn:Ex; [|reflexivity].
      apply KeyOrder.value_eqb_eq in Ex. subst. contradiction. }
    rewrite E. pose proof (sum_zero value l) as Z0. unfold series_total in Z0. rewrite Z0. lia.
  - destruct (value_eqb a c) eqn:Ex.
    + apply KeyOrder.value_eqb_eq in Ex. subst. contradiction.
    + rewrite (IH Hnd' Hin). lia.
Qed.

Lemma group_sum_cons (k : value) (ok : option value) (ov : option Z)
    (rows : list (option value * option Z)) :
  sum_present (map snd (filter (fun kv => key_is k (fst kv)) ((ok, ov) :: rows)))
  = (if key_is k ok then val ov else 0)
    + sum_present (map snd (filter (fun kv => key_is k (fst kv)) rows)).
Proof. simpl. destruct (key_is k ok); simpl; [destruct ov; simpl; lia | lia]. Qed.

(** Over distinct labels that include every key of the rows, the sums of
    the groups add up to the sum over the rows that have a key. *)
Lemma group_sums_total (labels : list value) (rows : list (option value * option Z)) :
  NoDup labels ->
  (forall k v, In (Some k, v) rows -> In k labels) ->
  series_total
    (map (fun k => sum_present (map snd (filter (fun kv => key_is k (fst kv)) rows))) labels)
  = sum_present (map snd (filter has_key rows)).
Proof.
  intros Hnd. induction rows as [|[ok ov] rows IH]; intros Hcov.
  - simpl. apply sum_zero.
  - rewrite (map_ext _ _ (fun k => group_sum_cons k ok ov rows)).
    rewrite (sum_add value (fun k => if key_is k ok then val ov else 0)).
    rewrite IH by (intros k v Hin; apply (Hcov k v); right; exact Hin).
    destruct ok as [a|]; simpl.
    + rewrite (sum_indicator_key a (val ov)); auto.
      * unfold has_key. simpl. destruct ov; simpl; lia.
      * apply (Hcov a ov). left. reflexivity.
    + rewrite sum_zero. reflexivity.
Qed.

Lemma group_count_cons (k : value) (ok : option value) (keys : list (option value)) :
  Z.of_nat (List.length (filter (key_is k) (ok :: keys)))
  = (if key_is k ok then 1 else 0) + Z.of_nat (List.length (filter (key_is k) keys)).
Proof. simpl. destruct (key_is k ok); simpl List.length; lia. Qed.

(** The same for the numbers of rows. *)
Lemma group_counts_total (labels : list value) (keys : list (option value)) :
  NoDup labels ->
  (forall k, In (Some k) keys -> In k labels) ->
  series_total (map (fun k => Z.of_nat (List.length (filter (key_is k) keys))) labels)
  = Z.of_nat (count_present keys).
Proof.
  intros Hnd. induction keys as [|ok keys IH]; intros Hcov.
  - simpl. apply sum_zero.
  - rewrite (map_ext _ _ (fun k => group_count_cons k ok keys)).
    rewrite (sum_add value (fun k => if key_is k ok then 1 else 0)).
    rewrite IH by (intros k Hin; apply Hcov; right; exact Hin).
    unfold count_present. destruct ok as [a|]; simpl.
    + rewrite (sum_indicator_key a 1); auto; [lia|]. apply Hcov. left. reflexivity.
    + rewrite sum_zero. reflexivity.
Qed.

Lemma groupby_sum_total (keys : list (option value)) (vals : list (option Z)) :
  series_total (map snd (groupby_sum keys vals))
  = sum_present (map snd (filter has_key (combine keys vals))).
Proof.
  unfold groupby_sum. rewrite map_map. simpl.
  apply group_sums_total; [apply TopFacts.group_keys_nodup|].
  intros k v Hin. apply GroupFacts.group_keys_in. eapply in_combine_l; eauto.
Qed.

Lemma groupby_size_total (keys : list (option value)) :
  series_total (map snd (groupby_size keys)) = Z.of_nat (count_present keys).
Proof.
  unfold groupby_size. rewrite map_map. simpl.
  apply group_counts_total; [apply TopFacts.group_keys_nodup|].
  intros k Hin. apply GroupFacts.group_keys_in. exact Hin.
Qed.

(** Keys derived from the time stamp are present exactly on the stamped
    rows. *)
Lemma stamped_key_values (f : option PyTime.datetime -> option value)
    (ts : list (option PyTime.datetime)) (b : list (option Z)) :
  (forall t, f (Some t) <> None) -> f None = None ->
  map snd (filter has_key (combine (map f ts) b)) = stamped_values ts b.
Proof.
  intros Hsome Hnone. unfold stamped_values.
  revert b. induction ts as [|ot ts IH]; intros [|v b]; simpl; try reflexivity.
  unfold has_key at 1. simpl.
  destruct ot as [t|].
  - destruct (f (Some t)) eqn:E; [|exfalso; eapply Hsome; eauto]. simpl. f_equal. apply IH.
  - rewrite Hnone. apply IH.
Qed.

Lemma stamped_key_count (f : option PyTime.datetime -> option value)
    (ts : list (option PyTime.datetime)) :
  (forall t, f (Some t) <> None) -> f None = None ->
  count_present (map f ts) = count_present ts.
Proof.
  intros Hsome Hnone. unfold count_present.
  induction ts as [|ot ts IH]; simpl; [reflexivity|].
  destruct ot as [t|].
  - destruct (f (Some t)) eqn:E; [|exfalso; eapply Hsome; eauto]. simpl. f_equal. exact IH.
  - rewrite Hnone. exact IH.
Qed.

End PartitionFacts.

Section TimeOfDay.

Context {S : SortValues}.
Import PartitionFacts.

Lemma time_stats_entries (df df' : DataFrame) (bytes : option (list (option Z)))
    (l : stats_dict) (cells : list value) (ts : list (option PyTime.datetime))
    (name : string) (s : list (value * Z)) :
  time_stats df bytes = Some (l, df') ->
  column "timestamp" df = Some cells -> time_cells cells = Some ts ->
  In (name, SSeries s) l ->
  (name = "traffic_by_hour" /\ exists b, bytes = Some b /\ s = groupby_sum (hour_keys ts) b) \/
  (name = "connections_by_hour" /\ s = groupby_size (hour_keys ts)) \/
  (name = "traffic_by_day" /\ exists b, bytes = Some b /\ s = groupby_sum (day_keys ts) b) \/
  (name = "connections_by_day" /\ s = groupby_size (day_keys ts)).
Proof.
  unfold time_stats, option_bind. intros H Hc Hts. rewrite Hc, Hts in H.
  inversion H; subst; clear H. fold (hour_keys ts). fold (day_keys ts).
  destruct bytes as [b|]; simpl; intros Hin.
  - destruct Hin as [E|[E|[E|[E|[E|[]]]]]]; inversion E; subst; eauto 10.
  - destruct Hin as [E|[E|[E|[]]]]; inversion E; subst; eauto 10.
Qed.

Lemma time_entry_origin (df df' : DataFrame) (stats : stats_dict)
    (cells : list value) (ts : list (option PyTime.datetime))
    (name : string) (s : list (value * Z)) :
  process_traffic_data df = Some (stats, df') ->
  column "timestamp" df = Some cells -> time_cells cells = Some ts ->
  In name ["traffic_by_hour"; "connections_by_hour"; "traffic_by_day"; "connections_by_day"] ->
  In (name, SSeries s) stats ->
  (name = "traffic_by_hour" /\
   exists bcells b, column "bytes" df = Some bcells /\ num_cells bcells = Some b /\
                    s = groupby_sum (hour_keys ts) b) \/
  (name = "connections_by_hour" /\ s = groupby_size (hour_keys ts)) \/
  (name = "traffic_by_day" /\
   exists bcells b, column "bytes" df = Some bcells /\ num_cells bcells = Some b /\
                    s = groupby_sum (day_keys ts) b) \/
  (name = "connections_by_day" /\ s = groupby_size (day_keys ts)).
Proof.
  intros Hp Hc Hts Hname Hin.
  destruct (process_traffic_data_inv _ _ _ Hp)
    as (bytes & src & dst & proto & timed & ports & Hb & Hsrc & Hdst & Hproto & Ht & Hports & Hs).
  assert (Hbytes : forall b, bytes = Some b ->
            exists bcells, column "bytes" df = Some bcells /\ num_cells bcells = Some b).
  { intros b E. subst bytes. unfold bytes_column in Hb.
    destruct (column "bytes" df) as [bcells|]; [|discriminate].
    destruct (num_cells bcells) as [b'|] eqn:En; [|discriminate].
    inversion Hb; subst. eauto. }
  assert (Hnot : ~ In name top_n_names).
  { simpl in Hname |- *. destruct Hname as [E|[E|[E|[E|[]]]]]; subst name; intuition discriminate. }
  subst stats.
  apply in_app_or in Hin. destruct Hin as [Hin|Hin].
  { destruct Hin as [E|[]]. discriminate. }
  apply in_app_or in Hin. destruct Hin as [Hin|Hin].
  { exfalso. eapply basic_stats_no_series; eauto. }
  apply in_app_or in Hin. destruct Hin as [Hin|Hin].
  { exfalso. apply Hnot.
    destruct (ip_stats_series _ _ _ _ _ _ _ _ _ Hsrc Hin) as [[E|E] _]; subst; simpl; auto. }
  apply in_app_or in Hin. destruct Hin as [Hin|Hin].
  { exfalso. apply Hnot.
    destruct (ip_stats_series _ _ _ _ _ _ _ _ _ Hdst Hin) as [[E|E] _]; subst; simpl; auto 10. }
  apply in_app_or in Hin. destruct Hin as [Hin|Hin].
  { exfalso. rewrite (protocol_stats_names _ _ _ _ Hproto Hin) in Hname.
    simpl in Hname. intuition discriminate. }
  apply in_app_or in Hin. destruct Hin as [Hin|Hin].
  { destruct (time_stats_entries _ _ _ _ _ _ _ _ Ht Hc Hts Hin)
      as [[E (b & Eb & Es)]|[[E Es]|[[E (b & Eb & Es)]|[E Es]]]].
    - left. split; [exact E|]. destruct (Hbytes b Eb) as [bcells [H1 H2]]. eauto.
    - right. left. auto.
    - right. right. left. split; [exact E|]. destruct (Hbytes b Eb) as [bcells [H1 H2]]. eauto.
    - right. right. right. auto. }
  exfalso. apply Hnot.
  destruct (port_stats_series _ _ _ _ _ Hports Hin) as [[E|E] _]; subst; simpl; auto 10.
Qed.

(** X3: The statistics by hour of day and by day of week partition the
    records that have a time stamp: the connection counts add up to the
    number of those records, and the traffic entries to the sum of their
    bytes. *)
Theorem time_of_day_statistics_partition_the_stamped_records
    (df df' : DataFrame) (stats : stats_dict)
    (cells : list value) (ts : list (option PyTime.datetime))
    (name : string) (s : list (value * Z)) :
  process_traffic_data df = Some (stats, df') ->
  column "timestamp" df = Some cells -> time_cells cells = Some ts ->
  In (name, SSeries s) stats ->
  (In name ["connections_by_hour"; "connections_by_day"] ->
   series_total (map snd s) = Z.of_nat (count_present ts)) /\
  (In name ["traffic_by_hour"; "traffic_by_day"] ->
   exists bcells b,
     column "bytes" df = Some bcells /\ num_cells bcells = Some b /\
     series_total (map snd s) = sum_present (stamped_values ts b)).
Proof.
  intros Hp Hc Hts Hin.
  assert (Hh : forall t, opt_key (hour_cell (Some t)) <> None) by (intros t; discriminate).
  assert (Hd : forall t, opt_key (day_cell (Some t)) <> None) by (intros t; discriminate).
  assert (Ehours : hour_keys ts = map (fun ot => opt_key (hour_cell ot)) ts).
  { unfold hour_keys. rewrite map_map. reflexivity. }
  assert (Edays : day_keys ts = map (fun ot => opt_key (day_cell ot)) ts).
  { unfold day_keys. rewrite map_map. reflexivity. }
  split; intros Hname.
  - assert (Hn : In name ["traffic_by_hour"; "connections_by_hour";
                          "traffic_by_day"; "connections_by_day"]).
    { simpl in Hname |- *. intuition. }
    destruct (time_entry_origin _ _ _ _ _ _ _ Hp Hc Hts Hn Hin)
      as [[E _]|[[E Es]|[[E _]|[E Es]]]];
      try (exfalso; subst name; simpl in Hname; intuition discriminate); subst s.
    + rewrite groupby_size_total, Ehours.
      rewrite (stamped_key_count _ ts Hh eq_refl). reflexivity.
    + rewrite groupby_size_total, Edays.
      rewrite (stamped_key_count _ ts Hd eq_refl). reflexivity.
  - assert (Hn : In name ["traffic_by_hour"; "connections_by_hour";
                          "traffic_by_day"; "connections_by_day"]).
    { simpl in Hname |- *. intuition. }
    destruct (time_entry_origin _ _ _ _ _ _ _ Hp Hc Hts Hn Hin)
      as [[E (bcells & b & Hb & Hnum & Es)]|[[E _]|[[E (bcells & b & Hb & Hnum & Es)]|[E _]]]];
      try (exfalso; subst name; simpl in Hname; intuition discriminate); subst s;
      exists bcells, b; (split; [exact Hb|]); (split; [exact Hnum|]).
    + rewrite groupby_sum_total, Ehours.
      rewrite (stamped_key_values _ ts b Hh eq_refl). reflexivity.
    + rewrite groupby_sum_total, Edays.
      rewrite (stamped_key_values _ ts b Hd eq_refl). reflexivity.
Qed.

End TimeOfDay.

Lemma time_of_day_statistics_partition_the_stamped_records_witness :
  exists stats df' s,
    process_traffic_data week_frame = Some (stats, df') /\
    In ("connections_by_day", SSeries s) stats /\
    series_total (map snd s) = 2%Z.
Proof.
  destruct (process_traffic_data week_frame) as [[stats df']|] eqn:Hp;
    [|vm_compute in Hp; discriminate].
  exists stats, df', [(VStr "Friday", 1%Z); (VStr "Monday", 1%Z)].
  assert (Hi : In ("connections_by_day", SSeries [(VStr "Friday", 1%Z); (VStr "Monday", 1%Z)])
                  stats).
  { vm_compute in Hp. inversion Hp; subst. simpl. auto 10. }
  split; [reflexivity|]. split; [exact Hi|].
  destruct (time_of_day_statistics_partition_the_stamped_records
              week_frame df' stats
              [VTime (PyTime.DateTime 2023 10 2 9 0 0); VTime (PyTime.DateTime 2023 10 6 9 0 0)]
              [Some (PyTime.DateTime 2023 10 2 9 0 0); Some (PyTime.DateTime 2023 10 6 9 0 0)]
              _ _ Hp eq_refl eq_refl Hi) as [Hcount _].
  rewrite Hcount; [reflexivity|]. simpl. auto.
Defined.

(** ** Running [process_traffic_data] again *)

Section Rerun.

Context {S : SortValues}.

Lemma set_column_known (c : string) (cells : list value) (df : DataFrame) :
  column c df = Some cells -> set_column c cells df = df.
Proof.
  unfold column, set_column. intros H. rewrite (assoc_set_known _ _ _ H).
  destruct df; reflexivity.
Qed.

Lemma column_set_column_same (c : string) (cells : list value) (df : DataFrame) :
  column c (set_column c cells df) = Some cells.
Proof. unfold column, set_column. simpl. apply assoc_get_set_same. Qed.

(** The statistics read the frame through its row count and six columns. *)
Lemma process_traffic_data_ext (df1 df2 : DataFrame) :
  nrows df1 = nrows df2 ->
  (forall c, In c ["bytes"; "src_ip"; "dst_ip"; "protocol"; "timestamp"; "dst_port"] ->
             column c df1 = column c df2) ->
  option_map fst (process_traffic_data df1) = option_map fst (process_traffic_data df2).
Proof.
  intros Hn Hc.
  assert (Hb : column "bytes" df1 = column "bytes" df2) by (apply Hc; simpl; auto).
  assert (Hs : column "src_ip" df1 = column "src_ip" df2) by (apply Hc; simpl; auto).
  assert (Hd : column "dst_ip" df1 = column "dst_ip" df2) by (apply Hc; simpl; auto).
  assert (Hp : column "protocol" df1 = column "protocol" df2) by (apply Hc; simpl; auto).
  assert (Ht : column "timestamp" df1 = column "timestamp" df2) by (apply Hc; simpl; auto 10).
  assert (Ho : column "dst_port" df1 = column "dst_port" df2) by (apply Hc; simpl; auto 10).
  unfold process_traffic_data, option_bind, bytes_column. rewrite Hb, Hn.
  destruct (column "bytes" df2) as [bcells|].
  - destruct (num_cells bcells) as [b|]; [|reflexivity].
    unfold ip_stats, protocol_stats, time_stats, port_stats, option_bind.
    rewrite Hs, Hd, Hp, Ht.
    destruct (column "src_ip" df2) as [c1|]; [destruct (key_cells c1); [|reflexivity]|];
      (destruct (column "dst_ip" df2) as [c2|]; [destruct (key_cells c2); [|reflexivity]|]);
      (destruct (column "protocol" df2) as [c3|]; [destruct (key_cells c3); [|reflexivity]|]);
      (destruct (column "timestamp" df2) as [c4|]; [destruct (time_cells c4); [|reflexivity]|]);
      simpl snd; simpl fst;
      rewrite ?column_set_column_other by discriminate; rewrite Ho;
      (destruct (column "dst_port" df2) as [c5|]; [destruct (key_cells c5); [|reflexivity]|]);
      reflexivity.
  - unfold ip_stats, protocol_stats, time_stats, port_stats, option_bind.
    rewrite Hs, Hd, Hp, Ht.
    destruct (column "src_ip" df2) as [c1|]; [destruct (key_cells c1); [|reflexivity]|];
      (destruct (column "dst_ip" df2) as [c2|]; [destruct (key_cells c2); [|reflexivity]|]);
      (destruct (column "protocol" df2) as [c3|]; [destruct (key_cells c3); [|reflexivity]|]);
      (destruct (column "timestamp" df2) as [c4|]; [destruct (time_cells c4); [|reflexivity]|]);
      simpl snd; simpl fst;
      rewrite ?column_set_column_other by discriminate; rewrite Ho;
      (destruct (column "dst_port" df2) as [c5|]; [destruct (key_cells c5); [|reflexivity]|]);
      reflexivity.
Qed.

(** X4: [process_traffic_data] touches only the columns [hour] and
    [day_of_week] of the frame it is given: the number of rows and the
    cells of every other column are as before, and without a [timestamp]
    column the frame comes back as it was. *)
Theorem process_traffic_data_changes_only_the_time_columns
    (df df' : DataFrame) (stats : stats_dict) :
  process_traffic_data df = Some (stats, df') ->
  nrows df' = nrows df /\
  (forall c, c <> "hour" -> c <> "day_of_week" -> column c df' = column c df) /\
  (column "timestamp" df = None -> df' = df) /\
  (forall cells ts, column "timestamp" df = Some cells -> time_cells cells = Some ts ->
                    column "hour" df' = Some (map hour_cell ts) /\
                    column "day_of_week" df' = Some (map day_cell ts)).
Proof.
  intros Hp.
  split.
  { destruct (process_traffic_data_frame _ _ _ Hp) as [[_ E]|(cells & ts & _ & _ & E)];
      subst df'; reflexivity. }
  split.
  { intros c H1 H2. eapply process_traffic_data_keeps_column; eauto. }
  split.
  { intros Hnone.
    destruct (process_traffic_data_frame _ _ _ Hp) as [[_ E]|(cells & ts & Hc & _)];
      [exact E | congruence]. }
  intros cells ts Hc Hts.
  destruct (process_traffic_data_frame _ _ _ Hp) as [[Hnone _]|(cells' & ts' & Hc' & Hts' & E)];
    [congruence|].
  rewrite Hc in Hc'. inversion Hc'; subst cells'.
  rewrite Hts in Hts'. inversion Hts'; subst ts'. subst df'.
  split.
  - rewrite column_set_column_other by discriminate. apply column_set_column_same.
  - apply column_set_column_same.
Qed.

(** X5: Computing the statistics again on the frame a first call left behind
    gives the same statistics and leaves the frame as it is: the two
    columns are added once. *)
Theorem process_traffic_data_is_stable_on_rerun
    (df df' : DataFrame) (stats : stats_dict) :
  process_traffic_data df = Some (stats, df') ->
  process_traffic_data df' = Some (stats, df').
Proof.
  intros Hp.
  destruct (process_traffic_data_frame _ _ _ Hp) as [[_ E]|(cells & ts & Hc & Hts & E)];
    [subst df'; exact Hp|].
  assert (Hstats : option_map fst (process_traffic_data df')
                   = option_map fst (process_traffic_data df)).
  { apply process_traffic_data_ext; [subst df'; reflexivity|].
    intros c Hin. apply (process_traffic_data_keeps_column _ _ _ c Hp);
      simpl in Hin; intuition (subst; discriminate). }
  rewrite Hp in Hstats. simpl in Hstats.
  destruct (process_traffic_data df') as [[stats2 df2]|] eqn:Hp2; [|discriminate].
  simpl in Hstats. inversion Hstats; subst stats2. f_equal. f_equal.
  assert (Hc' : column "timestamp" df' = Some cells).
  { rewrite (process_traffic_data_keeps_column _ _ _ "timestamp" Hp) by discriminate. exact Hc. }
  destruct (process_traffic_data_frame _ _ _ Hp2) as [[_ E2]|(cells2 & ts2 & Hc2 & Hts2 & E2)];
    [exact E2|].
  rewrite Hc' in Hc2. inversion Hc2; subst cells2.
  rewrite Hts in Hts2. inversion Hts2; subst ts2.
  assert (Hhour : column "hour" df' = Some (map hour_cell ts)).
  { subst df'. rewrite column_set_column_other by discriminate. apply column_set_column_same. }
  assert (Hday : column "day_of_week" df' = Some (map day_cell ts)).
  { subst df'. apply column_set_column_same. }
  rewrite E2, (set_column_known _ _ _ Hhour). apply set_column_known. exact Hday.
Qed.

End Rerun.

Lemma process_traffic_data_changes_only_the_time_columns_witness :
  exists stats df',
    process_traffic_data week_frame = Some (stats, df') /\
    nrows df' = 2%nat /\
    column "timestamp" df' = column "timestamp" week_frame.
Proof.
  destruct (process_traffic_data week_frame) as [[stats df']|] eqn:Hp;
    [|vm_compute in Hp; discriminate].
  exists stats, df'.
  destruct (process_traffic_data_changes_only_the_time_columns _ _ _ Hp) as (Hn & Hkeep & _).
  split; [reflexivity|]. split; [rewrite Hn; reflexivity|].
  apply Hkeep; discriminate.
Defined.

Lemma process_traffic_data_is_stable_on_rerun_witness :
  exists stats df',
    process_traffic_data week_frame = Some (stats, df') /\
    process_traffic_data df' = Some (stats, df').
Proof.
  destruct (process_traffic_data week_frame) as [[stats df']|] eqn:Hp;
    [|vm_compute in Hp; discriminate].
  exists stats, df'. split; [reflexivity|].
  exact (process_traffic_data_is_stable_on_rerun _ _ _ Hp).
Defined.

(** ** The charts over time for any bucket width *)

Module BucketFacts.
Import ResampleFacts.
Open Scope Z_scope.






End BucketFacts.

Section ChartsOverTime.

Import ResampleFacts BucketFacts.
Open Scope Z_scope.




End ChartsOverTime.



(** ** The chart of the top addresses *)

Section TopIpsChart.

Context {S : SortValues}.

Lemma create_top_ips_chart_eq (df : DataFrame) (ip_column : string) (top_n : nat)
    (cells bcells : list value) (keys : list (option value)) (b : list (option Z)) :
  column ip_column df = Some cells ->
  column "bytes" df = Some bcells ->
  key_cells cells = Some keys ->
  num_cells bcells = Some b ->
  create_top_ips_chart df ip_column top_n
  = Some (Labelled (map fst (head top_n (sort_values_desc (groupby_sum keys b))))
                   (map snd (head top_n (sort_values_desc (groupby_sum keys b))))
                   (1024 ^ 2)).
Proof.
  intros Hc Hb Hk Hn. unfold create_top_ips_chart.
  rewrite (column_some_has_column _ _ _ Hc), (column_some_has_column _ _ _ Hb).
  simpl. rewrite Hc. simpl. rewrite Hb. simpl. rewrite Hk. simpl. rewrite Hn. reflexivity.
Qed.

(** X10: The chart of the top addresses has one bar for each of the [top_n]
    addresses with the most traffic, or for every address when there are
    fewer: each bar is an address of the column with the sum of the
    bytes of its records, the bars descend, and an address without a
    bar has no more traffic than any address with one. *)
Theorem top_ips_chart_shows_the_addresses_with_most_traffic
    (df : DataFrame) (ip_column : string) (top_n : nat)
    (cells bcells : list value) (keys : list (option value)) (b : list (option Z)) :
  column ip_column df = Some cells ->
  column "bytes" df = Some bcells ->
  key_cells cells = Some keys ->
  num_cells bcells = Some b ->
  exists bars,
    create_top_ips_chart df ip_column top_n
    = Some (Labelled (map fst bars) (map snd bars) (1024 ^ 2)) /\
    List.length bars = Nat.min top_n (Z.to_nat (nunique keys)) /\
    StronglySorted desc bars /\
    (forall k m, In (k, m) bars -> In (Some k) keys /\ m = group_total k keys b) /\
    (forall k, In (Some k) keys ->
               In (k, group_total k keys b) bars \/
               forall e, In e bars -> (group_total k keys b <= snd e)%Z).
Proof.
  intros Hc Hb Hk Hn.
  exists (head top_n (sort_values_desc (groupby_sum keys b))).
  split; [apply create_top_ips_chart_eq with cells bcells; assumption|].
  split.
  { rewrite head_of_sorted_length. unfold nunique. rewrite Nat2Z.id.
    unfold groupby_sum. rewrite length_map. reflexivity. }
  split.
  { unfold head. apply SortFacts.sorted_firstn. apply sort_values_sorted. }
  destruct (head_of_sorted_lists_largest top_n (groupby_sum keys b)) as [H1 H2].
  split.
  - intros k m Hkm. apply TopFacts.groupby_sum_in. apply H1. exact Hkm.
  - intros k Hk'. specialize (H2 (k, group_total k keys b)). simpl in H2.
    apply H2. apply TopFacts.groupby_sum_in. auto.
Qed.

(** X11: With ten bars, the chart of the top addresses of a column shows the
    entries of the by-traffic statistic of that column, in the same
    order, whether it is drawn from the frame as it was before
    [process_traffic_data] or as the call left it. *)
Theorem top_ips_chart_agrees_with_traffic_statistic
    (df df' : DataFrame) (stats : stats_dict) (name col : string) (s : list (value * Z)) :
  process_traffic_data df = Some (stats, df') ->
  In (name, col) traffic_stat_columns ->
  In (name, SSeries s) stats ->
  create_top_ips_chart df col 10 = Some (Labelled (map fst s) (map snd s) (1024 ^ 2)) /\
  create_top_ips_chart df' col 10 = Some (Labelled (map fst s) (map snd s) (1024 ^ 2)).
Proof.
  intros Hp Hcol Hin.
  assert (Hname : In name top_n_names).
  { simpl in Hcol. unfold top_n_names. simpl.
    repeat (destruct Hcol as [Hcol|Hcol]; [inversion Hcol; subst; tauto|]).
    destruct Hcol. }
  destruct (top_entry_origin _ _ _ _ _ Hp Hname Hin)
    as (col' & cells & keys & Hc & Hk & [[Hcol' E]|[Hcol' (bcells & b & Hb & Hn & E)]]).
  - exfalso. simpl in Hcol, Hcol'.
    repeat (destruct Hcol as [Hcol|Hcol]; [inversion Hcol; subst|]);
      try (destruct Hcol);
      repeat (destruct Hcol' as [Hcol'|Hcol']; [discriminate Hcol'|]); destruct Hcol'.
  - assert (col' = col).
    { simpl in Hcol, Hcol'.
      repeat (destruct Hcol as [Hcol|Hcol]; [inversion Hcol; subst|]);
        try (destruct Hcol);
        repeat (destruct Hcol' as [Hcol'|Hcol']; [inversion Hcol'; try reflexivity|]);
        destruct Hcol'. }
    subst col' s.
    assert (Hne1 : col <> "hour" /\ col <> "day_of_week" /\
                   "bytes" <> "hour" /\ "bytes" <> "day_of_week").
    { simpl in Hcol.
      repeat (destruct Hcol as [Hcol|Hcol];
              [inversion Hcol; subst; repeat split; discriminate|]).
      destruct Hcol. }
    destruct Hne1 as (N1 & N2 & N3 & N4).
    split.
    + apply create_top_ips_chart_eq with cells bcells; assumption.
    + apply create_top_ips_chart_eq with cells bcells; try assumption.
      * rewrite (process_traffic_data_keeps_column _ _ _ col Hp N1 N2). exact Hc.
      * rewrite (process_traffic_data_keeps_column _ _ _ "bytes" Hp N3 N4). exact Hb.
Qed.

End TopIpsChart.

Lemma top_ips_chart_shows_the_addresses_with_most_traffic_witness :
  exists bars,
    create_top_ips_chart traffic_frame "src_ip" 1
    = Some (Labelled (map fst bars) (map snd bars) (1024 ^ 2)) /\
    List.length bars = 1%nat.
Proof.
  destruct (top_ips_chart_shows_the_addresses_with_most_traffic
              traffic_frame "src_ip" 1
              [VStr "10.0.0.1"; VStr "10.0.0.2"; VStr "10.0.0.1"]
              [VNum 100; VNum 500; VNum 300]
              [Some (VStr "10.0.0.1"); Some (VStr "10.0.0.2"); Some (VStr "10.0.0.1")]
              [Some 100%Z; Some 500%Z; Some 300%Z]
              eq_refl eq_refl eq_refl eq_refl)
    as (bars & Hchart & Hlen & _).
  exists bars. split; [exact Hchart | exact Hlen].
Defined.

Lemma top_ips_chart_agrees_with_traffic_statistic_witness :
  exists stats df',
    process_traffic_data traffic_frame = Some (stats, df') /\
    create_top_ips_chart df' "src_ip" 10
    = Some (Labelled [VStr "10.0.0.2"; VStr "10.0.0.1"] [500%Z; 400%Z] (1024 ^ 2)).
Proof.
  destruct (process_traffic_data traffic_frame) as [[stats df']|] eqn:Hp;
    [|vm_compute in Hp; discriminate].
  exists stats, df'. split; [reflexivity|].
  assert (Hi : In ("top_sources_by_traffic",
                   SSeries [(VStr "10.0.0.2", 500%Z); (VStr "10.0.0.1", 400%Z)]) stats).
  { vm_compute in Hp. inversion Hp; subst. simpl. auto 20. }
  assert (Hc : In ("top_sources_by_traffic", "src_ip") traffic_stat_columns)
    by (simpl; auto).
  exact (proj2 (top_ips_chart_agrees_with_traffic_statistic
                  traffic_frame df' stats _ _ _ Hp Hc Hi)).
Defined.

(** ** The protocol pie *)

Module PieFacts.
Open Scope Z_scope.












Section Counts.

Context {S : SortValues}.





End Counts.

End PieFacts.

Section ProtocolPie.

Import PieFacts.
Context {S : SortValues}.
Open Scope Z_scope.


End ProtocolPie.


(** ** The heat map by hour and day *)

Module HeatmapFacts.
Import ResampleFacts.
Open Scope Z_scope.

Lemma pivot_hours_in (ts : list (option PyTime.datetime)) (h : Z) :
  In h (pivot_hours ts) <-> exists t, In (Some t) ts /\ PyTime.hour t = h.
Proof.
  unfold pivot_hours. rewrite in_flat_map. split.
  - intros [k [Hk Hin]]. apply GroupFacts.group_keys_in in Hk.
    unfold hour_keys in Hk. rewrite map_map in Hk. apply in_map_iff in Hk.
    destruct Hk as [[t|] [E Ht]]; simpl in E; [|discriminate].
    inversion E; subst k. simpl in Hin. destruct Hin as [E'|[]]. eauto.
  - intros [t [Ht E]]. exists (VNum h). split; [|left; reflexivity].
    apply GroupFacts.group_keys_in. unfold hour_keys. rewrite map_map.
    apply in_map_iff. exists (Some t). split; [|exact Ht]. simpl. rewrite E. reflexivity.
Qed.

Lemma numbers_sorted (l : list value) :
  StronglySorted key_lt l ->
  StronglySorted Z.lt (flat_map (fun k => match k with VNum h => [h] | _ => [] end) l).
Proof.
  induction 1 as [|k l Hs IH Hall]; simpl; [constructor|].
  destruct k as [s|h|t|]; simpl; try exact IH.
  constructor; [exact IH|].
  rewrite Forall_forall in *. intros h' Hin. apply in_flat_map in Hin.
  destruct Hin as [k' [Hk' Hin]]. specialize (Hall _ Hk').
  destruct k' as [s'|h''|t'|]; simpl in Hin; try (destruct Hin; fail).
  destruct Hin as [E|[]]. subst h''. unfold key_lt in Hall. simpl in Hall.
  apply Z.ltb_lt. exact Hall.
Qed.

Lemma pivot_hours_sorted (ts : list (option PyTime.datetime)) :
  StronglySorted Z.lt (pivot_hours ts).
Proof. apply numbers_sorted. apply GroupFacts.group_keys_sorted. Qed.

Lemma lt_sorted_nodup (l : list Z) : StronglySorted Z.lt l -> NoDup l.
Proof.
  induction 1 as [|a l Hs IH Hall]; constructor; [|exact IH].
  intros Hin. rewrite Forall_forall in Hall. specialize (Hall _ Hin). lia.
Qed.

Lemma dayofweek_range (t : PyTime.datetime) :
  In (PyTime.dayofweek t) (map Z.of_nat (seq 0 7)).
Proof.
  unfold PyTime.dayofweek.
  set (d := PyTime.days_from_civil (PyTime.year t) (PyTime.month t) (PyTime.day t) + 3).
  pose proof (Z.mod_pos_bound d 7 ltac:(lia)) as Hb.
  apply in_map_iff. exists (Z.to_nat (d mod 7)). split; [lia|].
  apply in_seq. lia.
Qed.

Lemma days_nodup : NoDup (map Z.of_nat (seq 0 7)).
Proof.
  apply Finite.Injective_map_NoDup; [|apply seq_NoDup].
  intros a b E. lia.
Qed.

Section Weighted.

Variable R : Type.
Variable stamp : R -> option PyTime.datetime.
Variable weight : R -> Z.

Lemma cell_weight_cons (r : R) (rows : list R) (i h : Z) :
  cell_weight stamp weight (r :: rows) i h
  = (if in_cell i h (stamp r) then weight r else 0) + cell_weight stamp weight rows i h.
Proof.
  unfold cell_weight. simpl. destruct (in_cell i h (stamp r)); simpl; unfold series_total; simpl; lia.
Qed.

Lemma in_cell_indicator (days hours : list Z) (r : R) :
  NoDup days -> NoDup hours ->
  (forall t, stamp r = Some t -> In (PyTime.dayofweek t) days /\ In (PyTime.hour t) hours) ->
  series_total
    (map (fun i => series_total
                     (map (fun h => if in_cell i h (stamp r) then weight r else 0) hours))
         days)
  = match stamp r with Some _ => weight r | None => 0 end.
Proof.
  intros Hd Hh Hcov. destruct (stamp r) as [t|] eqn:Es.
  - destruct (Hcov t eq_refl) as [Hday Hhour].
    rewrite (map_ext _ (fun i => if PyTime.dayofweek t =? i then weight r else 0)).
    + apply sum_indicator; assumption.
    + intros i. simpl. destruct (PyTime.dayofweek t =? i); simpl.
      * apply sum_indicator; assumption.
      * apply sum_zero.
  - simpl. rewrite (map_ext _ (fun _ => 0)); [apply sum_zero|].
    intros i. apply sum_zero.
Qed.

Lemma cells_total (days hours : list Z) (rows : list R) :
  NoDup days -> NoDup hours ->
  (forall r t, In r rows -> stamp r = Some t ->
               In (PyTime.dayofweek t) days /\ In (PyTime.hour t) hours) ->
  series_total (map (fun i => series_total (map (fun h => cell_weight stamp weight rows i h) hours)) days)
  = series_total
      (map weight (filter (fun r => match stamp r with Some _ => true | None => false end) rows)).
Proof.
  intros Hd Hh. induction rows as [|r rows IH]; intros Hcov.
  - unfold cell_weight. simpl. rewrite (map_ext _ (fun _ => 0)); [apply sum_zero|].
    intros i. apply sum_zero.
  - rewrite (map_ext _ (fun i =>
       series_total (map (fun h => if in_cell i h (stamp r) then weight r else 0) hours)
       + series_total (map (fun h => cell_weight stamp weight rows i h) hours))).
    2:{ intros i. rewrite <- sum_add. f_equal. apply map_ext. intros h.
        apply cell_weight_cons. }
    rewrite sum_add.
    rewrite IH by (intros r' t Hin; apply Hcov; right; exact Hin).
    rewrite in_cell_indicator; try assumption.
    2:{ intros t. apply Hcov. left. reflexivity. }
    simpl. destruct (stamp r); simpl; unfold series_total; simpl; lia.
Qed.

End Weighted.

Lemma sum_present_weight {A : Type} (rows : list (A * option Z)) :
  sum_present (map snd rows) = series_total (map (fun r => val (snd r)) rows).
Proof.
  induction rows as [|[a [v|]] rows IH]; simpl; unfold series_total in *; simpl; lia.
Qed.

Lemma length_weight {A : Type} (rows : list A) :
  Z.of_nat (List.length rows) = series_total (map (fun _ => 1) rows).
Proof.
  induction rows as [|a rows IH]; [reflexivity|].
  cbn [List.length]. rewrite Nat2Z.inj_succ. unfold series_total in *.
  cbn [map fold_right]. lia.
Qed.

Lemma val_pivot_cell_bytes (ts : list (option PyTime.datetime)) (b : list (option Z)) (i h : Z) :
  val (pivot_cell ts (Some b) i h)
  = cell_weight fst (fun r => val (snd r)) (combine ts b) i h.
Proof.
  unfold pivot_cell, cell_weight. rewrite <- sum_present_weight.
  destruct (filter (fun tv => in_cell i h (fst tv)) (combine ts b)); reflexivity.
Qed.

Lemma val_pivot_cell_count (ts : list (option PyTime.datetime)) (i h : Z) :
  val (pivot_cell ts None i h) = cell_weight (fun t => t) (fun _ => 1) ts i h.
Proof.
  unfold pivot_cell, cell_weight.
  transitivity (series_total (map (fun _ : option PyTime.datetime => 1)
                                  (filter (in_cell i h) ts))); [|reflexivity].
  rewrite <- length_weight. destruct (filter (in_cell i h) ts); reflexivity.
Qed.

End HeatmapFacts.

Section Heatmap.

Import HeatmapFacts.
Open Scope Z_scope.

(** X13: The heat map has seven rows, labelled Monday to Sunday, and one
    column for every hour of day that occurs among the time stamps, in
    ascending order: the cell of day [i] in the [j]-th column belongs to
    the [j]-th hour that occurs, whereas the tick values are always the
    hours 0 to 23.  A cell holds the bytes (or, without a [bytes]
    column, the number) of the records of that day and hour and is
    missing when there is none; together the cells hold the bytes (the
    number) of the records that have a time stamp. *)
Theorem hourly_heatmap_has_a_column_per_hour_seen
    (df : DataFrame) (tcells : list value) (ts : list (option PyTime.datetime))
    (bytes : option (list (option Z))) :
  column "timestamp" df = Some tcells ->
  time_cells tcells = Some ts ->
  bytes_column df = Some bytes ->
  exists z div,
    create_hourly_heatmap df
    = Some (Heatmap z (map Z.of_nat (seq 0 24)) PyTime.day_names div) /\
    List.length z = 7%nat /\
    (forall row, In row z -> List.length row = List.length (pivot_hours ts)) /\
    StronglySorted Z.lt (pivot_hours ts) /\
    (forall h, In h (pivot_hours ts) <-> exists t, In (Some t) ts /\ PyTime.hour t = h) /\
    (forall i j h, (i < 7)%nat -> nth_error (pivot_hours ts) j = Some h ->
                   heatmap_cell z i j = Some (pivot_cell ts bytes (Z.of_nat i) h)) /\
    heatmap_total z
    = match bytes with
      | Some b => sum_present (stamped_values ts b)
      | None => Z.of_nat (count_present ts)
      end.
Proof.
  intros Ht Hts Hb.
  exists (map (fun i => map (fun h => pivot_cell ts bytes i h) (pivot_hours ts))
              (map Z.of_nat (seq 0 7))),
         (match bytes with Some _ => 1024 ^ 2 | None => 1 end).
  split.
  { unfold create_hourly_heatmap. rewrite (column_some_has_column _ _ _ Ht).
    cbn [negb]. rewrite Ht. cbn [option_bind]. rewrite Hts. cbn [option_bind].
    rewrite Hb. reflexivity. }
  split; [reflexivity|].
  split.
  { intros row Hin. apply in_map_iff in Hin. destruct Hin as [i [E _]]. subst row.
    apply length_map. }
  split; [apply pivot_hours_sorted|].
  split; [apply pivot_hours_in|].
  split.
  { intros i j h Hi Hj. unfold heatmap_cell.
    rewrite map_map. rewrite nth_error_map.
    rewrite nth_error_seq. apply Nat.ltb_lt in Hi. rewrite Hi. cbn [option_map Nat.add].
    rewrite nth_error_map, Hj. reflexivity. }
  assert (Hcov : forall t, In (Some t) ts ->
                           In (PyTime.dayofweek t) (map Z.of_nat (seq 0 7)) /\
                           In (PyTime.hour t) (pivot_hours ts)).
  { intros t Hin. split; [apply dayofweek_range|]. apply pivot_hours_in. eauto. }
  unfold heatmap_total. rewrite map_map.
  destruct bytes as [b|].
  - rewrite (map_ext _ (fun i => series_total
                (map (fun h => cell_weight fst (fun r => val (snd r)) (combine ts b) i h)
                     (pivot_hours ts)))).
    2:{ intros i. rewrite map_map. f_equal. apply map_ext. intros h.
        apply val_pivot_cell_bytes. }
    rewrite cells_total.
    + unfold stamped_values. rewrite sum_present_weight. reflexivity.
    + apply days_nodup.
    + apply lt_sorted_nodup, pivot_hours_sorted.
    + intros [ot v] t Hin E. simpl in E. subst ot. apply in_combine_l in Hin. auto.
  - rewrite (map_ext _ (fun i => series_total
                (map (fun h => cell_weight (fun t => t) (fun _ => 1) ts i h)
                     (pivot_hours ts)))).
    2:{ intros i. rewrite map_map. f_equal. apply map_ext. intros h.
        apply val_pivot_cell_count. }
    rewrite cells_total.
    + unfold count_present. rewrite length_weight. reflexivity.
    + apply days_nodup.
    + apply lt_sorted_nodup, pivot_hours_sorted.
    + intros ot t Hin E. subst ot. auto.
Qed.

End Heatmap.

Lemma hourly_heatmap_has_a_column_per_hour_seen_witness :
  exists z div,
    create_hourly_heatmap traffic_frame
    = Some (Heatmap z (map Z.of_nat (seq 0 24)) PyTime.day_names div) /\
    heatmap_cell z 4 1 = Some (Some 300%Z) /\
    heatmap_total z = 900%Z.
Proof.
  destruct (hourly_heatmap_has_a_column_per_hour_seen
              traffic_frame
              [VTime (PyTime.DateTime 2023 10 2 9 0 0);
               VTime (PyTime.DateTime 2023 10 2 9 30 0);
               VTime (PyTime.DateTime 2023 10 6 17 0 0)]
              [Some (PyTime.DateTime 2023 10 2 9 0 0);
               Some (PyTime.DateTime 2023 10 2 9 30 0);
               Some (PyTime.DateTime 2023 10 6 17 0 0)]
              (Some [Some 100%Z; Some 500%Z; Some 300%Z])
              eq_refl eq_refl eq_refl)
    as (z & div & Hmap & _ & _ & _ & _ & Hcell & Htotal).
  exists z, div. split; [exact Hmap|]. split.
  - apply (Hcell 4%nat 1%nat 17%Z); [lia | reflexivity].
  - rewrite Htotal. reflexivity.
Defined.

(** ** The frames of the key-value and the whitespace detector *)

Module ShapeFacts.

Lemma normalize_char_normal (c : ascii) :
  is_normal_char (if (PyStr.lower_char c =? "-")%char then "_"%char else PyStr.lower_char c)
  = true.
Proof.
  destruct c as [b0 b1 b2 b3 b4 b5 b6 b7].
  destruct b0, b1, b2, b3, b4, b5, b6, b7; vm_compute; reflexivity.
Qed.

Lemma normalize_key_normalized (key : string) : normalized (normalize_key key) = true.
Proof.
  unfold normalized, normalize_key, PyStr.replace, PyStr.lower.
  induction key as [|c key IH]; [reflexivity|].
  cbn [PyStr.map_chars all_chars]. rewrite normalize_char_normal, IH. reflexivity.
Qed.

Lemma all_chars_lstrip_by (p q : ascii -> bool) (s : string) :
  all_chars p s = true -> all_chars p (PyStr.lstrip_by q s) = true.
Proof.
  induction s as [|c s IH]; simpl; [reflexivity|].
  intros H. apply andb_true_iff in H. destruct H as [Hc Hs].
  destruct (q c); [apply IH; exact Hs|]. simpl. rewrite Hc, Hs. reflexivity.
Qed.

Lemma all_chars_rstrip_by (p q : ascii -> bool) (s : string) :
  all_chars p s = true -> all_chars p (PyStr.rstrip_by q s) = true.
Proof.
  induction s as [|c s IH]; simpl; [reflexivity|].
  intros H. apply andb_true_iff in H. destruct H as [Hc Hs]. specialize (IH Hs).
  destruct (PyStr.rstrip_by q s) as [|c' r].
  - destruct (q c); simpl; [reflexivity|]. rewrite Hc. reflexivity.
  - cbn [all_chars]. rewrite Hc. exact IH.
Qed.

Lemma strip_char_normalized (a : ascii) (s : string) :
  normalized s = true -> normalized (PyStr.strip_char a s) = true.
Proof.
  unfold normalized, PyStr.strip_char. intros H.
  apply all_chars_rstrip_by, all_chars_lstrip_by. exact H.
Qed.

Lemma dict_set_keys (k : string) (v : value) (d : dict) :
  normalized k = true -> normal_names (map fst d) -> normal_names (map fst (dict_set k v d)).
Proof.
  unfold normal_names. intros Hk. induction d as [|[k' v'] d IH]; simpl; intros H.
  - constructor; [exact Hk | constructor].
  - inversion H; subst. destruct (String.eqb k' k); simpl; constructor; auto.
Qed.

Lemma store_pairs_keys (pairs : list (list string)) (d : dict) :
  normal_names (map fst d) -> normal_names (map fst (store_pairs pairs d)).
Proof.
  revert d. induction pairs as [|g pairs IH]; intros d H; simpl; [exact H|].
  destruct g as [|key [|value [|x g]]]; try (apply IH; exact H).
  apply IH. apply dict_set_keys; [apply normalize_key_normalized | exact H].
Qed.

Lemma kv_line_data_keys (line : string) : normal_names (map fst (kv_line_data line)).
Proof.
  unfold kv_line_data. apply store_pairs_keys.
  destruct (extract_timestamp timestamp_patterns line); simpl.
  - constructor; [reflexivity | constructor].
  - constructor.
Qed.

Lemma add_new_in (k x : string) (ks : list string) :
  In x (add_new k ks) <-> x = k \/ In x ks.
Proof.
  induction ks as [|k' ks IH]; simpl.
  - intuition.
  - destruct (String.eqb_spec k' k); simpl.
    + subst. intuition.
    + rewrite IH. intuition.
Qed.

Lemma add_new_nodup (k : string) (ks : list string) : NoDup ks -> NoDup (add_new k ks).
Proof.
  induction ks as [|k' ks IH]; simpl; intros H.
  - constructor; [intros [] | constructor].
  - destruct (String.eqb_spec k' k); [exact H|].
    inversion H; subst. constructor; [|auto].
    intros Hin. apply add_new_in in Hin. destruct Hin as [E|Hin]; [congruence | contradiction].
Qed.

Lemma dict_keys_fold (d : dict) (ks : list string) :
  NoDup ks ->
  NoDup (fold_left (fun ks' kv => add_new (fst kv) ks') d ks) /\
  (forall x, In x (fold_left (fun ks' (kv : string * value) => add_new (fst kv) ks') d ks)
             <-> In x ks \/ In x (map fst d)).
Proof.
  revert ks. induction d as [|[k v] d IH]; intros ks H; simpl.
  - split; [exact H|]. intuition.
  - destruct (IH (add_new k ks) (add_new_nodup k ks H)) as [Hn Hi].
    split; [exact Hn|]. intros x. rewrite Hi, add_new_in. intuition.
Qed.

Lemma keys_fold (data : list dict) (ks : list string) :
  NoDup ks ->
  NoDup (fold_left (fun ks d => fold_left (fun ks' (kv : string * value) => add_new (fst kv) ks') d ks)
                   data ks) /\
  (forall x, In x (fold_left (fun ks d =>
                                fold_left (fun ks' (kv : string * value) => add_new (fst kv) ks') d ks)
                             data ks)
             <-> In x ks \/ exists d, In d data /\ In x (map fst d)).
Proof.
  revert ks. induction data as [|d data IH]; intros ks H; simpl.
  - split; [exact H|]. intros x. split; [auto|]. intros [Hx|[d [[] _]]]. exact Hx.
  - destruct (dict_keys_fold d ks H) as [Hn Hi].
    destruct (IH _ Hn) as [Hn' Hi']. split; [exact Hn'|].
    intros x. rewrite Hi', Hi. split.
    + intros [[Hx|Hx]|[d' [Hd Hx]]]; eauto.
    + intros [Hx|[d' [[E|Hd] Hx]]]; subst; eauto.
Qed.

Lemma keys_union_nodup (data : list dict) : NoDup (keys_union data).
Proof. apply keys_fold. constructor. Qed.

Lemma keys_union_in (data : list dict) (x : string) :
  In x (keys_union data) <-> exists d, In d data /\ In x (map fst d).
Proof.
  unfold keys_union. rewrite (proj2 (keys_fold data [] (NoDup_nil _))).
  split; [intros [[]|H]; exact H | auto].
Qed.

Lemma colnames_of_dicts (data : list dict) :
  colnames (DataFrame_of_dicts data) = keys_union data.
Proof.
  unfold colnames, DataFrame_of_dicts. simpl. rewrite map_map. simpl. apply map_id.
Qed.

Lemma map_fst_assoc_set {A : Type} (c : string) (v : A) (l : list (string * A)) :
  map fst (assoc_set c v l)
  = if existsb (String.eqb c) (map fst l) then map fst l else map fst l ++ [c].
Proof.
  induction l as [|[k w] l IH]; simpl; [reflexivity|].
  rewrite (String.eqb_sym c k).
  destruct (String.eqb_spec k c); simpl.
  - subst. reflexivity.
  - rewrite IH. destruct (existsb (String.eqb c) (map fst l)); reflexivity.
Qed.

Lemma colnames_set_column (c : string) (cells : list value) (df : DataFrame) :
  colnames (set_column c cells df)
  = if has_column c df then colnames df else colnames df ++ [c].
Proof. unfold colnames, set_column, has_column, colnames. simpl. apply map_fst_assoc_set. Qed.

Lemma colnames_drop_column (c : string) (df : DataFrame) :
  colnames (drop_column c df) = filter (fun k => negb (String.eqb k c)) (colnames df).
Proof.
  unfold colnames, drop_column. simpl.
  induction (columns df) as [|[k w] l IH]; simpl; [reflexivity|].
  destruct (String.eqb k c); simpl; rewrite IH; reflexivity.
Qed.

Section Frames.

Context {P : Pandas}.

Lemma coerce_column_shape (f : list value -> option (list value)) (c : string)
    (df df' : DataFrame) :
  coerce_column f c df = Some df' -> nrows df' = nrows df /\ colnames df' = colnames df.
Proof.
  unfold coerce_column. destruct (column c df) as [cells|] eqn:E.
  - destruct (f cells); [|discriminate]. intros H. inversion H; subst.
    split; [reflexivity|]. rewrite colnames_set_column.
    rewrite (column_some_has_column _ _ _ E). reflexivity.
  - intros H. inversion H; subst. auto.
Qed.

Lemma coerce_columns_shape (f : list value -> option (list value)) (cs : list string)
    (df df' : DataFrame) :
  coerce_columns f cs df = Some df' -> nrows df' = nrows df /\ colnames df' = colnames df.
Proof.
  revert df. induction cs as [|c cs IH]; intros df; simpl.
  - intros H. inversion H; subst. auto.
  - destruct (coerce_column f c df) as [df1|] eqn:E; [|discriminate].
    intros H. destruct (coerce_column_shape _ _ _ _ E) as [H1 H2].
    destruct (IH _ H) as [H3 H4]. split; congruence.
Qed.

Lemma rename_synonym_shape (old_col new_col : string) (df : DataFrame) :
  normalized new_col = true -> old_col <> new_col ->
  NoDup (colnames df) -> normal_names (colnames df) -> colnames df <> [] ->
  nrows (rename_synonym old_col new_col df) = nrows df /\
  NoDup (colnames (rename_synonym old_col new_col df)) /\
  normal_names (colnames (rename_synonym old_col new_col df)) /\
  colnames (rename_synonym old_col new_col df) <> [].
Proof.
  intros Hn Hne Hd Hk Hc. unfold rename_synonym.
  destruct (has_column old_col df) eqn:Ho; simpl; [|auto].
  destruct (has_column new_col df) eqn:Hnew; simpl; [auto|].
  destruct (column old_col df) as [cells|]; [|auto].
  split; [reflexivity|].
  rewrite colnames_drop_column, colnames_set_column, Hnew.
  split; [|split]; [| |
    intros E;
    assert (Hin : In new_col (filter (fun k => negb (String.eqb k old_col))
                                     (colnames df ++ [new_col])));
    [ apply filter_In; split; [apply in_or_app; right; left; reflexivity|];
      apply negb_true_iff; apply String.eqb_neq; congruence
    | rewrite E in Hin; destruct Hin ] ].
  - apply NoDup_filter. apply NoDup_app; [exact Hd | constructor; [intros []|constructor] |].
    intros x Hx [E|[]]. subst x.
    unfold has_column in Hnew.
    assert (existsb (String.eqb new_col) (colnames df) = true); [|congruence].
    apply existsb_exists. exists new_col. split; [exact Hx | apply String.eqb_refl].
  - unfold normal_names in *. rewrite Forall_forall in *. intros x Hx.
    apply filter_In in Hx. destruct Hx as [Hx _]. apply in_app_or in Hx.
    destruct Hx as [Hx|[E|[]]]; [auto | subst; exact Hn].
Qed.

Lemma standardize_columns_shape (df : DataFrame) :
  NoDup (colnames df) -> normal_names (colnames df) -> colnames df <> [] ->
  nrows (standardize_columns df) = nrows df /\
  NoDup (colnames (standardize_columns df)) /\
  normal_names (colnames (standardize_columns df)) /\
  colnames (standardize_columns df) <> [].
Proof.
  intros Hd Hk Hc. unfold standardize_columns, col_mapping. cbn [fold_left fst snd].
  destruct (rename_synonym_shape "source_ip" "src_ip" df eq_refl ltac:(discriminate) Hd Hk Hc)
    as (R1 & D1 & K1 & C1).
  destruct (rename_synonym_shape "destination_ip" "dst_ip" _ eq_refl ltac:(discriminate)
              D1 K1 C1) as (R2 & D2 & K2 & C2).
  destruct (rename_synonym_shape "source_port" "src_port" _ eq_refl ltac:(discriminate)
              D2 K2 C2) as (R3 & D3 & K3 & C3).
  destruct (rename_synonym_shape "destination_port" "dst_port" _ eq_refl ltac:(discriminate)
              D3 K3 C3) as (R4 & D4 & K4 & C4).
  split; [congruence|]. repeat split; assumption.
Qed.

Lemma dicts_frame_shape (data : list dict) :
  (forall d, In d data -> normal_names (map fst d)) ->
  NoDup (colnames (DataFrame_of_dicts data)) /\
  normal_names (colnames (DataFrame_of_dicts data)).
Proof.
  intros H. rewrite colnames_of_dicts. split; [apply keys_union_nodup|].
  unfold normal_names. rewrite Forall_forall. intros x Hx.
  apply keys_union_in in Hx. destruct Hx as [d [Hd Hx]].
  specialize (H d Hd). unfold normal_names in H. rewrite Forall_forall in H. auto.
Qed.

Lemma dicts_frame_columns (d : dict) (data : list dict) :
  In d data -> d <> [] -> colnames (DataFrame_of_dicts data) <> [].
Proof.
  intros Hin Hne E. rewrite colnames_of_dicts in E.
  destruct d as [|[k v] d]; [congruence|].
  assert (Hk : In k (keys_union data)).
  { apply keys_union_in. exists ((k, v) :: d). split; [exact Hin | left; reflexivity]. }
  rewrite E in Hk. destruct Hk.
Qed.

Lemma filtered_nonempty (d : dict) (ds : list dict) :
  In d (filter (fun line_data : dict => match line_data with [] => false | _ => true end) ds) ->
  d <> [].
Proof. intros Hin. apply filter_In in Hin. destruct Hin as [_ H]. destruct d; [discriminate|congruence]. Qed.

Lemma filter_map_length {A B : Type} (p : B -> bool) (f : A -> B) (l : list A) :
  (List.length (filter p (map f l)) <= List.length l)%nat.
Proof.
  induction l as [|a l IH]; simpl; [lia|]. destruct (p (f a)); simpl; lia.
Qed.

Lemma store_columns_keys (parts : list string) (d : dict) :
  normal_names (map fst d) -> normal_names (map fst (store_columns parts d)).
Proof.
  revert d. induction parts as [parts IH] using (well_founded_induction
    (well_founded_ltof _ (@List.length string))).
  intros d H. destruct parts as [|key [|value parts]]; simpl; try exact H.
  apply IH; [unfold ltof; simpl; lia|].
  apply dict_set_keys; [|exact H].
  apply strip_char_normalized, normalize_key_normalized.
Qed.

Lemma ws_line_data_keys (line : string) : normal_names (map fst (ws_line_data line)).
Proof.
  unfold ws_line_data.
  destruct (to_datetime_str (PyStr.join " " (firstn 2 (PyStr.split_ws (PyStr.strip line))))).
  - apply store_columns_keys. simpl. constructor; [reflexivity | constructor].
  - apply store_columns_keys. constructor.
Qed.

Lemma kv_detector_shape (lines : list string) (df : DataFrame) (log : list log_event) :
  kv_detector lines = (Won df, log) ->
  (0 < nrows df <= List.length lines)%nat /\
  log = [InfoParsedKeyValue (nrows df)] /\
  NoDup (colnames df) /\ normal_names (colnames df) /\ colnames df <> [].
Proof.
  unfold kv_detector. destruct (kv_data lines) as [|d data] eqn:Ed; [discriminate|].
  destruct (kv_frame (d :: data)) as [df0|] eqn:Ef; [|discriminate].
  intros H. inversion H; subst df0 log. clear H.
  unfold kv_frame in Ef.
  destruct (coerce_column to_numeric "bytes" (DataFrame_of_dicts (d :: data)))
    as [df1|] eqn:E1; [|discriminate].
  destruct (coerce_columns to_numeric _ df1) as [df2|] eqn:E2; [|discriminate].
  inversion Ef; subst df. clear Ef.
  destruct (coerce_column_shape _ _ _ _ E1) as [R1 C1].
  destruct (coerce_columns_shape _ _ _ _ E2) as [R2 C2].
  destruct (dicts_frame_shape (d :: data)) as [Hd Hk].
  { intros d' Hin. rewrite <- Ed in Hin. unfold kv_data in Hin.
    apply filter_In in Hin. destruct Hin as [Hin _]. apply in_map_iff in Hin.
    destruct Hin as [line [E _]]. subst d'. apply kv_line_data_keys. }
  assert (Hc : colnames (DataFrame_of_dicts (d :: data)) <> []).
  { apply (dicts_frame_columns d); [left; reflexivity|].
    apply (filtered_nonempty d (map kv_line_data lines)).
    change (In d (kv_data lines)). rewrite Ed. left. reflexivity. }
  rewrite <- C1, <- C2 in Hd, Hk, Hc.
  destruct (standardize_columns_shape df2 Hd Hk Hc) as (R3 & D3 & K3 & C3).
  assert (Hrows : nrows (standardize_columns df2) = List.length (d :: data)).
  { rewrite R3, R2, R1. reflexivity. }
  rewrite Hrows. split; [|auto].
  split; [simpl; lia|]. rewrite <- Ed. unfold kv_data. apply filter_map_length.
Qed.

Lemma ws_detector_shape (lines : list string) (df : DataFrame) (log : list log_event) :
  ws_detector lines = (Won df, log) ->
  (0 < nrows df <= List.length lines)%nat /\
  log = [InfoParsedSpaceDelimited (nrows df)] /\
  NoDup (colnames df) /\ normal_names (colnames df) /\ colnames df <> [].
Proof.
  unfold ws_detector. destruct (potential_headers lines); [discriminate|].
  destruct (ws_data lines) as [|d data] eqn:Ed; [discriminate|].
  destruct (ws_frame (d :: data)) as [df0|] eqn:Ef; [|discriminate].
  intros H. inversion H; subst df0 log. clear H.
  unfold ws_frame in Ef.
  destruct (coerce_columns_shape _ _ _ _ Ef) as [R1 C1].
  destruct (dicts_frame_shape (d :: data)) as [Hd Hk].
  { intros d' Hin. rewrite <- Ed in Hin. unfold ws_data in Hin.
    apply filter_In in Hin. destruct Hin as [Hin _]. apply in_map_iff in Hin.
    destruct Hin as [line [E _]]. subst d'. apply ws_line_data_keys. }
  assert (Hc : colnames (DataFrame_of_dicts (d :: data)) <> []).
  { apply (dicts_frame_columns d); [left; reflexivity|].
    apply (filtered_nonempty d (map ws_line_data lines)).
    change (In d (ws_data lines)). rewrite Ed. left. reflexivity. }
  rewrite <- C1 in Hd, Hk, Hc.
  assert (Hrows : nrows df = List.length (d :: data)) by (rewrite R1; reflexivity).
  rewrite Hrows. split; [|auto].
  split; [simpl; lia|]. rewrite <- Ed. unfold ws_data. apply filter_map_length.
Qed.

End Frames.

End ShapeFacts.

Section ParsedFrames.

Context {P : Pandas}.
Import ShapeFacts.

(** X14: When the table reader gives way, a frame returned by
    [parse_mikrotik_logs] comes from the key-value or the whitespace
    detector: it has at least one record and at most one for each
    non-blank, non-comment line, the number of records is the one
    logged, it has at least one column, and its column names are
    distinct and hold neither an upper-case letter nor a hyphen.  Such a
    frame is never empty, so the upload handler of [app.py] takes it. *)
Theorem parsed_records_and_column_names_without_table_reader
    (log_content : string) (df : DataFrame) (log : list log_event) :
  won (csv_detector log_content) = false ->
  parse_mikrotik_logs log_content = (Some df, log) ->
  (0 < nrows df <= List.length (filter_lines log_content))%nat /\
  (In (InfoParsedKeyValue (nrows df)) log \/ In (InfoParsedSpaceDelimited (nrows df)) log) /\
  NoDup (colnames df) /\
  Forall (fun c => normalized c = true) (colnames df) /\
  colnames df <> [] /\
  upload_accepted (Some df) = true.
Proof.
  intros Hc Hp.
  assert (Hmain :
    (0 < nrows df <= List.length (filter_lines log_content))%nat /\
    (In (InfoParsedKeyValue (nrows df)) log \/ In (InfoParsedSpaceDelimited (nrows df)) log) /\
    NoDup (colnames df) /\ normal_names (colnames df) /\ colnames df <> []).
  { unfold parse_mikrotik_logs in Hp.
    destruct (filter_lines log_content) as [|l ls] eqn:El; [discriminate|].
    destruct (csv_detector log_content) as [a l1]. unfold won in Hc. simpl in Hc.
    destruct (kv_detector (l :: ls)) as [b l2] eqn:Ek.
    destruct (ws_detector (l :: ls)) as [c l3] eqn:Ew.
    assert (Hkv : forall df', b = Won df' ->
              (0 < nrows df' <= List.length (l :: ls))%nat /\
              l2 = [InfoParsedKeyValue (nrows df')] /\
              NoDup (colnames df') /\ normal_names (colnames df') /\ colnames df' <> []).
    { intros df' E. subst b. apply (kv_detector_shape _ _ _ Ek). }
    assert (Hws : forall df', c = Won df' ->
              (0 < nrows df' <= List.length (l :: ls))%nat /\
              l3 = [InfoParsedSpaceDelimited (nrows df')] /\
              NoDup (colnames df') /\ normal_names (colnames df') /\ colnames df' <> []).
    { intros df' E. subst c. apply (ws_detector_shape _ _ _ Ew). }
    destruct a as [df0| |]; [discriminate| |];
      (destruct b as [df1| |];
       [ inversion Hp; subst; destruct (Hkv _ eq_refl) as (H1 & H2 & H3 & H4 & H5);
         split; [exact H1|]; split; [|repeat split; assumption];
         left; apply in_or_app; right; rewrite H2; left; reflexivity
       | destruct c as [df2| |]; [|discriminate|discriminate];
         inversion Hp; subst; destruct (Hws _ eq_refl) as (H1 & H2 & H3 & H4 & H5);
         split; [exact H1|]; split; [|repeat split; assumption];
         right; apply in_or_app; right; apply in_or_app; right; rewrite H2; left; reflexivity
       | destruct c as [df2| |]; [|discriminate|discriminate];
         inversion Hp; subst; destruct (Hws _ eq_refl) as (H1 & H2 & H3 & H4 & H5);
         split; [exact H1|]; split; [|repeat split; assumption];
         right; apply in_or_app; right; apply in_or_app; right; rewrite H2; left; reflexivity ]). }
  destruct Hmain as (H1 & H2 & H3 & H4 & H5).
  split; [exact H1|]. split; [exact H2|]. split; [exact H3|]. split; [exact H4|].
  split; [exact H5|].
  unfold upload_accepted, df_empty.
  destruct (nrows df) as [|n]; [lia|]. destruct (colnames df); [congruence | reflexivity].
Qed.

End ParsedFrames.

Lemma parsed_records_and_column_names_without_table_reader_witness :
  exists df log,
    parse_mikrotik_logs kv_text = (Some df, log) /\
    (0 < nrows df <= 3)%nat /\
    NoDup (colnames df) /\
    upload_accepted (Some df) = true.
Proof.
  destruct (parse_mikrotik_logs kv_text) as [[df|] log] eqn:Hp;
    [|vm_compute in Hp; discriminate].
  exists df, log. split; [reflexivity|].
  assert (Hc : won (csv_detector kv_text) = false) by (vm_compute; reflexivity).
  destruct (parsed_records_and_column_names_without_table_reader kv_text df log
              Hc Hp) as (Hrows & _ & Hnames & _ & _ & Hup).
  split; [exact Hrows|]. split; [exact Hnames | exact Hup].
Defined.

(** ** The frame of the table reader *)

Section TableFrames.

Context {P : Pandas}.

Lemma column_drop_column_other (c c' : string) (df : DataFrame) :
  c <> c' -> column c (drop_column c' df) = column c df.
Proof.
  intros Hne. unfold column, drop_column. simpl.
  induction (columns df) as [|[k w] l IH]; simpl; [reflexivity|].
  destruct (String.eqb_spec k c'); simpl.
  - subst k. destruct (String.eqb_spec c' c); [congruence | exact IH].
  - destruct (String.eqb k c); [reflexivity | exact IH].
Qed.

(** X15: A frame returned by the table reader is the frame [read_csv] gave
    but for the time column: a [timestamp] column is converted in place;
    without one, a [time] column is converted, stored as [timestamp] and
    dropped; a [time] column next to a [timestamp] column stays as it
    was.  The number of records and every other column are unchanged:
    no column is renamed or made numeric on this path. *)
Theorem table_reader_changes_only_the_time_column
    (log_content : string) (df' : DataFrame) (log : list log_event) :
  csv_detector log_content = (Won df', log) ->
  exists df,
    read_csv log_content = Some df /\
    log = [InfoParsedCsv] /\
    nrows df' = nrows df /\
    has_column "timestamp" df' = has_column "timestamp" df || has_column "time" df /\
    has_column "time" df' = has_column "time" df && has_column "timestamp" df /\
    (forall c, c <> "timestamp" -> c <> "time" -> column c df' = column c df) /\
    (forall cells, column "timestamp" df = Some cells ->
                   column "time" df' = column "time" df /\
                   exists cells', to_datetime cells = Some cells' /\
                                  column "timestamp" df' = Some cells') /\
    (forall cells, column "timestamp" df = None -> column "time" df = Some cells ->
                   exists cells', to_datetime cells = Some cells' /\
                                  column "timestamp" df' = Some cells').
Proof.
  unfold csv_detector. destruct (read_csv log_content) as [df|]; [|discriminate].
  destruct (convert_time_column df) as [df1|] eqn:Ec; [|discriminate].
  intros H. inversion H; subst df1 log. clear H.
  exists df. split; [reflexivity|]. split; [reflexivity|].
  unfold convert_time_column in Ec.
  destruct (has_column "timestamp" df) eqn:Hts.
  - destruct (has_column_column_some _ _ Hts) as [cells Hcells]. rewrite Hcells in Ec.
    destruct (to_datetime cells) as [cells'|] eqn:Et; [|discriminate].
    inversion Ec; subst df'. clear Ec.
    split; [reflexivity|]. rewrite !has_column_set_column, Hts. simpl.
    split; [reflexivity|]. split; [rewrite orb_false_r, andb_true_r; reflexivity|].
    split; [intros c H1 H2; apply column_set_column_other; congruence|].
    split.
    + intros cells0 E. rewrite Hcells in E. inversion E; subst cells0.
      split; [apply column_set_column_other; discriminate|].
      exists cells'. split; [exact Et | apply column_set_column_same].
    + intros cells0 E. rewrite Hcells in E. discriminate.
  - assert (Hnone : column "timestamp" df = None).
    { destruct (column "timestamp" df) eqn:E; [|reflexivity].
      rewrite (column_some_has_column _ _ _ E) in Hts. discriminate. }
    destruct (has_column "time" df) eqn:Htm.
    + destruct (has_column_column_some _ _ Htm) as [cells Hcells]. rewrite Hcells in Ec.
      destruct (to_datetime cells) as [cells'|] eqn:Et; [|discriminate].
      inversion Ec; subst df'. clear Ec.
      split; [reflexivity|].
      rewrite !has_column_drop_column, !has_column_set_column, Hts, Htm. simpl.
      split; [reflexivity|]. split; [reflexivity|].
      split.
      { intros c H1 H2. rewrite column_drop_column_other by congruence.
        apply column_set_column_other; congruence. }
      split.
      * intros cells0 E. rewrite Hnone in E. discriminate.
      * intros cells0 _ E. rewrite Hcells in E. inversion E; subst cells0.
        exists cells'. split; [exact Et|].
        rewrite column_drop_column_other by discriminate. apply column_set_column_same.
    + inversion Ec; subst df'. clear Ec.
      split; [reflexivity|]. rewrite Hts, Htm. simpl.
      split; [reflexivity|]. split; [reflexivity|].
      split; [reflexivity|].
      split.
      * intros cells0 E. rewrite Hnone in E. discriminate.
      * intros cells0 _ E. apply column_some_has_column in E. congruence.
Qed.

End TableFrames.

Lemma table_reader_changes_only_the_time_column_witness :
  exists df' log,
    csv_detector csv_time_text = (Won df', log) /\
    has_column "timestamp" df' = true /\
    has_column "time" df' = false /\
    column "bytes" df' = Some [VNum 1000].
Proof.
  destruct (csv_detector csv_time_text) as [[df'| |] log] eqn:Hc;
    try (vm_compute in Hc; discriminate).
  exists df', log. split; [reflexivity|].
  destruct (table_reader_changes_only_the_time_column csv_time_text df' log Hc)
    as (df & Hr & _ & _ & Hts & Htm & Hother & _).
  assert (E : df = mkDataFrame 1 [("time", [VStr "2023-10-05 08:23:45"]);
                                  ("bytes", [VNum 1000])]).
  { vm_compute in Hr. inversion Hr. reflexivity. }
  subst df. split; [exact Hts|]. split; [exact Htm|].
  rewrite Hother by discriminate. reflexivity.
Defined.

(** ** A time stamp at the start of a line *)

Module StampFacts.
Import Re PyTime ReFacts.

Lemma match_heads (r : regex) (s : string) (m : mres) : match_ r s = Some m -> heads r s m.
Proof.
  unfold match_, heads. destruct (rmatch r s) as [|m' tl]; simpl; [discriminate|].
  intros H. inversion H; subst. eauto.
Qed.

Lemma search_at_start (r : regex) (s : string) (m : mres) :
  match_ r s = Some m -> search r s = Some m.
Proof. intros H. destruct s; simpl; rewrite H; reflexivity. Qed.

Lemma digit_char (k : nat) :
  (k < 10)%nat ->
  PyStr.is_digit (ascii_of_nat (48 + k)) = true /\
  PyStr.is_space (ascii_of_nat (48 + k)) = false.
Proof. intros H. do 10 (destruct k as [|k]; [split; reflexivity|]). lia. Qed.

Lemma pad2_chars (n : Z) :
  exists a b, pad2 n = String a (String b EmptyString) /\
              PyStr.is_digit a = true /\ PyStr.is_digit b = true /\
              PyStr.is_space a = false.
Proof.
  unfold pad2. eexists. eexists. split; [reflexivity|].
  pose proof (Z.mod_pos_bound (n / 10) 10 ltac:(lia)).
  pose proof (Z.mod_pos_bound n 10 ltac:(lia)).
  destruct (digit_char (Z.to_nat ((n / 10) mod 10)) ltac:(lia)) as [H1 H2].
  destruct (digit_char (Z.to_nat (n mod 10)) ltac:(lia)) as [H3 _].
  auto.
Qed.

Lemma pad2_digits (n : Z) : all_chars PyStr.is_digit (pad2 n) = true.
Proof.
  destruct (pad2_chars n) as (a & b & E & Ha & Hb & _). rewrite E. simpl.
  rewrite Ha, Hb. reflexivity.
Qed.

Lemma pad2_length (n : Z) : String.length (pad2 n) = 2%nat.
Proof. reflexivity. Qed.

Lemma pad4_digits (n : Z) : all_chars PyStr.is_digit (pad4 n) = true.
Proof. unfold pad4. rewrite KvFacts.all_chars_append, !pad2_digits. reflexivity. Qed.

Lemma pad4_length (n : Z) : String.length (pad4 n) = 4%nat.
Proof. unfold pad4. rewrite length_append, !pad2_length. reflexivity. Qed.

Lemma pad2_stops_space (n : Z) (r : string) : stops PyStr.is_space (pad2 n ++ r).
Proof.
  destruct (pad2_chars n) as (a & b & E & _ & _ & Ha). rewrite E. simpl. exact Ha.
Qed.

Lemma rep_splits_exact (cls : ascii -> bool) (p r : string) :
  all_chars cls p = true ->
  exists tl, rep_splits cls (String.length p) (p ++ r) = (p, r) :: tl.
Proof.
  induction p as [|c p IH]; intros Hp.
  - simpl. eexists; reflexivity.
  - simpl in Hp. apply andb_true_iff in Hp. destruct Hp as [Hc Hp].
    simpl. rewrite Hc. destruct (IH Hp) as [tl Htl]. rewrite Htl. simpl.
    eexists; reflexivity.
Qed.

Lemma heads_rep_exact (cls : ascii -> bool) (n : nat) (p r : string) :
  all_chars cls p = true -> String.length p = n ->
  heads (Rep cls n (Some n)) (p ++ r) (MRes p [] r).
Proof.
  intros Hp Hn. subst n. unfold heads. simpl.
  destruct (rep_splits_exact cls p r Hp) as [tl Htl]. rewrite Htl. simpl.
  rewrite Nat.leb_refl. simpl. eexists; reflexivity.
Qed.

Lemma heads_digits2 (n : Z) (r : string) : heads (digit_n 2) (pad2 n ++ r) (MRes (pad2 n) [] r).
Proof. apply heads_rep_exact; [apply pad2_digits | apply pad2_length]. Qed.

Lemma heads_digits4 (n : Z) (r : string) : heads (digit_n 4) (pad4 n ++ r) (MRes (pad4 n) [] r).
Proof. apply heads_rep_exact; [apply pad4_digits | apply pad4_length]. Qed.

(** One step of a sequence: a piece, then the rest of the pattern. *)
Lemma heads_then (r1 r2 : regex) (p1 p2 s s2 : string) (g1 g2 : list string) :
  heads r1 (p1 ++ s) (MRes p1 g1 s) ->
  heads r2 s (MRes p2 g2 s2) ->
  heads (Cat r1 r2) (p1 ++ s) (MRes (p1 ++ p2) (g1 ++ g2) s2).
Proof. intros H1 H2. apply (heads_cat r1 r2 _ _ _ H1 H2). Qed.

Lemma heads_lit_then (c : ascii) (r2 : regex) (p2 s s2 : string) (g2 : list string) :
  heads r2 s (MRes p2 g2 s2) ->
  heads (Cat (Lit c) r2) (String c s) (MRes (String c p2) g2 s2).
Proof.
  intros H2. apply (heads_cat (Lit c) r2 (String c s) _ _ (heads_lit c s) H2).
Qed.

Lemma stamp_text_append (t : datetime) (r : string) :
  (stamp_text t ++ r)%string
  = (pad4 (year t) ++ String "-" (pad2 (month t) ++ String "-" (pad2 (day t) ++ String " "
      (pad2 (hour t) ++ String ":" (pad2 (minute t) ++ String ":" (pad2 (second t) ++ r))))))%string.
Proof.
  unfold stamp_text.
  repeat (rewrite KvFacts.append_assoc; cbn [append]). reflexivity.
Qed.

Lemma stamp_text_eq (t : datetime) :
  stamp_text t
  = (pad4 (year t) ++ String "-" (pad2 (month t) ++ String "-" (pad2 (day t) ++ String " "
      (pad2 (hour t) ++ String ":" (pad2 (minute t) ++ String ":" (pad2 (second t)))))))%string.
Proof. reflexivity. Qed.

Lemma digit_not_space (c : ascii) : PyStr.is_digit c = true -> PyStr.is_space c = false.
Proof.
  destruct c as [b0 b1 b2 b3 b4 b5 b6 b7].
  destruct b0, b1, b2, b3, b4, b5, b6, b7; vm_compute; intros H;
    first [reflexivity | discriminate H].
Qed.

Lemma digits_stop_space (p r : string) :
  all_chars PyStr.is_digit p = true -> String.length p = 2%nat ->
  stops PyStr.is_space (p ++ r).
Proof.
  destruct p as [|c p]; [discriminate|]. simpl. intros H _.
  apply andb_true_iff in H. apply digit_not_space. tauto.
Qed.

Lemma heads_blank_then (r2 : regex) (p2 s s2 : string) (g2 : list string) :
  stops PyStr.is_space s ->
  heads r2 s (MRes p2 g2 s2) ->
  heads (Cat spaces r2) (String " " s) (MRes (String " " p2) g2 s2).
Proof.
  intros Hs H2.
  assert (H1 : heads spaces (" " ++ s) (MRes " " [] s)).
  { apply (heads_rep_unbounded PyStr.is_space 1 " " s); [reflexivity | exact Hs | simpl; lia]. }
  apply (heads_cat spaces r2 _ _ _ H1 H2).
Qed.

(** The first pattern of line 52 at the start of a line that begins with
    such a text: the text, whatever follows. *)
Lemma first_pattern_general (Y Mo D h mi s r : string) :
  all_chars PyStr.is_digit Y = true -> String.length Y = 4%nat ->
  all_chars PyStr.is_digit Mo = true -> String.length Mo = 2%nat ->
  all_chars PyStr.is_digit D = true -> String.length D = 2%nat ->
  all_chars PyStr.is_digit h = true -> String.length h = 2%nat ->
  all_chars PyStr.is_digit mi = true -> String.length mi = 2%nat ->
  all_chars PyStr.is_digit s = true -> String.length s = 2%nat ->
  heads (Grp (cat_all ([digit_n 4; Lit "-"; digit_n 2; Lit "-"; digit_n 2; spaces]
                       ++ time_of_day)))
        (Y ++ String "-" (Mo ++ String "-" (D ++ String " "
           (h ++ String ":" (mi ++ String ":" (s ++ r))))))
        (MRes (Y ++ String "-" (Mo ++ String "-" (D ++ String " "
                 (h ++ String ":" (mi ++ String ":" s)))))
              [(Y ++ String "-" (Mo ++ String "-" (D ++ String " "
                 (h ++ String ":" (mi ++ String ":" s)))))%string]
              r).
Proof.
  intros HY1 HY2 HM1 HM2 HD1 HD2 Hh1 Hh2 Hm1 Hm2 Hs1 Hs2.
  cbn [cat_all app time_of_day].
  apply (heads_grp _ _ (MRes (Y ++ String "-" (Mo ++ String "-" (D ++ String " "
                                (h ++ String ":" (mi ++ String ":" s))))) [] r)).
  apply (heads_then _ _ Y _ _ _ [] []); [apply heads_rep_exact; assumption|].
  apply heads_lit_then.
  apply (heads_then _ _ Mo _ _ _ [] []); [apply heads_rep_exact; assumption|].
  apply heads_lit_then.
  apply (heads_then _ _ D _ _ _ [] []); [apply heads_rep_exact; assumption|].
  apply heads_blank_then; [apply digits_stop_space; assumption|].
  apply (heads_then _ _ h _ _ _ [] []); [apply heads_rep_exact; assumption|].
  apply heads_lit_then.
  apply (heads_then _ _ mi _ _ _ [] []); [apply heads_rep_exact; assumption|].
  apply heads_lit_then.
  apply heads_rep_exact; assumption.
Qed.

Lemma first_pattern_at_stamp (t : datetime) (r : string) :
  match_ (Grp (cat_all ([digit_n 4; Lit "-"; digit_n 2; Lit "-"; digit_n 2; spaces]
                        ++ time_of_day)))
         (stamp_text t ++ r)
  = Some (MRes (stamp_text t) [stamp_text t] r).
Proof.
  apply heads_match. rewrite stamp_text_append.
  exact (first_pattern_general
           (pad4 (year t)) (pad2 (month t)) (pad2 (day t))
           (pad2 (hour t)) (pad2 (minute t)) (pad2 (second t)) r
           (pad4_digits _) (pad4_length _) (pad2_digits _) (pad2_length _)
           (pad2_digits _) (pad2_length _) (pad2_digits _) (pad2_length _)
           (pad2_digits _) (pad2_length _) (pad2_digits _) (pad2_length _)).
Qed.

Lemma in_range_list (lo len : nat) (n : Z) :
  (Z.of_nat lo <= n < Z.of_nat (lo + len))%Z -> In n (map Z.of_nat (seq lo len)).
Proof.
  intros H. apply in_map_iff. exists (Z.to_nat n). split; [lia|]. apply in_seq. lia.
Qed.

Ltac by_cases n lo len :=
  let Hin := fresh "Hin" in
  assert (Hin : In n (map Z.of_nat (seq lo len))) by (apply in_range_list; simpl; lia);
  simpl in Hin;
  repeat (destruct Hin as [Hin|Hin]; [subst n; vm_compute; reflexivity|]);
  destruct Hin.

Lemma month_field (n : Z) (r : string) :
  (1 <= n <= 12)%Z ->
  match_ (directive_regex Dm) (pad2 n ++ r) = Some (MRes (pad2 n) [pad2 n] r).
Proof. intros H. by_cases n 1%nat 12%nat. Qed.

Lemma day_field (n : Z) (r : string) :
  (1 <= n <= 31)%Z ->
  match_ (directive_regex Dd) (pad2 n ++ r) = Some (MRes (pad2 n) [pad2 n] r).
Proof. intros H. by_cases n 1%nat 31%nat. Qed.

Lemma hour_field (n : Z) (r : string) :
  (0 <= n <= 23)%Z ->
  match_ (directive_regex DH) (pad2 n ++ r) = Some (MRes (pad2 n) [pad2 n] r).
Proof. intros H. by_cases n 0%nat 24%nat. Qed.

Lemma minute_field (n : Z) (r : string) :
  (0 <= n <= 59)%Z ->
  match_ (directive_regex DM) (pad2 n ++ r) = Some (MRes (pad2 n) [pad2 n] r).
Proof. intros H. by_cases n 0%nat 60%nat. Qed.

Lemma second_field (n : Z) (r : string) :
  (0 <= n <= 59)%Z ->
  match_ (directive_regex DS) (pad2 n ++ r) = Some (MRes (pad2 n) [pad2 n] r).
Proof. intros H. by_cases n 0%nat 60%nat. Qed.

Lemma year_field (n : Z) (r : string) :
  heads (directive_regex DY) (pad4 n ++ r) (MRes (pad4 n) [pad4 n] r).
Proof. apply (heads_grp _ _ (MRes (pad4 n) [] r)). apply heads_digits4. Qed.

Lemma heads_sign_then (c : ascii) (r2 : regex) (p2 s s2 : string) (g2 : list string) :
  heads r2 s (MRes p2 g2 s2) ->
  heads (Cat (word true (String c EmptyString)) r2) (String c s) (MRes (String c p2) g2 s2).
Proof.
  intros H2.
  assert (H1 : heads (word true (String c EmptyString)) (String c EmptyString ++ s)
                     (MRes (String c EmptyString) [] s)).
  { apply heads_rep_exact; [|reflexivity]. simpl. rewrite Ascii.eqb_refl. reflexivity. }
  apply (heads_cat _ r2 _ _ _ H1 H2).
Qed.

Lemma int_digit (acc : Z) (k : nat) (s : string) :
  (k < 10)%nat ->
  int_of_digits acc (String (ascii_of_nat (48 + k)) s)
  = int_of_digits (acc * 10 + Z.of_nat k) s.
Proof. intros H. do 10 (destruct k as [|k]; [reflexivity|]). lia. Qed.

Lemma int_pad2_acc (acc n : Z) (s : string) :
  (0 <= n <= 99)%Z -> int_of_digits acc (pad2 n ++ s) = int_of_digits (acc * 100 + n) s.
Proof.
  intros H. unfold pad2. cbn [append].
  pose proof (Z.mod_pos_bound (n / 10) 10 ltac:(lia)).
  pose proof (Z.mod_pos_bound n 10 ltac:(lia)).
  rewrite !int_digit by lia. f_equal. rewrite !Z2Nat.id by lia.
  pose proof (Z.div_mod n 10 ltac:(lia)).
  assert (n / 10 < 10)%Z by (apply Z.div_lt_upper_bound; lia).
  assert (0 <= n / 10)%Z by (apply Z.div_pos; lia).
  rewrite (Z.mod_small (n / 10) 10) by lia. lia.
Qed.

Lemma int_pad2 (n : Z) : (0 <= n <= 99)%Z -> int_ (pad2 n) = n.
Proof.
  intros H. unfold int_. rewrite <- (KvFacts.append_empty_r (pad2 n)).
  rewrite int_pad2_acc by exact H. reflexivity.
Qed.

Lemma int_pad4 (n : Z) : (0 <= n <= 9999)%Z -> int_ (pad4 n) = n.
Proof.
  intros H. unfold int_, pad4.
  rewrite <- (KvFacts.append_empty_r (pad2 (n mod 100))).
  pose proof (Z.mod_pos_bound n 100 ltac:(lia)).
  assert (n / 100 < 100)%Z by (apply Z.div_lt_upper_bound; lia).
  assert (0 <= n / 100)%Z by (apply Z.div_pos; lia).
  rewrite !int_pad2_acc by lia. cbn [int_of_digits].
  pose proof (Z.div_mod n 100 ltac:(lia)). lia.
Qed.

Lemma days_in_month_le (y m : Z) : (days_in_month y m <= 31)%Z.
Proof.
  unfold days_in_month.
  destruct (m =? 2)%Z; [destruct (is_leap y); lia|].
  destruct ((m =? 4) || (m =? 6) || (m =? 9) || (m =? 11))%Z; lia.
Qed.

Lemma valid_bounds (t : datetime) :
  valid t = true ->
  (1 <= year t <= 9999 /\ 1 <= month t <= 12 /\ 1 <= day t <= 31 /\
   0 <= hour t <= 23 /\ 0 <= minute t <= 59 /\ 0 <= second t <= 59)%Z.
Proof.
  unfold valid. intros H.
  repeat (apply andb_true_iff in H; destruct H as [H ?]).
  repeat match goal with
         | [ X : (_ <=? _)%Z = true |- _ ] => apply Z.leb_le in X
         end.
  pose proof (days_in_month_le (year t) (month t)). lia.
Qed.

(** The first format of line 72 on such a text. *)
Lemma format_general (Y Mo D h mi s : string) :
  (forall r, heads (directive_regex DY) (Y ++ r) (MRes Y [Y] r)) ->
  (forall r, heads (directive_regex Dm) (Mo ++ r) (MRes Mo [Mo] r)) ->
  (forall r, heads (directive_regex Dd) (D ++ r) (MRes D [D] r)) ->
  (forall r, heads (directive_regex DH) (h ++ r) (MRes h [h] r)) ->
  (forall r, heads (directive_regex DM) (mi ++ r) (MRes mi [mi] r)) ->
  heads (directive_regex DS) s (MRes s [s] EmptyString) ->
  (forall r, stops PyStr.is_space (h ++ r)) ->
  heads (format_regex [DY; DText "-"; Dm; DText "-"; Dd; DSpace; DH; DText ":"; DM;
                       DText ":"; DS])
        (Y ++ String "-" (Mo ++ String "-" (D ++ String " "
           (h ++ String ":" (mi ++ String ":" s)))))
        (MRes (Y ++ String "-" (Mo ++ String "-" (D ++ String " "
                 (h ++ String ":" (mi ++ String ":" s)))))
              [Y; Mo; D; h; mi; s] EmptyString).
Proof.
  intros HY HMo HD Hh Hmi Hs Hstop.
  unfold format_regex. cbn [map cat_all].
  apply (heads_then _ _ Y _ _ _ [Y] [Mo; D; h; mi; s]); [apply HY|].
  apply heads_sign_then.
  apply (heads_then _ _ Mo _ _ _ [Mo] [D; h; mi; s]); [apply HMo|].
  apply heads_sign_then.
  apply (heads_then _ _ D _ _ _ [D] [h; mi; s]); [apply HD|].
  apply heads_blank_then; [apply Hstop|].
  apply (heads_then _ _ h _ _ _ [h] [mi; s]); [apply Hh|].
  apply heads_sign_then.
  apply (heads_then _ _ mi _ _ _ [mi] [s]); [apply Hmi|].
  apply heads_sign_then.
  exact Hs.
Qed.

Lemma format_at_stamp (t : datetime) :
  valid t = true ->
  match_ (format_regex [DY; DText "-"; Dm; DText "-"; Dd; DSpace; DH; DText ":"; DM;
                        DText ":"; DS])
         (stamp_text t)
  = Some (MRes (stamp_text t)
               [pad4 (year t); pad2 (month t); pad2 (day t);
                pad2 (hour t); pad2 (minute t); pad2 (second t)]
               EmptyString).
Proof.
  intros Hv. destruct (valid_bounds t Hv) as (Hy & Hm & Hd & HH & HM & HS).
  assert (Hsec : heads (directive_regex DS) (pad2 (second t))
                       (MRes (pad2 (second t)) [pad2 (second t)] EmptyString)).
  { apply match_heads. apply (second_field (second t) EmptyString HS). }
  apply heads_match.
  exact (format_general
           (pad4 (year t)) (pad2 (month t)) (pad2 (day t))
           (pad2 (hour t)) (pad2 (minute t)) (pad2 (second t))
           (fun r => year_field _ r)
           (fun r => match_heads _ _ _ (month_field _ r Hm))
           (fun r => match_heads _ _ _ (day_field _ r Hd))
           (fun r => match_heads _ _ _ (hour_field _ r HH))
           (fun r => match_heads _ _ _ (minute_field _ r HM))
           Hsec
           (fun r => pad2_stops_space _ r)).
Qed.

Lemma strptime_stamp_text (t : datetime) :
  valid t = true ->
  strptime (stamp_text t) [DY; DText "-"; Dm; DText "-"; Dd; DSpace; DH; DText ":"; DM;
                           DText ":"; DS]
  = Some t.
Proof.
  intros Hv. destruct (valid_bounds t Hv) as (Hy & Hm & Hd & HH & HM & HS).
  unfold strptime. rewrite (format_at_stamp t Hv). cbn [rest groups fill].
  cbn [year month day hour minute second].
  rewrite int_pad4 by lia. rewrite !int_pad2 by lia.
  destruct t as [y m d hh mm ss]. cbn [year month day hour minute second] in *.
  rewrite Hv. reflexivity.
Qed.

Lemma extract_timestamp_stamp (t : datetime) (r : string) :
  valid t = true ->
  extract_timestamp timestamp_patterns (stamp_text t ++ r) = Some t.
Proof.
  intros Hv. unfold timestamp_patterns. cbn [extract_timestamp].
  rewrite (search_at_start _ _ _ (first_pattern_at_stamp t r)).
  cbn [groups]. unfold timestamp_formats. cbn [try_formats].
  rewrite (strptime_stamp_text t Hv). reflexivity.
Qed.

End StampFacts.

(** X16: A line that begins with a valid date and time written as
    YYYY-MM-DD HH:MM:SS gets that very instant as its time stamp,
    whatever follows on the line; unless the line also holds a
    [timestamp=] token, the instant is the [timestamp] field of the
    record of the line. *)
Theorem stamp_at_line_start_is_parsed_to_its_instant (t : PyTime.datetime) (rest : string) :
  PyTime.valid t = true ->
  extract_timestamp timestamp_patterns (stamp_text t ++ rest) = Some t /\
  (timestamp_tokens (stamp_text t ++ rest) = [] ->
   dict_get "timestamp" (kv_line_data (stamp_text t ++ rest)) = Some (VTime t)).
Proof.
  intros Hv. split; [apply StampFacts.extract_timestamp_stamp; exact Hv|].
  intros Hno. unfold kv_line_data.
  rewrite (StampFacts.extract_timestamp_stamp t rest Hv).
  rewrite store_pairs_timestamp.
  rewrite (last_timestamp_value_none _ Hno). reflexivity.
Qed.

Lemma stamp_at_line_start_is_parsed_to_its_instant_witness :
  dict_get "timestamp" (kv_line_data sample_line)
  = Some (VTime (PyTime.DateTime 2023 10 5 8 23 45)).
Proof.
  apply (proj2 (stamp_at_line_start_is_parsed_to_its_instant
                  (PyTime.DateTime 2023 10 5 8 23 45)
                  " src-ip=192.168.1.10 dst-ip=203.0.113.5 protocol=TCP src-port=54321 dst-port=443 bytes=1240"
                  eq_refl)).
  vm_compute. reflexivity.
Defined.

(** ** The tokens of a line *)

Module TokenFacts.
Import Re ReFacts KvFacts.

Lemma first_char_unassigned (s : string) :
  key_run_unassigned s = true -> starts_with_equals s = false.
Proof.
  destruct s as [|c s]; [reflexivity|]. cbn [key_run_unassigned starts_with_equals].
  destruct (Ascii.eqb_spec "="%char c) as [E|E]; [|reflexivity].
  subst c. intros H. vm_compute in H. discriminate H.
Qed.

Lemma rep_splits_unassigned (n : nat) (s a b : string) :
  key_run_unassigned s = true ->
  In (a, b) (rep_splits is_key_char n s) -> starts_with_equals b = false.
Proof.
  revert s a b. induction n as [|n IH]; intros s a b Hs Hin.
  - destruct s; simpl in Hin; destruct Hin as [E|[]]; inversion E; subst;
      apply first_char_unassigned; exact Hs.
  - destruct s as [|c s].
    + simpl in Hin. destruct Hin as [E|[]]. inversion E; subst. reflexivity.
    + simpl in Hin. destruct (is_key_char c) eqn:Ec.
      * apply in_app_or in Hin. destruct Hin as [Hin|[E|[]]].
        -- apply in_map_iff in Hin. destruct Hin as [[a' b'] [E Hin]].
           inversion E; subst. apply (IH s a' b); [|exact Hin].
           simpl in Hs. rewrite Ec in Hs. exact Hs.
        -- inversion E; subst. apply first_char_unassigned. exact Hs.
      * destruct Hin as [E|[]]. inversion E; subst.
        apply first_char_unassigned. exact Hs.
Qed.

Lemma cat_none (r1 r2 : regex) (s : string) :
  (forall m1, In m1 (rmatch r1 s) -> rmatch r2 (rest m1) = []) ->
  rmatch (Cat r1 r2) s = [].
Proof.
  intros H. cbn [rmatch]. induction (rmatch r1 s) as [|m l IH]; [reflexivity|].
  cbn [flat_map]. rewrite (H m (or_introl eq_refl)). simpl.
  apply IH. intros m1 Hin. apply H. right. exact Hin.
Qed.

Lemma lit_none (r2 : regex) (b : string) :
  starts_with_equals b = false -> rmatch (Cat (Lit "=") r2) b = [].
Proof.
  intros H. apply cat_none. intros m1 Hin. exfalso.
  destruct b as [|c b]; [destruct Hin|]. simpl in H. simpl in Hin. rewrite H in Hin.
  destruct Hin.
Qed.

(** Where the run of key characters is not followed by an equals sign,
    the pattern of line 58 does not match. *)
Lemma kv_pattern_none (s : string) :
  key_run_unassigned s = true -> match_ kv_pattern s = None.
Proof.
  intros Hs. unfold match_, kv_pattern. rewrite cat_none; [reflexivity|].
  intros m1 Hin. apply lit_none.
  cbn [rmatch] in Hin. rewrite map_map in Hin. apply in_map_iff in Hin.
  destruct Hin as [[a b] [E Hin]]. subst m1. cbn [rest snd].
  apply filter_In in Hin. destruct Hin as [Hin _].
  apply (rep_splits_unassigned _ _ _ _ Hs Hin).
Qed.

Lemma lead_unassigned (lead x : string) :
  all_chars no_equals_sign lead = true -> PyStr.endswith " " lead = true ->
  key_run_unassigned (lead ++ x) = true.
Proof.
  induction lead as [|c lead IH]; [discriminate|].
  intros Hall Hend. cbn [all_chars] in Hall. apply andb_true_iff in Hall.
  destruct Hall as [Hc Hall]. cbn [append key_run_unassigned].
  destruct lead as [|c' lead'].
  - simpl in Hend. apply Ascii.eqb_eq in Hend. subst c. reflexivity.
  - destruct (is_key_char c); [|exact Hc].
    apply IH; [exact Hall | exact Hend].
Qed.

Lemma findall_skip_lead (lead x : string) :
  lead_ok lead = true -> findall kv_pattern (lead ++ x) = findall kv_pattern x.
Proof.
  unfold lead_ok. induction lead as [|c lead IH]; [reflexivity|].
  intros H. apply andb_true_iff in H. destruct H as [Hall Hend].
  cbn [append]. rewrite findall_no_match.
  - apply IH. cbn [all_chars] in Hall. apply andb_true_iff in Hall.
    destruct Hall as [_ Hall]. rewrite Hall. destruct lead; [reflexivity|exact Hend].
  - apply kv_pattern_none. apply (lead_unassigned (String c lead) x Hall Hend).
Qed.

Lemma wf_token_parts (tok : token) :
  wf_token tok = true ->
  token_key tok <> EmptyString /\ all_chars is_key_char (token_key tok) = true /\
  (if token_quoted tok then all_chars not_quote (token_value tok) = true
   else is_plain (token_value tok) = true).
Proof.
  unfold wf_token. intros H. apply andb_true_iff in H. destruct H as [H Hv].
  apply andb_true_iff in H. destruct H as [Hk Hc].
  split; [|split; [exact Hc|destruct (token_quoted tok); exact Hv]].
  intros E. rewrite E in Hk. discriminate.
Qed.

Lemma token_match (tok : token) (r : string) :
  wf_token tok = true -> stops is_value_char r ->
  match_ kv_pattern (token_text tok ++ r) = Some (MRes (token_text tok) (token_groups tok) r).
Proof.
  intros Hwf Hr. destruct (wf_token_parts tok Hwf) as (Hk & Hc & Hv).
  unfold token_text, token_groups, raw_value in *.
  destruct (token_quoted tok).
  - apply (kv_pattern_quoted (token_key tok) (token_value tok) r Hk Hc Hv).
  - apply kv_pattern_plain; assumption.
Qed.

Lemma token_text_nonempty (tok : token) : wf_token tok = true -> token_text tok <> EmptyString.
Proof.
  intros Hwf. destruct (wf_token_parts tok Hwf) as (Hk & _).
  unfold token_text. destruct (token_key tok); [congruence | discriminate].
Qed.

(** [findall] on a line of tokens reports the tokens in order. *)
Lemma findall_token_line (toks : list token) :
  forallb wf_token toks = true ->
  findall kv_pattern (token_line toks) = map token_groups toks.
Proof.
  induction toks as [|tok toks IH]; intros Hwf; [reflexivity|].
  simpl in Hwf. apply andb_true_iff in Hwf. destruct Hwf as [Ht Hwf].
  specialize (IH Hwf). unfold token_line. cbn [map].
  destruct toks as [|tok' toks].
  - cbn [PyStr.join map].
    rewrite <- (append_empty_r (token_text tok)).
    rewrite (findall_at_match_nonempty _ _ _ _ (token_text_nonempty tok Ht)
               (token_match tok EmptyString Ht I)).
    reflexivity.
  - change (PyStr.join " " (token_text tok :: map token_text (tok' :: toks)))
      with (token_text tok ++ String " " (token_line (tok' :: toks)))%string.
    rewrite (findall_at_match_nonempty _ _ _ _ (token_text_nonempty tok Ht)
               (token_match tok (String " " (token_line (tok' :: toks))) Ht eq_refl)).
    rewrite kv_pattern_not_at_blank, IH. reflexivity.
Qed.

Lemma endswith_append (a : ascii) (s : string) :
  PyStr.endswith a (s ++ String a EmptyString) = true.
Proof.
  induction s as [|c s IH]; simpl; [apply Ascii.eqb_refl|].
  destruct (s ++ String a EmptyString)%string eqn:E; [destruct s; discriminate | exact IH].
Qed.

Lemma drop_last_append (a : ascii) (s : string) :
  PyStr.drop_last (s ++ String a EmptyString) = s.
Proof.
  induction s as [|c s IH]; simpl; [reflexivity|].
  destruct (s ++ String a EmptyString)%string eqn:E; [destruct s; discriminate|].
  rewrite IH. reflexivity.
Qed.

Lemma unquote_raw_value (tok : token) :
  wf_token tok = true -> unquote (raw_value tok) = token_value tok.
Proof.
  intros Hwf. destruct (wf_token_parts tok Hwf) as (_ & _ & Hv).
  unfold raw_value. destruct (token_quoted tok).
  - unfold unquote. cbn [PyStr.startswith]. rewrite Ascii.eqb_refl.
    assert (E : PyStr.endswith quote (String quote (token_value tok ++ String quote EmptyString))
                = true).
    { apply (endswith_append quote (String quote (token_value tok))). }
    rewrite E. cbn [andb PyStr.slice_1_m1]. apply drop_last_append.
  - apply plain_unquote. exact Hv.
Qed.

Lemma store_pairs_tokens (toks : list token) (d : dict) (k : string) :
  forallb wf_token toks = true ->
  dict_get k (store_pairs (map token_groups toks) d)
  = match last_value k toks with
    | Some v => Some (VStr v)
    | None => dict_get k d
    end.
Proof.
  revert d. induction toks as [|tok toks IH]; intros d Hwf; [reflexivity|].
  simpl in Hwf. apply andb_true_iff in Hwf. destruct Hwf as [Ht Hwf].
  cbn [map token_groups store_pairs last_value]. rewrite (IH _ Hwf).
  destruct (last_value k toks); [reflexivity|].
  rewrite (unquote_raw_value tok Ht).
  destruct (String.eqb_spec (normalize_key (token_key tok)) k) as [E|E].
  - subst k. apply dict_get_set_same.
  - apply dict_get_set_other. congruence.
Qed.

End TokenFacts.

(** X17: On a line that holds key=value tokens separated by single blanks,
    after nothing or after a text without equals sign that ends with a
    blank, the pattern of line 58 finds exactly the tokens, in order.
    The record of the line maps each key, lowered and with its hyphens
    replaced by underscores, to the value of the last token with that
    key, without its quotes; it has no other field but the time stamp
    recognized in the line. *)
Theorem tokens_of_a_line_become_its_fields (lead : string) (toks : list token) :
  lead_ok lead = true ->
  forallb wf_token toks = true ->
  Re.findall kv_pattern (lead ++ token_line toks) = map token_groups toks /\
  forall k,
    dict_get k (kv_line_data (lead ++ token_line toks))
    = match last_value k toks with
      | Some v => Some (VStr v)
      | None =>
          if String.eqb k "timestamp"
          then option_map VTime (extract_timestamp timestamp_patterns (lead ++ token_line toks))
          else None
      end.
Proof.
  intros Hlead Hwf.
  assert (Hfind : Re.findall kv_pattern (lead ++ token_line toks) = map token_groups toks).
  { rewrite (TokenFacts.findall_skip_lead _ _ Hlead).
    apply TokenFacts.findall_token_line. exact Hwf. }
  split; [exact Hfind|].
  intros k. unfold kv_line_data. rewrite Hfind.
  rewrite (TokenFacts.store_pairs_tokens _ _ _ Hwf).
  destruct (last_value k toks); [reflexivity|].
  rewrite (String.eqb_sym k "timestamp").
  destruct (extract_timestamp timestamp_patterns (lead ++ token_line toks));
    cbn [dict_set dict_get option_map];
    destruct (String.eqb "timestamp" k); reflexivity.
Qed.

Lemma tokens_of_a_line_become_its_fields_witness :
  Re.findall kv_pattern sample_line = map token_groups sample_tokens /\
  dict_get "src_ip" (kv_line_data sample_line) = Some (VStr "192.168.1.10").
Proof.
  destruct (tokens_of_a_line_become_its_fields "2023-10-05 08:23:45 " sample_tokens
              eq_refl eq_refl) as [Hfind Hget].
  split; [exact Hfind|]. exact (Hget "src_ip").
Defined.

(** ** The time span *)

Module SpanFacts.

Lemma datetime_ltb_irrefl (t : PyTime.datetime) : datetime_ltb t t = false.
Proof. apply KeyOrder.lex_ltb_irrefl. Qed.

Lemma datetime_ltb_trans (a b c : PyTime.datetime) :
  datetime_ltb a b = true -> datetime_ltb b c = true -> datetime_ltb a c = true.
Proof. apply KeyOrder.lex_ltb_trans. Qed.

Lemma min_time_spec (ts : list (option PyTime.datetime)) :
  match min_time ts with
  | None => forall t, ~ In (Some t) ts
  | Some a => In (Some a) ts /\ forall t, In (Some t) ts -> datetime_ltb t a = false
  end.
Proof.
  induction ts as [|[t|] ts IH]; simpl.
  - intros t [].
  - destruct (min_time ts) as [m|].
    + destruct IH as [Hin Hmin]. destruct (datetime_ltb t m) eqn:E.
      * split; [left; reflexivity|]. intros t' [E'|Hin'].
        -- inversion E'; subst. apply datetime_ltb_irrefl.
        -- destruct (datetime_ltb t' t) eqn:E''; [|reflexivity].
           rewrite <- (Hmin t' Hin'). symmetry. eapply datetime_ltb_trans; eauto.
      * split; [right; exact Hin|]. intros t' [E'|Hin'].
        -- inversion E'; subst. exact E.
        -- apply Hmin. exact Hin'.
    + split; [left; reflexivity|]. intros t' [E'|Hin'].
      * inversion E'; subst. apply datetime_ltb_irrefl.
      * exfalso. apply (IH t' Hin').
  - destruct (min_time ts) as [m|].
    + destruct IH as [Hin Hmin]. split; [right; exact Hin|].
      intros t' [E'|Hin']; [discriminate | apply Hmin; exact Hin'].
    + intros t' [E'|Hin']; [discriminate | apply (IH t' Hin')].
Qed.

Lemma max_time_spec (ts : list (option PyTime.datetime)) :
  match max_time ts with
  | None => forall t, ~ In (Some t) ts
  | Some b => In (Some b) ts /\ forall t, In (Some t) ts -> datetime_ltb b t = false
  end.
Proof.
  induction ts as [|[t|] ts IH]; simpl.
  - intros t [].
  - destruct (max_time ts) as [m|].
    + destruct IH as [Hin Hmax]. destruct (datetime_ltb m t) eqn:E.
      * split; [left; reflexivity|]. intros t' [E'|Hin'].
        -- inversion E'; subst. apply datetime_ltb_irrefl.
        -- destruct (datetime_ltb t t') eqn:E''; [|reflexivity].
           rewrite <- (Hmax t' Hin'). symmetry. eapply datetime_ltb_trans; eauto.
      * split; [right; exact Hin|]. intros t' [E'|Hin'].
        -- inversion E'; subst. exact E.
        -- apply Hmax. exact Hin'.
    + split; [left; reflexivity|]. intros t' [E'|Hin'].
      * inversion E'; subst. apply datetime_ltb_irrefl.
      * exfalso. apply (IH t' Hin').
  - destruct (max_time ts) as [m|].
    + destruct IH as [Hin Hmax]. split; [right; exact Hin|].
      intros t' [E'|Hin']; [discriminate | apply Hmax; exact Hin'].
    + intros t' [E'|Hin']; [discriminate | apply (IH t' Hin')].
Qed.

End SpanFacts.

Section Timespan.

Context {S : SortValues}.

(** The [timespan] entry, when the frame has time stamps [ts]. *)
Lemma timespan_origin (df df' : DataFrame) (stats : stats_dict)
    (cells : list value) (ts : list (option PyTime.datetime)) (st : stat) :
  process_traffic_data df = Some (stats, df') ->
  column "timestamp" df = Some cells -> time_cells cells = Some ts ->
  In ("timespan", st) stats ->
  st = STimespan (min_time ts) (max_time ts)
         match min_time ts, max_time ts with
         | Some a, Some b => Some (PyTime.epoch_seconds b - PyTime.epoch_seconds a)%Z
         | _, _ => None
         end.
Proof.
  intros Hp Hc Hts Hin.
  destruct (process_traffic_data_inv _ _ _ Hp)
    as (bytes & src & dst & proto & timed & ports & Hb & Hsrc & Hdst & Hproto & Ht & Hports & Hs).
  subst stats.
  apply in_app_or in Hin. destruct Hin as [Hin|Hin].
  { destruct Hin as [E|[]]. discriminate. }
  apply in_app_or in Hin. destruct Hin as [Hin|Hin].
  { exfalso. apply basic_stats_named in Hin. simpl in Hin. intuition discriminate. }
  apply in_app_or in Hin. destruct Hin as [Hin|Hin].
  { exfalso. destruct (ip_stats_inv _ _ _ _ _ _ _ Hsrc) as [[_ E]|(c & k & _ & _ & E)];
      subst src; [destruct Hin|].
    destruct bytes; simpl in Hin; intuition discriminate. }
  apply in_app_or in Hin. destruct Hin as [Hin|Hin].
  { exfalso. destruct (ip_stats_inv _ _ _ _ _ _ _ Hdst) as [[_ E]|(c & k & _ & _ & E)];
      subst dst; [destruct Hin|].
    destruct bytes; simpl in Hin; intuition discriminate. }
  apply in_app_or in Hin. destruct Hin as [Hin|Hin].
  { exfalso. unfold protocol_stats, option_bind in Hproto.
    destruct (column "protocol" df) as [pc|].
    - destruct (key_cells pc); [|discriminate]. inversion Hproto; subst.
      simpl in Hin. intuition discriminate.
    - inversion Hproto; subst. destruct Hin. }
  apply in_app_or in Hin. destruct Hin as [Hin|Hin].
  { unfold time_stats, option_bind in Ht. rewrite Hc, Hts in Ht.
    inversion Ht; subst timed. clear Ht.
    destruct bytes as [b|]; simpl in Hin.
    - destruct Hin as [E|[E|[E|[E|[E|[]]]]]]; inversion E; reflexivity.
    - destruct Hin as [E|[E|[E|[]]]]; inversion E; reflexivity. }
  exfalso. destruct (port_stats_inv _ _ _ Hports) as [[_ E]|(c & k & _ & _ & E)];
    subst ports; [destruct Hin|].
  destruct bytes; simpl in Hin; intuition discriminate.
Qed.

(** X6: The time span of the statistics runs from the earliest to the
    latest time stamp of the frame, records without a time stamp left
    aside: its start and its end are time stamps of records, no record
    is stamped before the start or after the end, and the duration is
    counted from the one to the other.  When no record has a time stamp
    the start, the end and the duration are missing. *)
Theorem timespan_runs_from_earliest_to_latest_stamp
    (df df' : DataFrame) (stats : stats_dict)
    (cells : list value) (ts : list (option PyTime.datetime))
    (start_ end_ : option PyTime.datetime) (seconds : option Z) :
  process_traffic_data df = Some (stats, df') ->
  column "timestamp" df = Some cells -> time_cells cells = Some ts ->
  In ("timespan", STimespan start_ end_ seconds) stats ->
  ((forall t, ~ In (Some t) ts) -> start_ = None /\ end_ = None /\ seconds = None) /\
  (forall t, In (Some t) ts ->
     exists a b,
       start_ = Some a /\ end_ = Some b /\
       In (Some a) ts /\ In (Some b) ts /\
       datetime_ltb t a = false /\ datetime_ltb b t = false /\
       seconds = Some (PyTime.epoch_seconds b - PyTime.epoch_seconds a)%Z).
Proof.
  intros Hp Hc Hts Hin.
  pose proof (timespan_origin _ _ _ _ _ _ Hp Hc Hts Hin) as E.
  inversion E; subst start_ end_ seconds. clear E.
  pose proof (SpanFacts.min_time_spec ts) as Hmin.
  pose proof (SpanFacts.max_time_spec ts) as Hmax.
  split.
  - intros Hnone.
    destruct (min_time ts) as [a|]; [exfalso; apply (Hnone a); tauto|].
    destruct (max_time ts) as [b|]; [exfalso; apply (Hnone b); tauto|].
    auto.
  - intros t Ht.
    destruct (min_time ts) as [a|]; [|exfalso; apply (Hmin t Ht)].
    destruct (max_time ts) as [b|]; [|exfalso; apply (Hmax t Ht)].
    destruct Hmin as [Ha Hmin]. destruct Hmax as [Hb Hmax].
    exists a, b. repeat split; auto.
Qed.

End Timespan.

Lemma timespan_runs_from_earliest_to_latest_stamp_witness :
  exists stats df',
    process_traffic_data week_frame = Some (stats, df') /\
    In ("timespan",
        STimespan (Some (PyTime.DateTime 2023 10 2 9 0 0)) (Some (PyTime.DateTime 2023 10 6 9 0 0))
                  (Some 345600%Z)) stats /\
    datetime_ltb (PyTime.DateTime 2023 10 6 9 0 0) (PyTime.DateTime 2023 10 2 9 0 0) = false.
Proof.
  destruct (process_traffic_data week_frame) as [[stats df']|] eqn:Hp;
    [|vm_compute in Hp; discriminate].
  exists stats, df'. split; [reflexivity|].
  assert (Hi : In ("timespan",
                   STimespan (Some (PyTime.DateTime 2023 10 2 9 0 0))
                             (Some (PyTime.DateTime 2023 10 6 9 0 0))
                             (Some 345600%Z)) stats).
  { vm_compute in Hp. inversion Hp; subst. simpl. auto. }
  split; [exact Hi|].
  destruct (timespan_runs_from_earliest_to_latest_stamp
              week_frame df' stats
              [VTime (PyTime.DateTime 2023 10 2 9 0 0); VTime (PyTime.DateTime 2023 10 6 9 0 0)]
              [Some (PyTime.DateTime 2023 10 2 9 0 0); Some (PyTime.DateTime 2023 10 6 9 0 0)]
              _ _ _ Hp eq_refl eq_refl Hi) as [_ Hall].
  destruct (Hall (PyTime.DateTime 2023 10 6 9 0 0)) as (a & b & Ea & _ & _ & _ & Hlt & _).
  { simpl. auto. }
  inversion Ea; subst a. exact Hlt.
Defined.

(** ** Buckets and the calendar *)

Section CalendarBuckets.

Import ResampleFacts BucketFacts.
Open Scope Z_scope.



End CalendarBuckets.


(** ** The filters of the sidebar *)

Module FilterFacts.

Lemma lt_not_before_after (t a c : PyTime.datetime) :
  datetime_ltb t a = false -> datetime_ltb a c = false -> datetime_ltb t c = false.
Proof.
  intros H1 H2. destruct (datetime_ltb t c) eqn:E; [|reflexivity].
  destruct (datetime_ltb a t) eqn:E'.
  - rewrite (SpanFacts.datetime_ltb_trans a t c E' E) in H2. discriminate.
  - assert (a = t).
    { apply KeyOrder.datetime_fields_inj. apply KeyOrder.lex_ltb_total; assumption. }
    subst a. congruence.
Qed.

Lemma not_before_midnight (t : PyTime.datetime) :
  PyTime.valid t = true -> datetime_ltb t (combine_min (date_of t)) = false.
Proof.
  intros Hv. destruct (StampFacts.valid_bounds t Hv) as (_ & _ & _ & Hh & Hm & Hs).
  destruct t as [y m d h mi s]. cbn [PyTime.hour PyTime.minute PyTime.second] in *.
  unfold datetime_ltb, datetime_fields, combine_min, date_of. simpl.
  rewrite !Z.ltb_irrefl.
  repeat match goal with
         | [ |- context [(?x <? ?y)%Z] ] => destruct (Z.ltb_spec x y); try lia; try reflexivity
         end.
Qed.

Lemma not_after_end_of_day (t : PyTime.datetime) :
  PyTime.valid t = true -> datetime_ltb (combine_max (date_of t)) t = false.
Proof.
  intros Hv. destruct (StampFacts.valid_bounds t Hv) as (_ & _ & _ & Hh & Hm & Hs).
  destruct t as [y m d h mi s]. cbn [PyTime.hour PyTime.minute PyTime.second] in *.
  unfold datetime_ltb, datetime_fields, combine_max, date_of. simpl.
  rewrite !Z.ltb_irrefl.
  repeat match goal with
         | [ |- context [(?x <? ?y)%Z] ] => destruct (Z.ltb_spec x y); try lia; try reflexivity
         end.
Qed.

Lemma stamped_count (ts : list (option PyTime.datetime)) :
  List.length (filter (fun b : bool => b) (map is_stamped ts)) = count_present ts.
Proof.
  unfold count_present. induction ts as [|[t|] ts IH]; simpl; congruence.
Qed.

Lemma time_cells_length (cells : list value) (ts : list (option PyTime.datetime)) :
  time_cells cells = Some ts -> List.length ts = List.length cells.
Proof.
  revert ts. induction cells as [|v cells IH]; intros ts H; simpl in H.
  - inversion H. reflexivity.
  - destruct (time_cells cells) as [r|]; [|discriminate].
    destruct v; inversion H; subst; simpl; rewrite (IH r eq_refl); reflexivity.
Qed.

Lemma select_all {A : Type} (mask : list bool) (cells : list A) :
  Forall (fun b => b = true) mask -> List.length mask = List.length cells ->
  select mask cells = cells.
Proof.
  unfold select. revert cells. induction mask as [|b mask IH]; intros [|c cells] Hall Hlen;
    try discriminate; [reflexivity|].
  inversion Hall; subst. simpl. f_equal. apply IH; [assumption | simpl in Hlen; lia].
Qed.

Lemma select_length {A : Type} (mask : list bool) (cells : list A) :
  (List.length mask <= List.length cells)%nat ->
  List.length (select mask cells) = List.length (filter (fun b : bool => b) mask).
Proof.
  unfold select. rewrite length_map. revert cells.
  induction mask as [|b mask IH]; intros cells Hlen; [reflexivity|].
  destruct cells as [|c cells]; [simpl in Hlen; lia|].
  simpl. destruct b; simpl; rewrite IH by (simpl in Hlen; lia); reflexivity.
Qed.

Lemma select_forall {A : Type} (P : A -> Prop) (mask : list bool) (cells : list A) :
  Forall P cells -> Forall P (select mask cells).
Proof.
  unfold select. revert cells. induction mask as [|b mask IH]; intros cells H; [constructor|].
  destruct cells as [|c cells]; [constructor|].
  inversion H; subst. simpl. destruct b; simpl; [constructor|]; auto.
Qed.

Lemma filter_true_length (mask : list bool) :
  (List.length (filter (fun b : bool => b) mask) <= List.length mask)%nat.
Proof. induction mask as [|[|] mask IH]; simpl; lia. Qed.

Lemma colnames_select_rows (mask : list bool) (df : DataFrame) :
  colnames (select_rows mask df) = colnames df.
Proof. unfold colnames, select_rows. simpl. rewrite map_map. reflexivity. Qed.

Lemma has_column_select_rows (c : string) (mask : list bool) (df : DataFrame) :
  has_column c (select_rows mask df) = has_column c df.
Proof. unfold has_column. rewrite colnames_select_rows. reflexivity. Qed.

Lemma column_select_rows (c : string) (mask : list bool) (df : DataFrame) :
  column c (select_rows mask df) = option_map (select mask) (column c df).
Proof.
  unfold column, select_rows. simpl.
  induction (columns df) as [|[k w] l IH]; simpl; [reflexivity|].
  destruct (String.eqb k c); [reflexivity | exact IH].
Qed.

(** Selecting records keeps a frame well formed and never adds a
    record. *)
Lemma select_rows_wf (mask : list bool) (df : DataFrame) :
  wf_frame df = true -> (List.length mask <= nrows df)%nat ->
  wf_frame (select_rows mask df) = true /\ (nrows (select_rows mask df) <= nrows df)%nat.
Proof.
  intros Hwf Hlen. split.
  - unfold wf_frame, select_rows in *. simpl. rewrite forallb_forall in *.
    intros [k w] Hin. apply in_map_iff in Hin. destruct Hin as [[k' w'] [E Hin]].
    inversion E; subst. simpl. specialize (Hwf _ Hin). simpl in Hwf.
    apply Nat.eqb_eq in Hwf. apply Nat.eqb_eq. apply select_length. lia.
  - unfold select_rows. simpl. pose proof (filter_true_length mask). lia.
Qed.

Lemma wf_column_length (c : string) (cells : list value) (df : DataFrame) :
  wf_frame df = true -> column c df = Some cells -> List.length cells = nrows df.
Proof.
  unfold wf_frame, column. intros Hwf. rewrite forallb_forall in Hwf.
  induction (columns df) as [|[k w] l IH]; simpl; [discriminate|].
  destruct (String.eqb k c).
  - intros H. inversion H; subst. apply Nat.eqb_eq. apply (Hwf (k, cells)). left. reflexivity.
  - apply IH. intros x Hx. apply Hwf. right. exact Hx.
Qed.

Lemma or_mask_length (mask other : list bool) :
  (List.length (or_mask mask other) <= List.length mask)%nat.
Proof. unfold or_mask. rewrite length_map, length_combine. lia. Qed.

Lemma in_range_cells (start_date end_date : date) (cells : list value)
    (ts : list (option PyTime.datetime)) :
  time_cells cells = Some ts ->
  Forall (fun v => exists t, v = VTime t /\ in_date_range start_date end_date (Some t) = true)
         (select (map (in_date_range start_date end_date) ts) cells).
Proof.
  unfold select. revert ts. induction cells as [|v cells IH]; intros ts H; simpl in H.
  - inversion H. constructor.
  - destruct (time_cells cells) as [r|]; [|discriminate].
    destruct v as [s|z|t|]; inversion H; subst; clear H.
    + cbn [map combine filter fst]. destruct (in_date_range start_date end_date (Some t)) eqn:E.
      * cbn [map snd]. constructor; [eauto | apply IH; reflexivity].
      * apply IH. reflexivity.
    + cbn [map combine filter fst in_date_range]. apply IH. reflexivity.
Qed.

Lemma protocol_cells (protocol_filter : string) (cells : list value) :
  Forall (fun v => v = VStr protocol_filter)
         (select (map (protocol_is protocol_filter) cells) cells).
Proof.
  unfold select. induction cells as [|v cells IH]; [constructor|].
  cbn [map combine filter fst]. destruct (protocol_is protocol_filter v) eqn:E.
  - cbn [map snd]. constructor; [|exact IH].
    destruct v; try discriminate. simpl in E. apply String.eqb_eq in E. congruence.
  - exact IH.
Qed.

End FilterFacts.

Section SidebarFilters.

Import FilterFacts.
Variable str_contains : string -> list value -> option (list bool).

Lemma cells_satisfy_select (c : string) (P : value -> Prop) (mask : list bool)
    (df : DataFrame) :
  cells_satisfy c P df -> cells_satisfy c P (select_rows mask df).
Proof.
  unfold cells_satisfy. intros H cells Hc. rewrite column_select_rows in Hc.
  destruct (column c df) as [cells0|]; [|discriminate].
  inversion Hc; subst. apply select_forall. apply H. reflexivity.
Qed.

Lemma ip_mask_length (ip_filter : string) (df : DataFrame) (mask : list bool) :
  ip_mask str_contains ip_filter df = Some mask -> (List.length mask <= nrows df)%nat.
Proof.
  unfold ip_mask, option_bind. intros H.
  assert (H0 : List.length (repeat false (nrows df)) = nrows df) by apply repeat_length.
  destruct (column "src_ip" df) as [c1|].
  - destruct (str_contains ip_filter c1) as [m1|]; [|discriminate]. simpl in H.
    pose proof (or_mask_length (repeat false (nrows df)) m1) as L1.
    destruct (column "dst_ip" df) as [c2|].
    + destruct (str_contains ip_filter c2) as [m2|]; [|discriminate]. simpl in H.
      inversion H; subst. pose proof (or_mask_length (or_mask (repeat false (nrows df)) m1) m2).
      lia.
    + inversion H; subst. lia.
  - destruct (column "dst_ip" df) as [c2|].
    + destruct (str_contains ip_filter c2) as [m2|]; [|discriminate]. simpl in H.
      inversion H; subst. pose proof (or_mask_length (repeat false (nrows df)) m2). lia.
    + inversion H; subst. lia.
Qed.

(** X18: The filters only take records away.  The frame they leave has the
    columns of the data; of a well-formed frame it is well formed and
    has no more records; every time stamp left lies in the chosen date
    range, so that records without a time stamp are gone whenever the
    data has a [timestamp] column; and with a protocol chosen, every
    record left has that protocol. *)
Theorem filters_keep_only_matching_records
    (data out : DataFrame) (start_date end_date : date) (ip_filter protocol_filter : string) :
  apply_filters str_contains data start_date end_date ip_filter protocol_filter = Some out ->
  colnames out = colnames data /\
  (wf_frame data = true -> wf_frame out = true /\ (nrows out <= nrows data)%nat) /\
  (forall cells, column "timestamp" out = Some cells ->
     Forall (fun v => exists t, v = VTime t /\
                                in_date_range start_date end_date (Some t) = true) cells) /\
  (protocol_filter <> "All" ->
   forall cells, column "protocol" out = Some cells ->
     Forall (fun v => v = VStr protocol_filter) cells).
Proof.
  unfold apply_filters, option_bind. intros H.
  (* the date range *)
  assert (H1 : exists f1,
            (if has_column "timestamp" data
             then match column "timestamp" data with
                  | Some tcells =>
                      match time_cells tcells with
                      | Some ts => Some (select_rows (map (in_date_range start_date end_date) ts)
                                                     data)
                      | None => None
                      end
                  | None => None
                  end
             else Some data) = Some f1).
  { destruct (if has_column "timestamp" data then _ else _) as [f1|]; [eauto | discriminate]. }
  destruct H1 as [f1 E1]. rewrite E1 in H.
  assert (P1 : colnames f1 = colnames data /\
               (wf_frame data = true -> wf_frame f1 = true /\ (nrows f1 <= nrows data)%nat) /\
               cells_satisfy "timestamp"
                 (fun v => exists t, v = VTime t /\
                                     in_date_range start_date end_date (Some t) = true) f1).
  { destruct (has_column "timestamp" data) eqn:Hts.
    - destruct (column "timestamp" data) as [tcells|] eqn:Hc; [|discriminate].
      destruct (time_cells tcells) as [ts|] eqn:Ht; [|discriminate].
      inversion E1; subst f1. split; [apply colnames_select_rows|]. split.
      + intros Hwf. apply select_rows_wf; [exact Hwf|].
        rewrite length_map, (time_cells_length _ _ Ht), (wf_column_length _ _ _ Hwf Hc). lia.
      + intros cells Hcells. rewrite column_select_rows, Hc in Hcells.
        inversion Hcells; subst. apply in_range_cells. exact Ht.
    - inversion E1; subst f1. split; [reflexivity|]. split; [auto|].
      intros cells Hcells. apply column_some_has_column in Hcells. congruence. }
  destruct P1 as (C1 & W1 & T1).
  (* the address *)
  assert (H2 : exists f2,
            (if negb (String.eqb ip_filter "") &&
                (has_column "src_ip" f1 || has_column "dst_ip" f1)
             then match ip_mask str_contains ip_filter f1 with
                  | Some mask => Some (select_rows mask f1)
                  | None => None
                  end
             else Some f1) = Some f2).
  { destruct (if negb (String.eqb ip_filter "") && _ then _ else _) as [f2|];
      [eauto | discriminate]. }
  destruct H2 as [f2 E2]. rewrite E2 in H.
  assert (P2 : colnames f2 = colnames data /\
               (wf_frame data = true -> wf_frame f2 = true /\ (nrows f2 <= nrows data)%nat) /\
               cells_satisfy "timestamp"
                 (fun v => exists t, v = VTime t /\
                                     in_date_range start_date end_date (Some t) = true) f2).
  { destruct (negb (String.eqb ip_filter "") &&
              (has_column "src_ip" f1 || has_column "dst_ip" f1)).
    - destruct (ip_mask str_contains ip_filter f1) as [mask|] eqn:Em; [|discriminate].
      inversion E2; subst f2. split; [rewrite colnames_select_rows; exact C1|]. split.
      + intros Hwf. destruct (W1 Hwf) as [Hw Hn].
        destruct (select_rows_wf mask f1 Hw (ip_mask_length _ _ _ Em)) as [Hw' Hn'].
        split; [exact Hw' | lia].
      + apply cells_satisfy_select. exact T1.
    - inversion E2; subst f2. auto. }
  destruct P2 as (C2 & W2 & T2).
  (* the protocol *)
  destruct (String.eqb_spec protocol_filter "All") as [Eall|Eall]; simpl in H.
  - inversion H; subst out. split; [exact C2|]. split; [exact W2|]. split; [exact T2|].
    intros Hne. contradiction.
  - destruct (has_column "protocol" f2) eqn:Hp.
    + destruct (column "protocol" f2) as [pcells|] eqn:Hc; [|discriminate].
      inversion H; subst out. split; [rewrite colnames_select_rows; exact C2|]. split.
      * intros Hwf. destruct (W2 Hwf) as [Hw Hn].
        destruct (select_rows_wf (map (protocol_is protocol_filter) pcells) f2 Hw) as [Hw' Hn'].
        { rewrite length_map, (wf_column_length _ _ _ Hw Hc). lia. }
        split; [exact Hw' | lia].
      * split; [apply cells_satisfy_select; exact T2|].
        intros _ cells Hcells. rewrite column_select_rows, Hc in Hcells.
        inversion Hcells; subst. apply protocol_cells.
    + inversion H; subst out. split; [exact C2|]. split; [exact W2|]. split; [exact T2|].
      intros _ cells Hcells. apply column_some_has_column in Hcells. congruence.
Qed.

(** X19: Pressing [Apply Filters] with the filters as the upload left them
    (the dates of the earliest and of the latest time stamp, no address,
    every protocol) keeps exactly the records that have a time stamp: a
    record without one is dropped, although no filter was set.  When
    every record of a well-formed frame has a time stamp, the frame is
    left as it is. *)
Theorem untouched_filters_drop_the_records_without_time_stamp
    (data : DataFrame) (tcells : list value) (ts : list (option PyTime.datetime))
    (a b : PyTime.datetime) :
  column "timestamp" data = Some tcells ->
  time_cells tcells = Some ts ->
  (forall t, In (Some t) ts -> PyTime.valid t = true) ->
  min_time ts = Some a -> max_time ts = Some b ->
  apply_filters str_contains data (date_of a) (date_of b) "" "All"
  = Some (select_rows (map is_stamped ts) data) /\
  nrows (select_rows (map is_stamped ts) data) = count_present ts /\
  (wf_frame data = true -> (forall ot, In ot ts -> is_stamped ot = true) ->
   select_rows (map is_stamped ts) data = data).
Proof.
  intros Hc Ht Hvalid Hmin Hmax.
  pose proof (SpanFacts.min_time_spec ts) as Smin. rewrite Hmin in Smin.
  pose proof (SpanFacts.max_time_spec ts) as Smax. rewrite Hmax in Smax.
  destruct Smin as [Ha Smin]. destruct Smax as [Hb Smax].
  assert (Hmask : map (in_date_range (date_of a) (date_of b)) ts = map is_stamped ts).
  { apply map_ext_in. intros [t|] Hin; [|reflexivity]. simpl.
    rewrite (lt_not_before_after t a _ (Smin t Hin) (not_before_midnight a (Hvalid a Ha))).
    rewrite (lt_not_before_after _ b t (not_after_end_of_day b (Hvalid b Hb)) (Smax t Hin)).
    reflexivity. }
  split.
  { unfold apply_filters, option_bind.
    rewrite (column_some_has_column _ _ _ Hc), Hc, Ht, Hmask. reflexivity. }
  split; [apply stamped_count|].
  intros Hwf Hall.
  assert (Htrue : Forall (fun b0 => b0 = true) (map is_stamped ts)).
  { rewrite Forall_forall. intros b0 Hin. apply in_map_iff in Hin.
    destruct Hin as [ot [E Hin]]. subst b0. apply Hall. exact Hin. }
  assert (Hlen : List.length (map is_stamped ts) = nrows data).
  { rewrite length_map, (time_cells_length _ _ Ht). apply (wf_column_length _ _ _ Hwf Hc). }
  unfold select_rows. destruct data as [n cols]. simpl in *. f_equal.
  - rewrite <- Hlen. clear -Htrue. induction (map is_stamped ts) as [|x l IH]; [reflexivity|].
    inversion Htrue; subst. simpl. f_equal. apply IH. assumption.
  - unfold wf_frame in Hwf. simpl in Hwf. rewrite forallb_forall in Hwf.
    rewrite <- (map_id cols) at 2. apply map_ext_in. intros [k w] Hin. simpl. f_equal.
    apply select_all; [exact Htrue|]. rewrite Hlen. symmetry. apply Nat.eqb_eq.
    apply (Hwf (k, w) Hin).
Qed.

End SidebarFilters.

Lemma filters_keep_only_matching_records_witness :
  exists out,
    apply_filters never_contains gap_frame (2023, 10, 1)%Z (2023, 10, 31)%Z "" "tcp" = Some out /\
    colnames out = ["timestamp"; "protocol"] /\
    (nrows out <= 3)%nat.
Proof.
  destruct (apply_filters never_contains gap_frame (2023, 10, 1)%Z (2023, 10, 31)%Z "" "tcp")
    as [out|] eqn:Hf; [|vm_compute in Hf; discriminate].
  exists out. split; [reflexivity|].
  destruct (filters_keep_only_matching_records never_contains gap_frame out _ _ _ _ Hf)
    as (Hcols & Hwf & _).
  split; [exact Hcols|]. exact (proj2 (Hwf eq_refl)).
Defined.

Lemma untouched_filters_drop_the_records_without_time_stamp_witness :
  exists out,
    apply_filters never_contains gap_frame (2023, 10, 2)%Z (2023, 10, 6)%Z "" "All" = Some out /\
    nrows gap_frame = 3%nat /\ nrows out = 2%nat.
Proof.
  destruct (untouched_filters_drop_the_records_without_time_stamp
              never_contains gap_frame
              [VTime (PyTime.DateTime 2023 10 2 9 0 0); VNaN;
               VTime (PyTime.DateTime 2023 10 6 17 0 0)]
              [Some (PyTime.DateTime 2023 10 2 9 0 0); None;
               Some (PyTime.DateTime 2023 10 6 17 0 0)]
              (PyTime.DateTime 2023 10 2 9 0 0) (PyTime.DateTime 2023 10 6 17 0 0)
              eq_refl eq_refl)
    as (Hf & Hn & _); [|reflexivity|reflexivity|].
  { intros t [E|[E|[E|[]]]]; inversion E; reflexivity. }
  eexists. split; [exact Hf|]. split; [reflexivity | exact Hn].
Defined.

(** ** A log in the sample format *)

Module TableFacts.

Lemma digit_no_equals (c : ascii) : PyStr.is_digit c = true -> no_equals_sign c = true.
Proof.
  destruct c as [b0 b1 b2 b3 b4 b5 b6 b7].
  destruct b0, b1, b2, b3, b4, b5, b6, b7; vm_compute; intros H;
    first [reflexivity | discriminate H].
Qed.

Lemma digits_no_equals (s : string) :
  all_chars PyStr.is_digit s = true -> all_chars no_equals_sign s = true.
Proof.
  induction s as [|c s IH]; [reflexivity|]. simpl. intros H.
  apply andb_true_iff in H. destruct H as [Hc Hs].
  rewrite (digit_no_equals c Hc), (IH Hs). reflexivity.
Qed.

Lemma stamp_lead_ok (t : PyTime.datetime) : lead_ok (stamp_text t ++ " ") = true.
Proof.
  unfold lead_ok. apply andb_true_iff. split.
  - rewrite StampFacts.stamp_text_append.
    repeat (rewrite KvFacts.all_chars_append || cbn [all_chars]).
    rewrite (digits_no_equals _ (StampFacts.pad4_digits _)).
    rewrite !(digits_no_equals _ (StampFacts.pad2_digits _)). reflexivity.
  - assert (E : PyStr.endswith " " (stamp_text t ++ " ") = true)
      by apply TokenFacts.endswith_append.
    rewrite E. destruct (stamp_text t ++ " ")%string; reflexivity.
Qed.

(** The record the key-value pass builds for a line in the sample
    format. *)
Lemma record_line_fields (r : log_record) (k : string) :
  PyTime.valid (fst r) = true -> forallb wf_token (snd r) = true ->
  dict_get k (kv_line_data (record_line r))
  = match last_value k (snd r) with
    | Some v => Some (VStr v)
    | None => if String.eqb "timestamp" k then Some (VTime (fst r)) else None
    end.
Proof.
  intros Hv Hwf. unfold kv_line_data, record_line.
  rewrite (TokenFacts.findall_skip_lead _ _ (stamp_lead_ok (fst r))).
  rewrite (TokenFacts.findall_token_line _ Hwf).
  rewrite (TokenFacts.store_pairs_tokens _ _ _ Hwf).
  destruct (last_value k (snd r)); [reflexivity|].
  rewrite KvFacts.append_assoc.
  rewrite (StampFacts.extract_timestamp_stamp (fst r) _ Hv).
  cbn [dict_set dict_get]. destruct (String.eqb "timestamp" k); reflexivity.
Qed.

Lemma existsb_over_map {A B : Type} (f : B -> bool) (g : A -> B) (l : list A) :
  existsb f (map g l) = existsb (fun x => f (g x)) l.
Proof. induction l as [|a l IH]; simpl; [reflexivity|]. rewrite IH. reflexivity. Qed.

Lemma existsb_agree {A : Type} (f g : A -> bool) (l : list A) :
  (forall x, In x l -> f x = g x) -> existsb f l = existsb g l.
Proof.
  induction l as [|a l IH]; intros H; simpl; [reflexivity|].
  rewrite (H a (or_introl eq_refl)), IH; [reflexivity|].
  intros x Hx. apply H. right. exact Hx.
Qed.

Lemma dict_get_none (k : string) (d : dict) :
  dict_get k d = None <-> ~ In k (map fst d).
Proof.
  induction d as [|[k' v] d IH]; simpl; [tauto|].
  destruct (String.eqb_spec k' k).
  - subst. split; [discriminate | intros H; exfalso; apply H; left; reflexivity].
  - rewrite IH. tauto.
Qed.

Lemma assoc_get_keys {A : Type} (f : string -> A) (k : string) (ks : list string) :
  assoc_get k (map (fun k' => (k', f k')) ks)
  = if existsb (String.eqb k) ks then Some (f k) else None.
Proof.
  induction ks as [|k' ks IH]; simpl; [reflexivity|].
  rewrite (String.eqb_sym k k'). destruct (String.eqb_spec k' k); simpl; [subst; reflexivity|].
  exact IH.
Qed.

(** A column of the frame built from a list of dicts. *)
Lemma column_of_dicts (k : string) (data : list dict) :
  column k (DataFrame_of_dicts data)
  = if existsb (fun d => match dict_get k d with Some _ => true | None => false end) data
    then Some (map (fun d => match dict_get k d with Some v => v | None => VNaN end) data)
    else None.
Proof.
  unfold column, DataFrame_of_dicts. simpl.
  rewrite (assoc_get_keys (fun k' => map (fun d => match dict_get k' d with
                                                   | Some v => v
                                                   | None => VNaN
                                                   end) data)).
  assert (E : existsb (String.eqb k) (keys_union data)
              = existsb (fun d => match dict_get k d with Some _ => true | None => false end)
                        data).
  { apply eq_true_iff_eq. rewrite !existsb_exists. split.
    - intros [x [Hx E]]. apply String.eqb_eq in E. subst x.
      apply ShapeFacts.keys_union_in in Hx. destruct Hx as [d [Hd Hk]].
      exists d. split; [exact Hd|].
      destruct (dict_get k d) eqn:Eg; [reflexivity|].
      apply dict_get_none in Eg. contradiction.
    - intros [d [Hd E]]. exists k. split; [|apply String.eqb_refl].
      apply ShapeFacts.keys_union_in. exists d. split; [exact Hd|].
      destruct (dict_get k d) eqn:Eg; [|discriminate].
      destruct (in_dec string_dec k (map fst d)) as [Hin|Hn]; [exact Hin|].
      apply dict_get_none in Hn. congruence. }
  rewrite E. reflexivity.
Qed.

Section Coercion.

Context {P : Pandas}.

Lemma coerce_column_cells (f : list value -> option (list value)) (c k : string)
    (df df' : DataFrame) :
  coerce_column f c df = Some df' ->
  (k <> c -> column k df' = column k df) /\
  (column c df = None -> column c df' = None) /\
  (forall cells, column c df = Some cells ->
                 exists cells', f cells = Some cells' /\ column c df' = Some cells').
Proof.
  unfold coerce_column. destruct (column c df) as [cells|] eqn:Ec.
  - destruct (f cells) as [cells'|] eqn:Ef; [|discriminate].
    intros H. inversion H; subst df'. split; [|split].
    + intros Hne. apply column_set_column_other. exact Hne.
    + discriminate.
    + intros cells0 E. inversion E; subst. exists cells'.
      split; [exact Ef | apply column_set_column_same].
  - intros H. inversion H; subst df'. split; [auto|]. split; [auto|]. discriminate.
Qed.

Lemma coerce_columns_cells (f : list value -> option (list value)) (cs : list string)
    (k : string) (df df' : DataFrame) :
  NoDup cs ->
  coerce_columns f cs df = Some df' ->
  (~ In k cs -> column k df' = column k df) /\
  (column k df = None -> column k df' = None) /\
  (In k cs -> forall cells, column k df = Some cells ->
              exists cells', f cells = Some cells' /\ column k df' = Some cells').
Proof.
  revert df. induction cs as [|c cs IH]; intros df Hnd H; simpl in H.
  - inversion H; subst. split; [auto|]. split; [auto|]. intros [].
  - destruct (coerce_column f c df) as [df1|] eqn:E1; [|discriminate].
    inversion Hnd as [|? ? Hnot Hnd']; subst.
    destruct (IH df1 Hnd' H) as (I1 & I2 & I3).
    destruct (coerce_column_cells f c k df df1 E1) as (C1 & _ & _).
    destruct (coerce_column_cells f c c df df1 E1) as (_ & C2 & C3).
    split; [|split].
    + intros Hn. rewrite I1 by (intros Hin; apply Hn; right; exact Hin).
      apply C1. intros E. apply Hn. left. congruence.
    + intros Hnone. apply I2.
      destruct (String.eqb_spec k c) as [E|E]; [subst; apply C2; exact Hnone|].
      rewrite (C1 E). exact Hnone.
    + intros [E|Hin] cells Hc.
      * subst c. destruct (C3 cells Hc) as (cells' & Ef & Ec).
        exists cells'. split; [exact Ef|]. rewrite I1 by exact Hnot. exact Ec.
      * assert (Hne : k <> c) by (intros E; subst; contradiction).
        apply (I3 Hin). rewrite (C1 Hne). exact Hc.
Qed.

Lemma rename_synonym_absent (old_col new_col : string) (df : DataFrame) :
  has_column old_col df = false -> rename_synonym old_col new_col df = df.
Proof. intros H. unfold rename_synonym. rewrite H. reflexivity. Qed.

Lemma standardize_columns_absent (df : DataFrame) :
  (forall old_col, In old_col (map fst col_mapping) -> has_column old_col df = false) ->
  standardize_columns df = df.
Proof.
  intros H. unfold standardize_columns, col_mapping. cbn [fold_left fst snd].
  rewrite (rename_synonym_absent "source_ip" "src_ip" df) by (apply H; simpl; auto).
  rewrite (rename_synonym_absent "destination_ip" "dst_ip" df) by (apply H; simpl; auto).
  rewrite (rename_synonym_absent "source_port" "src_port" df) by (apply H; simpl; auto).
  rewrite (rename_synonym_absent "destination_port" "dst_port" df) by (apply H; simpl; auto 10).
  reflexivity.
Qed.

Lemma has_column_none (c : string) (df : DataFrame) :
  column c df = None -> has_column c df = false.
Proof.
  intros H. destruct (has_column c df) eqn:E; [|reflexivity].
  destruct (has_column_column_some _ _ E) as [cells Hc]. congruence.
Qed.

End Coercion.

End TableFacts.

Section SampleFormat.

Context {P : Pandas}.
Import TableFacts.

(** X20: When the key-value detector is given lines in the sample format
    (a valid date and time, a blank, well-formed key=value tokens, none
    of key [timestamp] and none with one of the long synonyms), the
    frame it returns is the table of the records: one record per line,
    in order; the [timestamp] column holds the instants of the lines;
    every other column is named by a key that occurs, lower-cased and
    with hyphens replaced, and holds for each line the value of its last
    token of that key, or the missing value; the columns [bytes],
    [src_port] and [dst_port] hold what [to_numeric] makes of those
    cells.  A key that occurs on no line gives no column. *)
Theorem key_value_log_becomes_the_table_of_its_records
    (recs : list log_record) (df : DataFrame) (log : list log_event) :
  recs <> [] ->
  (forall r, In r recs ->
     PyTime.valid (fst r) = true /\ forallb wf_token (snd r) = true /\
     has_field "timestamp" r = false /\
     forall old_col, In old_col (map fst col_mapping) -> has_field old_col r = false) ->
  kv_detector (map record_line recs) = (Won df, log) ->
  nrows df = List.length recs /\
  log = [InfoParsedKeyValue (List.length recs)] /\
  column "timestamp" df = Some (map (fun r => VTime (fst r)) recs) /\
  forall k, k <> "timestamp" ->
    (existsb (has_field k) recs = false -> column k df = None) /\
    (existsb (has_field k) recs = true ->
     if existsb (String.eqb k) numeric_columns
     then exists cells', to_numeric (map (field_cell k) recs) = Some cells' /\
                         column k df = Some cells'
     else column k df = Some (map (field_cell k) recs)).
Proof.
  intros Hne Hrecs Hk.
  (* the dicts of the lines *)
  assert (Hget : forall r k, In r recs ->
            dict_get k (kv_line_data (record_line r))
            = match last_value k (snd r) with
              | Some v => Some (VStr v)
              | None => if String.eqb "timestamp" k then Some (VTime (fst r)) else None
              end).
  { intros r k Hin. destruct (Hrecs r Hin) as (Hv & Hwf & _).
    apply record_line_fields; assumption. }
  assert (Hdata : kv_data (map record_line recs) = map kv_line_data (map record_line recs)).
  { unfold kv_data. apply ResampleFacts.filter_all_true. rewrite Forall_forall. intros d Hin.
    apply in_map_iff in Hin. destruct Hin as [line [E Hin]].
    apply in_map_iff in Hin. destruct Hin as [r [E' Hin]]. subst line d.
    pose proof (Hget r "timestamp" Hin) as G. destruct (Hrecs r Hin) as (_ & _ & Hts & _).
    unfold has_field in Hts. destruct (last_value "timestamp" (snd r)); [discriminate|].
    rewrite String.eqb_refl in G.
    destruct (kv_line_data (record_line r)); [discriminate | reflexivity]. }
  set (data := map kv_line_data (map record_line recs)) in *.
  (* the columns of the frame before the conversions *)
  assert (Hcol0 : forall k,
            column k (DataFrame_of_dicts data)
            = if String.eqb "timestamp" k then Some (map (fun r => VTime (fst r)) recs)
              else if existsb (has_field k) recs then Some (map (field_cell k) recs)
                   else None).
  { intros k. rewrite column_of_dicts. unfold data. rewrite !existsb_over_map, !map_map.
    destruct (String.eqb_spec "timestamp" k) as [E|E].
    - subst k.
      assert (Ex : existsb (fun r => match dict_get "timestamp" (kv_line_data (record_line r)) with
                                     | Some _ => true | None => false end) recs = true).
      { destruct recs as [|r recs']; [congruence|]. cbn [existsb].
        rewrite (Hget r "timestamp" (or_introl eq_refl)).
        destruct (last_value "timestamp" (snd r)); reflexivity. }
      rewrite Ex. f_equal. apply map_ext_in. intros r Hin. rewrite (Hget r _ Hin).
      destruct (Hrecs r Hin) as (_ & _ & Hts & _). unfold has_field in Hts.
      destruct (last_value "timestamp" (snd r)); [discriminate | reflexivity].
    - assert (Ex : existsb (fun r => match dict_get k (kv_line_data (record_line r)) with
                                     | Some _ => true | None => false end) recs
                   = existsb (has_field k) recs).
      { apply existsb_agree. intros r Hin. rewrite (Hget r k Hin). unfold has_field.
        destruct (last_value k (snd r)); [reflexivity|].
        destruct (String.eqb_spec "timestamp" k); [contradiction | reflexivity]. }
      rewrite Ex. destruct (existsb (has_field k) recs); [|reflexivity].
      f_equal. apply map_ext_in. intros r Hin. rewrite (Hget r k Hin). unfold field_cell.
      destruct (last_value k (snd r)); [reflexivity|].
      destruct (String.eqb_spec "timestamp" k); [contradiction | reflexivity]. }
  (* the detector *)
  unfold kv_detector in Hk. rewrite Hdata in Hk.
  assert (Hlen : List.length data = List.length recs)
    by (unfold data; rewrite !length_map; reflexivity).
  destruct data as [|d data'] eqn:Ed.
  { destruct recs; [congruence | discriminate Hlen]. }
  rewrite <- Ed in *. clear Ed d data'.
  assert (Hk' : match kv_frame data with
                | Some df0 => (Won df0, [InfoParsedKeyValue (List.length data)])
                | None => (Raised, [InfoParsedKeyValue (List.length data); ErrKeyValueRaised])
                end = (Won df, log)).
  { destruct data; [destruct recs; [congruence | discriminate Hlen] | exact Hk]. }
  clear Hk.
  destruct (kv_frame data) as [df0|] eqn:Ef; [|discriminate].
  inversion Hk'; subst df0 log. clear Hk'.
  unfold kv_frame in Ef.
  assert (Ec : exists df2,
            coerce_columns to_numeric numeric_columns (DataFrame_of_dicts data) = Some df2 /\
            df = standardize_columns df2).
  { unfold numeric_columns. cbn [coerce_columns].
    destruct (coerce_column to_numeric "bytes" (DataFrame_of_dicts data)) as [df1|];
      [|discriminate].
    destruct (coerce_columns to_numeric
                ["src_port"; "dst_port"; "source_port"; "destination_port"] df1) as [df2|] eqn:E2;
      [|discriminate].
    exists df2. split; [exact E2 | congruence]. }
  destruct Ec as (df2 & Ec & Edf).
  assert (Hnd : NoDup numeric_columns).
  { unfold numeric_columns. repeat constructor; simpl; intuition discriminate. }
  destruct (ShapeFacts.coerce_columns_shape _ _ _ _ Ec) as [Hrows _].
  assert (Hcells : forall k,
            (~ In k numeric_columns -> column k df2 = column k (DataFrame_of_dicts data)) /\
            (column k (DataFrame_of_dicts data) = None -> column k df2 = None) /\
            (In k numeric_columns -> forall cells,
               column k (DataFrame_of_dicts data) = Some cells ->
               exists cells', to_numeric cells = Some cells' /\ column k df2 = Some cells')).
  { intros k. apply (coerce_columns_cells to_numeric numeric_columns k _ _ Hnd Ec). }
  assert (Hstd : standardize_columns df2 = df2).
  { apply standardize_columns_absent. intros old_col Hold.
    apply has_column_none. apply (proj1 (proj2 (Hcells old_col))).
    rewrite Hcol0.
    assert (Hts : String.eqb "timestamp" old_col = false).
    { simpl in Hold. destruct Hold as [E|[E|[E|[E|[]]]]]; subst old_col; reflexivity. }
    rewrite Hts.
    assert (Hno : existsb (has_field old_col) recs = false).
    { apply not_true_iff_false. intros Hex. apply existsb_exists in Hex.
      destruct Hex as [r [Hin Hf]]. destruct (Hrecs r Hin) as (_ & _ & _ & Hsyn).
      rewrite (Hsyn old_col Hold) in Hf. discriminate. }
    rewrite Hno. reflexivity. }
  rewrite Hstd in Edf. subst df.
  split; [rewrite Hrows; exact Hlen|].
  split; [rewrite Hlen; reflexivity|].
  split.
  { rewrite (proj1 (Hcells "timestamp")).
    - rewrite Hcol0. reflexivity.
    - unfold numeric_columns. simpl. intuition discriminate. }
  intros k Hkne.
  assert (Hts : String.eqb "timestamp" k = false).
  { apply String.eqb_neq. congruence. }
  split.
  - intros Hno. apply (proj1 (proj2 (Hcells k))). rewrite Hcol0, Hts, Hno. reflexivity.
  - intros Hyes.
    destruct (existsb (String.eqb k) numeric_columns) eqn:En.
    + apply (proj2 (proj2 (Hcells k))).
      * apply existsb_exists in En. destruct En as [x [Hx E]].
        apply String.eqb_eq in E. subst x. exact Hx.
      * rewrite Hcol0, Hts, Hyes. reflexivity.
    + rewrite (proj1 (Hcells k)).
      * rewrite Hcol0, Hts, Hyes. reflexivity.
      * intros Hin. apply not_true_iff_false in En. apply En.
        apply existsb_exists. exists k. split; [exact Hin | apply String.eqb_refl].
Qed.

End SampleFormat.

Lemma key_value_log_becomes_the_table_of_its_records_witness :
  exists df log,
    kv_detector (map record_line sample_records) = (Won df, log) /\
    nrows df = 2%nat /\
    column "timestamp" df
    = Some [VTime (PyTime.DateTime 2023 10 5 8 23 45); VTime (PyTime.DateTime 2023 10 5 8 24 12)] /\
    column "comment" df = Some [VNaN; VStr "web, allowed"].
Proof.
  destruct (kv_detector (map record_line sample_records)) as [[df| |] log] eqn:Hk;
    try (vm_compute in Hk; discriminate).
  exists df, log. split; [reflexivity|].
  destruct (key_value_log_becomes_the_table_of_its_records sample_records df log)
    as (Hrows & _ & Hts & Hcols).
  - discriminate.
  - intros r [E|[E|[]]]; subst r; (split; [reflexivity|]); (split; [reflexivity|]);
      (split; [reflexivity|]);
      intros old_col [E|[E|[E|[E|[]]]]]; subst old_col; reflexivity.
  - exact Hk.
  - split; [exact Hrows|]. split; [exact Hts|].
    destruct (Hcols "comment") as [_ Hc]; [discriminate|].
    exact (Hc eq_refl).
Defined.
